(* ===================================================================== *)
(* Speed Demon core: a shallow embedding of the process optimizer, the   *)
(* game detector, the process monitor and the optimization scheduler,    *)
(* with the properties of their natural-language specification.          *)
(*                                                                       *)
(*   src/core/optimizer.py      -> Module Optimizer                      *)
(*   src/core/game_detector.py  -> Module GameDetector                   *)
(*   src/core/monitor.py        -> Module Monitor                        *)
(*   src/core/scheduler.py      -> Module Scheduler                      *)
(*                                                                       *)
(* Conventions of the embedding                                          *)
(*   - Python dicts keep insertion order; they are association lists     *)
(*     with unique keys (Module PyDict); Python sets are gsets.          *)
(*   - A Python float is a finite IEEE 754 binary64 number, held as the  *)
(*     rational it denotes (Q).  Comparisons are exact; every arithmetic *)
(*     operation rounds its exact result to the nearest binary64 number, *)
(*     ties to even (PyNum.binary64); int() truncates toward zero.       *)
(*     Python ints are Z; a sum that mixes both is a PyNum.num.          *)
(*   - The operating system is an explicit value (Module OS): a process  *)
(*     table, a clock, the platform name and the outcome of each OS      *)
(*     call that the code guards with try/except.  A call of the program *)
(*     sees one such value; the process table does not change while a    *)
(*     single call runs.                                                 *)
(*   - Exceptions that leave a function are results of a sum type.       *)
(*   - Log lines are kept where a property speaks of them (monitor and   *)
(*     scheduler); writing config/schedules.json is left out.            *)
(* ===================================================================== *)

From Stdlib Require Import ZArith QArith Qround Qabs Qpower.
From Stdlib Require Import String Ascii List Bool Lia Lqa.
From Stdlib Require Import DecimalString Sorted Permutation.
From stdpp Require Import base decidable option list gmap strings.

Import ListNotations.
Local Open Scope string_scope.
Local Open Scope Z_scope.

(* ===================================================================== *)
(* Python strings: str.lower() and the substring test `a in b`           *)
(* ===================================================================== *)
Module PyStr.

(** ASCII case folding: the process names and tokens of the program
    are ASCII; code points outside A-Z are left alone. *)
Definition lower_ascii (c : ascii) : ascii :=
  let n := nat_of_ascii c in
  if (65 <=? n)%nat && (n <=? 90)%nat then ascii_of_nat (n + 32) else c.

Fixpoint lower (s : string) : string :=
  match s with
  | EmptyString => EmptyString
  | String c t => String (lower_ascii c) (lower t)
  end.

(** [str_in a b] is Python's [a in b] on strings. *)
Fixpoint str_in (needle hay : string) : bool :=
  String.prefix needle hay ||
  match hay with
  | EmptyString => false
  | String _ t => str_in needle t
  end.

(** [any(tok in s for tok in toks)] *)
Definition any_in (toks : list string) (s : string) : bool :=
  existsb (fun tok => str_in tok s) toks.

(** [str(n)] for a length. *)
Definition of_nat (n : nat) : string :=
  NilEmpty.string_of_uint (Nat.to_uint n).

End PyStr.

(* ===================================================================== *)
(* Python dicts: insertion-ordered maps                                  *)
(* ===================================================================== *)
Module PyDict.
Section Dict.
Context {K V : Type} `{EqDecision K}.

Definition dict := list (K * V).

Definition keys (d : dict) : list K := map fst d.
Definition values (d : dict) : list V := map snd d.

(** [d.get(k)] *)
Fixpoint get (k : K) (d : dict) : option V :=
  match d with
  | [] => None
  | (k', v) :: r => if decide (k = k') then Some v else get k r
  end.

(** [k in d] *)
Definition mem (k : K) (d : dict) : bool :=
  match get k d with Some _ => true | None => false end.

(** [d[k] = v]: an existing key keeps its position, a new key goes last. *)
Fixpoint set (k : K) (v : V) (d : dict) : dict :=
  match d with
  | [] => [(k, v)]
  | (k', v') :: r =>
      if decide (k = k') then (k, v) :: r else (k', v') :: set k v r
  end.

(** [del d[k]] (the callers test [k in d] first) *)
Fixpoint del (k : K) (d : dict) : dict :=
  match d with
  | [] => []
  | (k', v') :: r => if decide (k = k') then r else (k', v') :: del k r
  end.

(** [d.update(e)] *)
Definition update (d e : dict) : dict :=
  fold_left (fun acc kv => set (fst kv) (snd kv) acc) e d.

(** Every key occurs once. *)
Definition wf (d : dict) : Prop := NoDup (keys d).

Fixpoint count_key (k : K) (d : dict) : nat :=
  match d with
  | [] => 0
  | (k', _) :: r => (if decide (k = k') then 1 else 0) + count_key k r
  end.

End Dict.
Arguments dict : clear implicits.
End PyDict.


(* ===================================================================== *)
(* Python lists: sorted(..., reverse=True), slices, float helpers        *)
(* ===================================================================== *)
Module PyNum.

(** [a < b] on floats and ints: the comparison of the numbers they
    denote. *)
Definition q_ltb (a b : Q) : bool :=
  (Qnum a * Z.pos (Qden b) <? Qnum b * Z.pos (Qden a))%Z.

Definition q_eqb (a b : Q) : bool := Qeq_bool a b.

(** [max(a, b)]: Python returns the first argument unless the second
    is strictly greater. *)
Definition q_max (a b : Q) : Q := if q_ltb a b then b else a.

(** [int(x)]: truncation toward zero. *)
Definition q_int (x : Q) : Z := Z.quot (Qnum x) (Z.pos (Qden x)).

(** The nearest integer, a tie going to the even one. *)
Definition round_half_even (x : Q) : Z :=
  let f := Qfloor x in
  match (x - inject_Z f ?= 1 # 2)%Q with
  | Lt => f
  | Gt => f + 1
  | Eq => if Z.even f then f else f + 1
  end.

(** [floor(log2(x))] for [x > 0]. *)
Definition ilog2 (x : Q) : Z :=
  let k := Z.log2 (Qnum x) - Z.log2 (Z.pos (Qden x)) in
  if q_ltb x (2 ^ k)%Q then k - 1 else k.

(** Rounding to binary64: 53 significant bits, the exponent of the last
    bit not below -1074 (gradual underflow), round to nearest, ties to
    even.  Results of magnitude 2^1024 and above, which the hardware
    turns into an infinity, are not bounded here; see [calculate_boost]
    for why none matters there. *)
Definition binary64 (x : Q) : Q :=
  if Qeq_bool x 0 then 0%Q
  else let e := Z.max (ilog2 (Qabs x) - 52) (-1074) in
       (inject_Z (round_half_even (x / 2 ^ e)) * 2 ^ e)%Q.

(** [a + b], [a - b], [a * b], [a / b] on floats ([b] is not 0). *)
Definition float_add (a b : Q) : Q := binary64 (a + b).
Definition float_sub (a b : Q) : Q := binary64 (a - b).
Definition float_mul (a b : Q) : Q := binary64 (a * b).
Definition float_div (a b : Q) : Q := binary64 (a / b).

(** A number that is an int or a float. *)
Inductive num :=
| Int (n : Z)
| Float (x : Q).

(** [float(a)] *)
Definition to_float (a : num) : Q :=
  match a with
  | Int n => binary64 (inject_Z n)
  | Float x => x
  end.

(** [a + b] on numbers: exact on two ints, a float addition otherwise. *)
Definition num_add (a b : num) : num :=
  match a, b with
  | Int m, Int n => Int (m + n)
  | _, _ => Float (float_add (to_float a) (to_float b))
  end.

(** [sum(xs)]: from the int 0, left to right. *)
Definition py_sum (xs : list num) : num := fold_left num_add xs (Int 0).

(** [int(a)] *)
Definition py_int (a : num) : Z :=
  match a with
  | Int n => n
  | Float x => q_int x
  end.

(** [max(0, x)] for a float [x]: the int 0 unless [x] is above it. *)
Definition max0 (x : Q) : num := if q_ltb 0 x then Float x else Int 0.

(** [a / b] on ints, the quotient rounded once: ZeroDivisionError is
    [None]. *)
Definition truediv (a b : Z) : option Q :=
  if b =? 0 then None else Some (binary64 (inject_Z a / inject_Z b)).

End PyNum.


Module PyList.
Section Sorted.
Context {A : Type}.
(** [ltb x y]: the sort key of [x] is strictly below the key of [y]. *)
Variable ltb : A -> A -> bool.

(** One step of a stable descending sort: [x] stood before every
    element of [s] in the input, so it goes before the first element
    whose key is not above its own. *)
Fixpoint insert_desc (x : A) (s : list A) : list A :=
  match s with
  | [] => [x]
  | y :: r => if ltb x y then y :: insert_desc x r else x :: y :: r
  end.

(** [sorted(l, key=..., reverse=True)] and [l.sort(key=..., reverse=True)]:
    descending by key, equal keys in their input order. *)
Definition sorted_desc (l : list A) : list A := fold_right insert_desc [] l.

Definition ge_key (x y : A) : Prop := ltb x y = false.

End Sorted.

(** [sorted(l, key=...)] and [l.sort(key=...)]: ascending by key, equal
    keys in their input order.  [ltb x y]: the key of [x] is strictly
    below the key of [y]. *)
Definition sorted_asc {A} (ltb : A -> A -> bool) (l : list A) : list A :=
  sorted_desc (fun x y => ltb y x) l.

End PyList.

(* ===================================================================== *)
(* The operating system as the core sees it (psutil, platform, datetime) *)
(* ===================================================================== *)
Module OS.

(** [platform.system()] *)
Inductive platform := Windows | Linux | Darwin | OtherSystem.

Global Instance platform_eq_dec : EqDecision platform.
Proof. solve_decision. Defined.

(** psutil's priority classes on Windows (the values of the Win32
    constants they stand for). *)
Definition IDLE_PRIORITY_CLASS : Z := 64.
Definition BELOW_NORMAL_PRIORITY_CLASS : Z := 16384.
Definition NORMAL_PRIORITY_CLASS : Z := 32.
Definition ABOVE_NORMAL_PRIORITY_CLASS : Z := 32768.
Definition HIGH_PRIORITY_CLASS : Z := 128.
Definition REALTIME_PRIORITY_CLASS : Z := 256.

(** One entry of the process table.  The first group is what psutil
    reads, the second the outcome of the calls that the core wraps in
    try/except.  [cpu_percent] and [memory_percent] are the readings of
    psutil: finite floats that are not negative. *)
Record process := mk_process {
  p_name : string;
  p_nice : Z;
  p_affinity : list nat;
  p_cpu_percent : Q;
  p_memory_percent : Q;
  p_memory_mb : Q;             (* memory_info().rss / 1024 / 1024 *)
  p_num_threads : Z;
  p_status : string;
  p_create_time : Q;
  p_exe : option string;       (* None: exe() raises *)
  p_nice_denied : bool;        (* nice(v) raises AccessDenied *)
  p_affinity_denied : bool;    (* cpu_affinity(l) raises AccessDenied *)
  p_meminfo_fails : bool;      (* memory_info()/io_counters() raises *)
  p_trim_ok : bool;            (* the working-set trim goes through *)
  p_ionice_ok : bool;          (* the I/O priority call goes through *)
  p_name_denied : bool;        (* name() on a handle of psutil.Process(pid)
                                  raises AccessDenied *)
  p_nice_read_denied : bool    (* nice() without argument raises AccessDenied *)
}.

Definition with_nice (p : process) (v : Z) : process :=
  mk_process (p_name p) v (p_affinity p) (p_cpu_percent p)
    (p_memory_percent p) (p_memory_mb p) (p_num_threads p) (p_status p)
    (p_create_time p) (p_exe p)
    (p_nice_denied p) (p_affinity_denied p) (p_meminfo_fails p)
    (p_trim_ok p) (p_ionice_ok p) (p_name_denied p) (p_nice_read_denied p).

Definition with_affinity (p : process) (l : list nat) : process :=
  mk_process (p_name p) (p_nice p) l (p_cpu_percent p)
    (p_memory_percent p) (p_memory_mb p) (p_num_threads p) (p_status p)
    (p_create_time p) (p_exe p)
    (p_nice_denied p) (p_affinity_denied p) (p_meminfo_fails p)
    (p_trim_ok p) (p_ionice_ok p) (p_name_denied p) (p_nice_read_denied p).

(** [process.nice(v)]: [None] when psutil raises. *)
Definition set_nice (p : process) (v : Z) : option process :=
  if p_nice_denied p then None else Some (with_nice p v).

(** [process.cpu_affinity(l)]: [None] when psutil raises. *)
Definition set_affinity (p : process) (l : list nat) : option process :=
  if p_affinity_denied p then None else Some (with_affinity p l).

Record world := mk_world {
  w_platform : platform;
  w_procs : PyDict.dict Z process;  (* in process_iter() order *)
  w_cpu_count : nat;                (* psutil.cpu_count() *)
  w_now : Z;                        (* datetime.now() / time.time() *)
  w_powershell_ok : bool;           (* subprocess.run(["powershell", ..]) *)
  w_power_scheme : string;          (* output of powercfg /getactivescheme *)
  w_powercfg_ok : bool;             (* powercfg /setactive takes effect *)
  w_gpu_load : option Q             (* GPUtil.getGPUs()[0].load, if any *)
}.

Definition with_procs (w : world) (ps : PyDict.dict Z process) : world :=
  mk_world (w_platform w) ps (w_cpu_count w) (w_now w)
    (w_powershell_ok w) (w_power_scheme w) (w_powercfg_ok w) (w_gpu_load w).

Definition with_power_scheme (w : world) (s : string) : world :=
  mk_world (w_platform w) (w_procs w) (w_cpu_count w) (w_now w)
    (w_powershell_ok w) s (w_powercfg_ok w) (w_gpu_load w).

(** [psutil.Process(pid)]: [None] is the exception it raises,
    NoSuchProcess (a ValueError for a negative pid).  The process table
    holds the pids that psutil lists, none of them negative. *)
Definition Process (w : world) (pid : Z) : option process :=
  PyDict.get pid (w_procs w).

(** Write a process back after the calls made on its handle. *)
Definition put_process (w : world) (pid : Z) (p : process) : world :=
  with_procs w (PyDict.set pid p (w_procs w)).

(** [list(range(a, b))] *)
Definition range (a b : nat) : list nat := seq a (b - a).

End OS.

(* ===================================================================== *)
(* src/core/optimizer.py                                                 *)
(* ===================================================================== *)
Module Optimizer.
Import OS PyNum.

(** A value of a profile.  The built-in profiles hold strings and
    booleans; a custom profile is read from JSON and is not validated.
    A JSON value of another type (a number, null, a list) is no key of
    the priority maps and equals no affinity name, so that it acts
    through its truth value alone, as a boolean does. *)
Inductive pvalue :=
| PStr (s : string)
| PBool (b : bool).

(** An optimization profile is a dict; a custom one may lack any key.
    A custom entry that is no JSON object acts as one of these dicts
    does: as the empty dict when it is false, and as a dict without
    the key 'priority' otherwise (subscripting it raises). *)
Definition profile := PyDict.dict string pvalue.

(** The truth value of [profile.get(key)]. *)
Definition truth (v : option pvalue) : bool :=
  match v with
  | Some (PStr s) => negb (String.eqb s "")
  | Some (PBool b) => b
  | None => false
  end.

Definition gpu_acceleration (pr : profile) : bool :=
  truth (PyDict.get "gpu_acceleration" pr).

Definition memory_optimization (pr : profile) : bool :=
  truth (PyDict.get "memory_optimization" pr).

(** The display name of a profile, where it has one. *)
Definition pr_name (pr : profile) : string :=
  match PyDict.get "name" pr with
  | Some (PStr n) => n
  | _ => ""
  end.

(** The dict built by [_get_process_metrics]; [None] is the [{}] of
    its except branch. *)
Record metrics := mk_metrics {
  cpu_percent : Q;
  memory_mb : Q;
  num_threads : Z
}.

(** A value of [self.optimized_processes]. *)
Record opt_info := mk_info {
  name : string;
  profile_applied : profile;
  timestamp : Z;
  optimizations : list string;
  metrics_before : option metrics;
  boost_percentage : Z
}.

Record optimizer := mk_optimizer {
  platform_name : platform;
  optimized_processes : PyDict.dict Z opt_info;
  optimization_profiles : PyDict.dict string profile
}.

Definition with_records (o : optimizer) (r : PyDict.dict Z opt_info) :=
  mk_optimizer (platform_name o) r (optimization_profiles o).

Definition with_boost (i : opt_info) (b : Z) : opt_info :=
  mk_info (name i) (profile_applied i) (timestamp i) (optimizations i)
    (metrics_before i) b.

(** The six keys that every built-in profile has. *)
Definition built_in (n prio affinity : string) (gpu memory : bool)
    (disk : string) : profile :=
  [ ("name", PStr n); ("priority", PStr prio); ("cpu_affinity", PStr affinity);
    ("gpu_acceleration", PBool gpu); ("memory_optimization", PBool memory);
    ("disk_priority", PStr disk) ].

(** [_load_profiles]: the built-in table, then the custom profiles. *)
Definition default_profiles : PyDict.dict string profile :=
  [ ("chrome", built_in "Google Chrome" "high" "all" true true "high");
    ("firefox", built_in "Mozilla Firefox" "high" "all" true true "high");
    ("photoshop", built_in "Adobe Photoshop" "realtime" "all" true false "high");
    ("game", (built_in "Generic Game" "realtime" "performance_cores" true false "high"
              ++ [("disable_fullscreen_optimization", PBool true)])%list) ].

Definition _load_profiles (custom : option (PyDict.dict string profile))
  : PyDict.dict string profile :=
  match custom with
  | Some c => PyDict.update default_profiles c
  | None => default_profiles
  end.

(** [SystemOptimizer()] *)
Definition init (w : world) (custom : option (PyDict.dict string profile))
  : optimizer :=
  mk_optimizer (w_platform w) [] (_load_profiles custom).

Definition _get_default_profile : profile :=
  built_in "Default" "high" "all" true true "normal".

Definition windows_priority_map : PyDict.dict string Z :=
  [ ("idle", IDLE_PRIORITY_CLASS);
    ("below_normal", BELOW_NORMAL_PRIORITY_CLASS);
    ("normal", NORMAL_PRIORITY_CLASS);
    ("above_normal", ABOVE_NORMAL_PRIORITY_CLASS);
    ("high", HIGH_PRIORITY_CLASS);
    ("realtime", REALTIME_PRIORITY_CLASS) ].

Definition nice_map : PyDict.dict string Z :=
  [ ("idle", 19); ("below_normal", 10); ("normal", 0);
    ("above_normal", -5); ("high", -10); ("realtime", -20) ].

Definition _set_process_priority (plat : platform) (p : process)
    (prio : string) : process * bool :=
  let table := if decide (plat = Windows) then windows_priority_map
               else nice_map in
  match PyDict.get prio table with
  | Some v =>
      match set_nice p v with
      | Some p' => (p', true)
      | None => (p, false)            (* except: logged *)
      end
  | None => (p, false)
  end.

Definition affinity_target (cpu_count : nat) (affinity_type : string)
  : option (list nat) :=
  if decide (affinity_type = "all") then Some (range 0 cpu_count)
  else if decide (affinity_type = "performance_cores") then
    Some (if (4 <? cpu_count)%nat then range 0 (cpu_count / 2)
          else range 0 cpu_count)
  else if decide (affinity_type = "efficiency_cores") then
    Some (if (4 <? cpu_count)%nat then range (cpu_count / 2) cpu_count
          else [0%nat])
  else None.

Definition _set_cpu_affinity (w : world) (p : process)
    (affinity_type : string) : process * bool :=
  match affinity_target (w_cpu_count w) affinity_type with
  | Some cores =>
      match set_affinity p cores with
      | Some p' => (p', true)
      | None => (p, false)            (* except: logged *)
      end
  | None => (p, false)
  end.

Definition _enable_gpu_acceleration (plat : platform) (w : world) : bool :=
  if decide (plat = Windows) then w_powershell_ok w else false.

Definition _optimize_memory (plat : platform) (p : process) : bool :=
  match plat with
  | Windows | Linux => p_trim_ok p
  | _ => false
  end.

Definition windows_io_map : list string := ["low"; "normal"; "high"; "critical"].
Definition ionice_map : list string := ["idle"; "normal"; "high"].

Definition _set_io_priority (plat : platform) (p : process) (prio : string)
  : bool :=
  match plat with
  | Windows => if decide (In prio windows_io_map) then p_ionice_ok p else false
  | Linux => if decide (In prio ionice_map) then p_ionice_ok p else false
  | _ => false
  end.

Definition _get_process_metrics (p : process) : option metrics :=
  if p_meminfo_fails p then None
  else Some (mk_metrics (p_cpu_percent p) (p_memory_mb p) (p_num_threads p)).

(** The profile selection at the head of [optimize_process]; an empty
    dict is false for [if not profile]. *)
Definition find_profile (profiles : PyDict.dict string profile)
    (process_name : string) : option profile :=
  snd <$> List.find (fun kp => PyStr.str_in (fst kp) process_name) profiles.

Definition select_profile (o : optimizer) (profile_name : option string)
    (process_name : string) : profile :=
  let chosen :=
    match profile_name with
    | Some n =>
        if negb (String.eqb n "") && PyDict.mem n (optimization_profiles o)
        then PyDict.get n (optimization_profiles o)
        else find_profile (optimization_profiles o) process_name
    | None => find_profile (optimization_profiles o) process_name
    end in
  match chosen with
  | Some (kv :: rest) => kv :: rest
  | _ => _get_default_profile
  end.

(** [xs.append(x)] guarded by [if ok] *)
Definition append_if (ok : bool) (x : string) (xs : list string) :=
  if ok then (xs ++ [x])%list else xs.

(** [if s:] for a string that may be absent. *)
Definition truthy (s : option string) : option string :=
  match s with
  | Some v => if String.eqb v "" then None else Some v
  | None => None
  end.

(** The tuning actions of [optimize_process], applied to the handle:
    the handle afterwards, the exception that ended the block, if any
    (the KeyError of [profile['priority']] or [profile['cpu_affinity']]
    on a profile without that key), and the actions listed until
    then. *)
Definition apply_actions (w : world) (o : optimizer) (p : process)
    (pr : profile) : process * option string * list string :=
  let plat := platform_name o in
  match PyDict.get "priority" pr with
  | None => (p, Some "'priority'", [])
  | Some prio =>
      let '(p1, ok1) :=
        match prio with
        | PStr s => _set_process_priority plat p s
        | PBool _ => (p, false)
        end in
      let a1 := append_if ok1 "priority" [] in
      match PyDict.get "cpu_affinity" pr with
      | None => (p1, Some "'cpu_affinity'", a1)
      | Some affinity =>
          let '(p2, ok2) :=
            match affinity with
            | PStr s => _set_cpu_affinity w p1 s
            | PBool _ => (p1, false)
            end in
          let a2 := append_if ok2 "cpu_affinity" a1 in
          let a3 := if gpu_acceleration pr && bool_decide (plat = Windows)
                    then append_if (_enable_gpu_acceleration plat w)
                           "gpu_acceleration" a2
                    else a2 in
          let a4 := if memory_optimization pr
                    then append_if (_optimize_memory plat p2)
                           "memory_optimization" a3
                    else a3 in
          let a5 := match PyDict.get "disk_priority" pr with
                    | Some (PStr d) =>
                        if String.eqb d "" then a4
                        else append_if (_set_io_priority plat p2 d)
                               "io_priority" a4
                    | _ => a4
                    end in
          (p2, None, a5)
      end
  end.

(** The record stored at the end of [optimize_process]. *)
Definition new_record (w : world) (p : process) (pr : profile)
    (applied : list string) : opt_info :=
  mk_info (p_name p) pr (w_now w) applied (_get_process_metrics p) 0.

Definition applied_message (applied : list string) : string :=
  "Applied " ++ PyStr.of_nat (List.length applied) ++ " optimizations".

(** The text of the ValueError with which psutil rejects a negative
    pid. *)
Definition negative_pid_message (pid : Z) : string :=
  "pid must be a positive integer (got -" ++ PyStr.of_nat (Z.to_nat (- pid))
  ++ ")".

(** [optimize_process(pid, profile_name)]: the new world, the new
    optimizer state and the returned [(success, message)].  The
    results with [false] are the three except clauses: NoSuchProcess,
    AccessDenied (from [process.name()]) and Exception (the ValueError
    for a negative pid, the KeyError of a profile without a key). *)
Definition optimize_process (w : world) (o : optimizer) (pid : Z)
    (profile_name : option string) : world * optimizer * (bool * string) :=
  match Process w pid with
  | None =>
      (w, o, (false, if pid <? 0 then negative_pid_message pid
                     else "Process no longer exists"))
  | Some p =>
      if p_name_denied p
      then (w, o, (false, "Access denied - try running as administrator"))
      else
        let process_name := PyStr.lower (p_name p) in
        let pr := select_profile o profile_name process_name in
        match apply_actions w o p pr with
        | (p', Some e, _) => (put_process w pid p', o, (false, e))
        | (p', None, applied) =>
            let info := new_record w p' pr applied in
            (put_process w pid p',
             with_records o (PyDict.set pid info (optimized_processes o)),
             (true, applied_message applied))
        end
  end.

(** The boost factors of [calculate_boost], in the order of the list
    that is summed. *)
Definition before_cpu (i : opt_info) : Q :=
  match metrics_before i with Some m => cpu_percent m | None => 0 end.

Definition current_cpu (m : option metrics) : Q :=
  match m with Some c => cpu_percent c | None => 0 end.

(** [max(0, cpu_improvement * 100)] under [if before > 0].  With
    [before > 0] and a reading [now] that is not negative, the
    difference is finite and the quotient is at most 1; a quotient too
    negative for a finite float gives 0 here as on the hardware. *)
Definition cpu_factor (before now : Q) : list num :=
  if q_ltb 0 before
  then let cpu_improvement := float_div (float_sub before now) before in
       [max0 (float_mul cpu_improvement (100 # 1))]
  else [].

Definition base_factor (i : opt_info) : list num :=
  [Int (Z.of_nat (List.length (optimizations i)) * 25)].

Definition priority_factor (nice : Z) : list num :=
  if nice <? 32 then [Int 30] else [].

Definition boost_factors (i : opt_info) (p : process) : list num :=
  (cpu_factor (before_cpu i) (current_cpu (_get_process_metrics p))
   ++ base_factor i ++ priority_factor (p_nice p))%list.

(** [calculate_boost(pid)]: the new optimizer state and the result.
    The bare except is reached when the process is gone and when its
    priority cannot be read. *)
Definition calculate_boost (w : world) (o : optimizer) (pid : Z)
  : optimizer * Z :=
  match PyDict.get pid (optimized_processes o) with
  | None => (o, 0)
  | Some i =>
      match Process w pid with
      | None => (o, boost_percentage i)
      | Some p =>
          if p_nice_read_denied p then (o, boost_percentage i)
          else
            let total_boost := Z.min (py_int (py_sum (boost_factors i p))) 999 in
            (with_records o
               (PyDict.set pid (with_boost i total_boost)
                  (optimized_processes o)),
             total_boost)
      end
  end.

(** [remove_optimization(pid)] *)
Definition remove_optimization (w : world) (o : optimizer) (pid : Z)
  : world * optimizer * bool :=
  match Process w pid with
  | None => (w, o, false)                        (* except: *)
  | Some p =>
      let normal := if decide (platform_name o = Windows)
                    then NORMAL_PRIORITY_CLASS else 0 in
      match set_nice p normal with
      | None => (w, o, false)                    (* except: *)
      | Some p1 =>
          match set_affinity p1 (range 0 (w_cpu_count w)) with
          | None => (put_process w pid p1, o, false)   (* except: *)
          | Some p2 =>
              (put_process w pid p2,
               with_records o
                 (if PyDict.mem pid (optimized_processes o)
                  then PyDict.del pid (optimized_processes o)
                  else optimized_processes o),
               true)
          end
      end
  end.

Record stats := mk_stats {
  total_optimized : Z;
  average_boost : Q;
  total_boost : Z;
  top_processes : list (Z * string * Z)
}.

Definition boost_ltb (x y : Z * string * Z) : bool := snd x <? snd y.

(** [get_optimization_stats()]; [None] would be a ZeroDivisionError.
    The average is the float quotient of two ints. *)
Definition get_optimization_stats (o : optimizer) : option stats :=
  let total_processes := Z.of_nat (List.length (optimized_processes o)) in
  let total := fold_left Z.add
                 (map boost_percentage (PyDict.values (optimized_processes o))) 0 in
  let average :=
    if 0 <? total_processes
    then truediv total total_processes
    else Some (0 # 1)%Q in
  match average with
  | None => None
  | Some avg =>
      Some (mk_stats total_processes avg total
              (firstn 5
                 (PyList.sorted_desc boost_ltb
                    (map (fun kv => (fst kv, name (snd kv), boost_percentage (snd kv)))
                       (optimized_processes o)))))
  end.

End Optimizer.

(* ===================================================================== *)
(* src/core/monitor.py                                                   *)
(* ===================================================================== *)
Module Monitor.
Import OS PyNum.

(** The [pinfo] dict that [get_processes] builds for one process.  The
    attributes that [process_iter] has fetched are taken as read. *)
Record snapshot := mk_snapshot {
  pid : Z;
  name : string;
  cpu_percent : Q;
  memory_percent : Q;
  status : string;
  create_time : Q;
  num_threads : Z;
  memory_mb : Q;
  exe : option string;
  age : Q
}.

Definition max_processes : nat := 50.

Definition snapshot_of (w : world) (id : Z) (p : process) : snapshot :=
  mk_snapshot id (p_name p) (p_cpu_percent p) (p_memory_percent p)
    (p_status p) (p_create_time p) (p_num_threads p) (p_memory_mb p)
    (p_exe p) (float_sub (inject_Z (w_now w)) (p_create_time p)).

(** [cpu_percent == 0 and memory_percent < 0.1] *)
Definition negligible (p : process) : bool :=
  q_eqb (p_cpu_percent p) 0 && q_ltb (p_memory_percent p) (1 # 10).

(** The for loop of [get_processes] over [psutil.process_iter]. *)
Fixpoint collect (w : world) (iter : list (Z * process))
    (process_count : nat) (processes : list snapshot) : list snapshot :=
  match iter with
  | [] => processes
  | (id, p) :: rest =>
      if (max_processes <=? process_count)%nat then processes   (* break *)
      else if negligible p then collect w rest process_count processes
      else if p_meminfo_fails p                (* except: continue *)
      then collect w rest process_count processes
      else collect w rest (S process_count)
             (processes ++ [snapshot_of w id p])%list
  end.

Definition cpu_ltb (x y : snapshot) : bool :=
  q_ltb (cpu_percent x) (cpu_percent y).

(** [get_processes()] *)
Definition get_processes (w : world) : list snapshot :=
  firstn 30 (PyList.sorted_desc cpu_ltb (collect w (w_procs w) 0 [])).

(** A subscriber: its identity and whether a call of it raises (with
    the exception text) on a given list. *)
Record callback := mk_callback {
  cb_id : nat;
  cb_raises : list snapshot -> option string
}.

(** What the outside sees of the monitor: the calls it makes. *)
Inductive event := Called (id : nat) (processes : list snapshot).

Record monitor := mk_monitor {
  refresh_interval : Q;
  callbacks : list callback;
  process_cache : PyDict.dict Z snapshot;
  log : list string                              (* loguru errors *)
}.

(** [add_callback(callback)] *)
Definition add_callback (m : monitor) (cb : callback) : monitor :=
  mk_monitor (refresh_interval m) (callbacks m ++ [cb])%list
    (process_cache m) (log m).

(** [for callback in self.callbacks: callback(processes)]: the calls
    made, and the exception that ended the loop, if any. *)
Fixpoint notify (cbs : list callback) (processes : list snapshot)
  : list event * option string :=
  match cbs with
  | [] => ([], None)
  | cb :: rest =>
      match cb_raises cb processes with
      | Some e => ([Called (cb_id cb) processes], Some e)
      | None =>
          let '(evs, r) := notify rest processes in
          (Called (cb_id cb) processes :: evs, r)
      end
  end.

(** [{p['pid']: p for p in processes}] *)
Definition cache_of (processes : list snapshot) : PyDict.dict Z snapshot :=
  fold_left (fun d s => PyDict.set (pid s) s d) processes [].

(** The body of the while loop of [_monitor_loop] (try ... except
    Exception), without the sleep. *)
Definition monitor_cycle (w : world) (m : monitor)
  : monitor * list event :=
  let processes := get_processes w in
  let cache := cache_of processes in
  match notify (callbacks m) processes with
  | (evs, None) =>
      (mk_monitor (refresh_interval m) (callbacks m) cache (log m), evs)
  | (evs, Some e) =>
      (mk_monitor (refresh_interval m) (callbacks m) cache
         (log m ++ [String.append "Error in monitor loop: " e])%list, evs)
  end.

(** [_monitor_loop]: one input per test of [while self.monitoring],
    the flag as another thread left it and the system at that time. *)
Fixpoint _monitor_loop (inputs : list (bool * world)) (m : monitor)
  : monitor * list event :=
  match inputs with
  | [] => (m, [])
  | (monitoring, w) :: rest =>
      if monitoring then
        let '(m1, evs) := monitor_cycle w m in
        let '(m2, evs') := _monitor_loop rest m1 in
        (m2, (evs ++ evs')%list)
      else (m, [])
  end.

End Monitor.

(* ===================================================================== *)
(* src/core/game_detector.py                                             *)
(* ===================================================================== *)
Module GameDetector.
Import OS PyNum.

(** Values held by the dicts of this module. *)
Inductive value :=
| VStr (s : string)
| VInt (n : Z)
| VDict (d : list (string * string)).

Global Instance value_eq_dec : EqDecision value.
Proof. solve_decision. Defined.

Definition game_info := PyDict.dict string value.

Record detector := mk_detector {
  known_games : PyDict.dict string game_info;
  gaming_processes : gset Z;
  game_mode_active : bool;
  original_settings : PyDict.dict string value;
  game_launchers : list string;
  game_indicators : list string
}.

Definition known (n t : string) : game_info :=
  [("name", VStr n); ("type", VStr t)].

Definition default_games : PyDict.dict string game_info :=
  [ ("csgo.exe", known "Counter-Strike: Global Offensive" "fps");
    ("dota2.exe", known "Dota 2" "moba");
    ("valorant.exe", known "Valorant" "fps");
    ("leagueoflegends.exe", known "League of Legends" "moba");
    ("overwatch.exe", known "Overwatch" "fps");
    ("gta5.exe", known "Grand Theft Auto V" "action");
    ("witcher3.exe", known "The Witcher 3" "rpg");
    ("cyberpunk2077.exe", known "Cyberpunk 2077" "rpg");
    ("minecraft.exe", known "Minecraft" "sandbox");
    ("fortnite.exe", known "Fortnite" "battle_royale");
    ("apex_legends.exe", known "Apex Legends" "battle_royale");
    ("pubg.exe", known "PUBG" "battle_royale");
    ("rocketleague.exe", known "Rocket League" "sports");
    ("fifa23.exe", known "FIFA 23" "sports");
    ("cod.exe", known "Call of Duty" "fps");
    ("battlefield.exe", known "Battlefield" "fps");
    ("rdr2.exe", known "Red Dead Redemption 2" "action");
    ("eldenring.exe", known "Elden Ring" "rpg") ].

(** [_load_game_database]: the built-in table, then the custom games. *)
Definition _load_game_database
    (custom : option (PyDict.dict string game_info))
  : PyDict.dict string game_info :=
  match custom with
  | Some c => PyDict.update default_games c
  | None => default_games
  end.

(** [GameDetector()] *)
Definition init (custom : option (PyDict.dict string game_info)) : detector :=
  mk_detector (_load_game_database custom) ∅ false []
    ["steam.exe"; "epicgameslauncher.exe"; "origin.exe"; "battlenet.exe";
     "gog.exe"; "uplay.exe"; "riotclientservices.exe"]
    ["unreal"; "unity"; "cryengine"; "frostbite"; "gameoverlayui";
     "d3d"; "opengl"; "vulkan"; "directx"].

Definition with_tracked (d : detector) (s : gset Z) : detector :=
  mk_detector (known_games d) s (game_mode_active d) (original_settings d)
    (game_launchers d) (game_indicators d).

Definition with_active (d : detector) (b : bool) : detector :=
  mk_detector (known_games d) (gaming_processes d) b (original_settings d)
    (game_launchers d) (game_indicators d).

Definition with_settings (d : detector) (s : PyDict.dict string value)
  : detector :=
  mk_detector (known_games d) (gaming_processes d) (game_mode_active d) s
    (game_launchers d) (game_indicators d).

(** [_check_gpu_usage(pid)]: the load of the first GPU, whatever the pid. *)
Definition _check_gpu_usage (w : world) (pid : Z) : bool :=
  match w_gpu_load w with
  | Some load => q_ltb (3 # 10) load
  | None => false
  end.

(** The dict literal of the two heuristic branches. *)
Definition guessed (p : Monitor.snapshot) (process_name by_ : string)
  : game_info :=
  [ ("name", VStr (Monitor.name p)); ("type", VStr "unknown");
    ("pid", VInt (Monitor.pid p)); ("process_name", VStr process_name);
    ("detected_by", VStr by_) ].

(** One iteration of the loop of [detect_games]: the entry appended
    for this process, if any. *)
Definition classify (d : detector) (w : world) (p : Monitor.snapshot)
  : option game_info :=
  let process_name := PyStr.lower (Monitor.name p) in
  match PyDict.get process_name (known_games d) with
  | Some entry =>
      Some (PyDict.set "process_name" (VStr process_name)
              (PyDict.set "pid" (VInt (Monitor.pid p)) entry))
  | None =>
      if PyStr.any_in (game_indicators d) process_name
      then Some (guessed p process_name "indicator")
      else if _check_gpu_usage w (Monitor.pid p)
      then Some (guessed p process_name "gpu_usage")
      else None
  end.

(** [detect_games(processes)]: the detector afterwards and the list
    returned. *)
Fixpoint detect_loop (d : detector) (w : world)
    (processes : list Monitor.snapshot) (detected_games : list game_info)
  : detector * list game_info :=
  match processes with
  | [] => (d, detected_games)
  | p :: rest =>
      match classify d w p with
      | Some game =>
          detect_loop
            (with_tracked d ({[Monitor.pid p]} ∪ gaming_processes d)) w rest
            (detected_games ++ [game])%list
      | None => detect_loop d w rest detected_games
      end
  end.

Definition detect_games (d : detector) (w : world)
    (processes : list Monitor.snapshot) : detector * list game_info :=
  detect_loop d w processes [].

Definition _get_power_plan (w : world) : string :=
  let result := w_power_scheme w in
  if PyStr.str_in "381b4222" result then "balanced"
  else if PyStr.str_in "8c5e7fda" result then "high_performance"
  else if PyStr.str_in "a1841308" result then "power_saver"
  else "balanced".

Definition plans : PyDict.dict string string :=
  [ ("balanced", "381b4222-f694-41f0-9685-ff5bb260df2e");
    ("high_performance", "8c5e7fda-e8bf-4a96-9a85-a6e23a8c635c");
    ("power_saver", "a1841308-3541-4fab-bc81-f71556f20b4a") ].

(** [_set_power_plan(plan)]: nothing leaves its try/except. *)
Definition _set_power_plan (w : world) (plan : value) : world :=
  match plan with
  | VStr s =>
      match PyDict.get s plans with
      | Some guid => if w_powercfg_ok w then with_power_scheme w guid else w
      | None => w
      end
  | _ => w
  end.

Definition _store_original_settings (d : detector) (w : world) : detector :=
  with_settings d
    [ ("power_plan", VStr (_get_power_plan w));
      ("gpu_settings", VDict []);
      ("network_settings", VDict []) ].

Definition _restore_original_settings (d : detector) (w : world) : world :=
  match PyDict.get "power_plan" (original_settings d) with
  | Some plan => _set_power_plan w plan
  | None => w
  end.

(** [_apply_system_game_mode]: of its four steps only the power plan
    is part of the modelled system; the others are guarded shell and
    registry calls. *)
Definition _apply_system_game_mode (w : world) : world :=
  _set_power_plan w (VStr "high_performance").

(** [game.get('type', 'unknown')] *)
Definition game_type (game : game_info) : value :=
  match PyDict.get "type" game with Some t => t | None => VStr "unknown" end.

(** [_apply_game_optimizations(game)]: [Some e] is the exception that
    leaves it.  [_optimize_for_fps] swallows its own errors; the class
    defines no [_optimize_for_moba] and no [_optimize_for_rpg]. *)
Definition _apply_game_optimizations (game : game_info) : option string :=
  match game_type game with
  | VStr t =>
      if String.eqb t "fps" then
        match PyDict.get "pid" game with
        | Some _ => None
        | None => Some "KeyError: 'pid'"
        end
      else if String.eqb t "moba" then
        Some "AttributeError: 'GameDetector' object has no attribute '_optimize_for_moba'"
      else if String.eqb t "rpg" then
        Some "AttributeError: 'GameDetector' object has no attribute '_optimize_for_rpg'"
      else None
  | _ => None
  end.

(** The for loop of [enable_game_mode]. *)
Fixpoint enable_loop (w : world) (o : Optimizer.optimizer)
    (detected_games : list game_info)
  : world * Optimizer.optimizer * option string :=
  match detected_games with
  | [] => (w, o, None)
  | game :: rest =>
      match PyDict.get "pid" game with
      | None => (w, o, Some "KeyError: 'pid'")
      | Some v =>
          let '(w1, o1) :=
            match v with
            | VInt n =>
                let '(w', o', _) :=
                  Optimizer.optimize_process w o n (Some "game") in (w', o')
            | _ => (w, o)       (* psutil rejects the pid; caught inside *)
            end in
          match _apply_game_optimizations game with
          | Some e => (w1, o1, Some e)
          | None => enable_loop w1 o1 rest
          end
      end
  end.

(** [enable_game_mode(optimizer, detected_games)]; the last component
    is the exception that leaves the call, if any. *)
Definition enable_game_mode (w : world) (o : Optimizer.optimizer)
    (d : detector) (detected_games : list game_info)
  : world * Optimizer.optimizer * detector * option string :=
  if game_mode_active d then (w, o, d, None)
  else
    let d1 := _store_original_settings d w in
    match enable_loop w o detected_games with
    | (w1, o1, Some e) => (w1, o1, d1, Some e)
    | (w1, o1, None) =>
        (_apply_system_game_mode w1, o1, with_active d1 true, None)
    end.

(** The for loop of [disable_game_mode]. *)
Definition remove_all (w : world) (o : Optimizer.optimizer)
    (pids : list Z) : world * Optimizer.optimizer :=
  fold_left (fun wo id =>
               let '(w', o', _) :=
                 Optimizer.remove_optimization (fst wo) (snd wo) id in
               (w', o'))
            pids (w, o).

(** [disable_game_mode(optimizer)] *)
Definition disable_game_mode (w : world) (o : Optimizer.optimizer)
    (d : detector) : world * Optimizer.optimizer * detector :=
  if negb (game_mode_active d) then (w, o, d)
  else
    let '(w1, o1) := remove_all w o (elements (gaming_processes d)) in
    let w2 := _restore_original_settings d w1 in
    (w2, o1, with_active (with_tracked d ∅) false).

End GameDetector.

(* ===================================================================== *)
(* src/core/scheduler.py                                                 *)
(* ===================================================================== *)
Module Scheduler.
Import OS PyNum.

(** An entry of a schedule's [actions] list. *)
Record action := mk_action {
  a_type : option string;
  a_apps : list string;
  a_profile : option string;
  a_script : option string
}.

(** Jobs of the [schedule] library: what [every()...] was asked for,
    the bound method it calls, and its [next_run]. *)
Inductive job_unit :=
| EveryDayAt (time_str : option string)
| EveryWeekdayAt (day : string) (time_str : option string)
| EveryMinutes (n : option Z).

Inductive job_target :=
| RunSchedule (schedule_id : string)
| CheckIdle (schedule_id : string).

Record job := mk_job {
  job_unit_of : job_unit;
  job_target_of : job_target;
  job_next_run : Z
}.

(** A value of [self.schedules]; [job] refers to a job of the library
    by its key in the library's store. *)
Record schedule_info := mk_schedule {
  id : string;
  name : string;
  type : string;
  time : option string;
  days : list string;
  interval : option Z;
  actions : list action;
  enabled : bool;
  created : Z;
  last_run : option Z;
  next_run : option Z;
  job_ref : option nat
}.

(** A subscriber of schedule events: it may raise. *)
Record callback := mk_callback {
  cb_id : nat;
  cb_raises : string -> option string
}.

(** What the scheduler does to the outside. *)
Inductive event :=
| Executed (a : action)
| Notified (cb : nat) (schedule_id : string).

Record scheduler := mk_scheduler {
  schedules : PyDict.dict string schedule_info;
  callbacks : list callback;
  lib_jobs : PyDict.dict nat job;     (* the schedule library's jobs *)
  lib_next_id : nat;
  log : list string
}.

(** The scheduler with the objects it was constructed with and the
    trace of what it has done. *)
Record sys := mk_sys {
  s_world : world;
  s_optimizer : Optimizer.optimizer;
  s_scheduler : scheduler;
  s_trace : list event
}.

(** State and exceptions. *)
Definition M (A : Type) : Type := sys -> sys * (A + string).

Definition ret {A} (a : A) : M A := fun s => (s, inl a).
Definition raise {A} (e : string) : M A := fun s => (s, inr e).
Definition bind {A B} (m : M A) (k : A -> M B) : M B :=
  fun s => match m s with
           | (s', inl a) => k a s'
           | (s', inr e) => (s', inr e)
           end.
Definition gets {A} (f : sys -> A) : M A := fun s => (s, inl (f s)).
Definition modify (f : sys -> sys) : M unit := fun s => (f s, inl tt).
(** [try: m  except Exception as e: h e] *)
Definition try_except (m : M unit) (h : string -> M unit) : M unit :=
  fun s => match m s with
           | (s', inl a) => (s', inl a)
           | (s', inr e) => h e s'
           end.

Global Instance M_ret : MRet M := @ret.
Global Instance M_bind : MBind M := fun A B k m => bind m k.

Fixpoint for_each {A} (l : list A) (body : A -> M unit) : M unit :=
  match l with
  | [] => ret tt
  | x :: r => body x;; for_each r body
  end.

Definition with_scheduler (s : sys) (sc : scheduler) : sys :=
  mk_sys (s_world s) (s_optimizer s) sc (s_trace s).

Definition emit (e : event) : M unit :=
  modify (fun s => mk_sys (s_world s) (s_optimizer s) (s_scheduler s)
                     (s_trace s ++ [e])%list).

Definition logger (line : string) : M unit :=
  modify (fun s =>
    let sc := s_scheduler s in
    with_scheduler s
      (mk_scheduler (schedules sc) (callbacks sc) (lib_jobs sc)
         (lib_next_id sc) (log sc ++ [line])%list)).

Definition set_schedules (f : PyDict.dict string schedule_info ->
                              PyDict.dict string schedule_info) : M unit :=
  modify (fun s =>
    let sc := s_scheduler s in
    with_scheduler s
      (mk_scheduler (f (schedules sc)) (callbacks sc) (lib_jobs sc)
         (lib_next_id sc) (log sc))).

(** [self.optimizer.optimize_process(pid)] *)
Definition optimize (pid : Z) : M unit :=
  modify (fun s =>
    let '(w, o, _) :=
      Optimizer.optimize_process (s_world s) (s_optimizer s) pid None in
    mk_sys w o (s_scheduler s) (s_trace s)).

Section WithLibrary.
(** The [schedule] library computes a job's [next_run] when the job is
    created, from the request and the current time; [None] when it
    rejects the request (bad time string, unknown weekday, no
    interval). *)
Variable lib_next_run : job_unit -> Z -> option Z.

(** [schedule.every()....do(target, schedule_id)] *)
Definition lib_do (u : job_unit) (t : job_target) : M nat :=
  fun s =>
    match lib_next_run u (w_now (s_world s)) with
    | None => (s, inr "ScheduleValueError")
    | Some nr =>
        let sc := s_scheduler s in
        let key := lib_next_id sc in
        (with_scheduler s
           (mk_scheduler (schedules sc) (callbacks sc)
              (PyDict.set key (mk_job u t nr) (lib_jobs sc))
              (S key) (log sc)),
         inl key)
    end.

(** [schedule.cancel_job(job)] *)
Definition lib_cancel (key : nat) : M unit :=
  modify (fun s =>
    let sc := s_scheduler s in
    with_scheduler s
      (mk_scheduler (schedules sc) (callbacks sc)
         (PyDict.del key (lib_jobs sc)) (lib_next_id sc) (log sc))).

(** [job.next_run] *)
Definition lib_next_run_of (key : nat) : M (option Z) :=
  gets (fun s => job_next_run <$> PyDict.get key (lib_jobs (s_scheduler s))).

Definition high_usage (p : Monitor.snapshot) : bool :=
  q_ltb 5 (Monitor.cpu_percent p) || q_ltb 5 (Monitor.memory_percent p).

Definition targets (apps : list string) (p : Monitor.snapshot) : bool :=
  existsb (fun app => PyStr.str_in (PyStr.lower app)
                        (PyStr.lower (Monitor.name p))) apps.

(** [_execute_action(action)].  [_clean_system_memory] names the
    module [platform], which scheduler.py does not import. *)
Definition _execute_action (a : action) : M unit :=
  emit (Executed a);;
  match a_type a with
  | Some t =>
      if String.eqb t "optimize_all" then
        processes ← gets (fun s => Monitor.get_processes (s_world s));
        for_each (firstn 10 processes) (fun p =>
          if high_usage p then optimize (Monitor.pid p) else ret tt)
      else if String.eqb t "optimize_specific" then
        processes ← gets (fun s => Monitor.get_processes (s_world s));
        for_each processes (fun p =>
          if targets (a_apps a) p then optimize (Monitor.pid p) else ret tt)
      else if String.eqb t "clean_memory" then
        raise "NameError: name 'platform' is not defined"
      else if String.eqb t "apply_profile" then
        match Optimizer.truthy (a_profile a) with
        | Some profile_name =>
            logger (String.append "Applying optimization profile: " profile_name)
        | None => ret tt
        end
      else ret tt          (* custom_script: an external program *)
  | None => ret tt
  end.

Definition set_last_run (i : schedule_info) (t : Z) : schedule_info :=
  mk_schedule (id i) (name i) (type i) (time i) (days i) (interval i)
    (actions i) (enabled i) (created i) (Some t) (next_run i) (job_ref i).

Definition set_next_run (i : schedule_info) (t : option Z) : schedule_info :=
  mk_schedule (id i) (name i) (type i) (time i) (days i) (interval i)
    (actions i) (enabled i) (created i) (last_run i) t (job_ref i).

Definition set_job (i : schedule_info) (j : option nat) : schedule_info :=
  mk_schedule (id i) (name i) (type i) (time i) (days i) (interval i)
    (actions i) (enabled i) (created i) (last_run i) (next_run i) j.

Definition set_enabled (i : schedule_info) (b : bool) : schedule_info :=
  mk_schedule (id i) (name i) (type i) (time i) (days i) (interval i)
    (actions i) b (created i) (last_run i) (next_run i) (job_ref i).

(** In-place update of the stored schedule. *)
Definition update_stored (schedule_id : string)
    (f : schedule_info -> schedule_info) : M unit :=
  set_schedules (fun d =>
    match PyDict.get schedule_id d with
    | Some i => PyDict.set schedule_id (f i) d
    | None => d
    end).

(** [_run_schedule(schedule_id)] *)
Definition _run_schedule (schedule_id : string) : M unit :=
  found ← gets (fun s => PyDict.get schedule_id (schedules (s_scheduler s)));
  match found with
  | None => ret tt                                   (* return *)
  | Some info =>
      if negb (enabled info) then ret tt             (* return *)
      else
        logger (String.append "Running scheduled optimization: " (name info));;
        for_each (actions info) (fun a =>
          try_except (_execute_action a)
            (* the logged line also prints the action *)
            (fun e => logger (String.append "Failed to execute action: " e)));;
        now ← gets (fun s => w_now (s_world s));
        update_stored schedule_id (fun i => set_last_run i now);;
        match job_ref info with
        | Some key =>
            nr ← lib_next_run_of key;
            update_stored schedule_id (fun i => set_next_run i nr)
        | None => ret tt
        end;;
        cbs ← gets (fun s => callbacks (s_scheduler s));
        for_each cbs (fun cb =>
          emit (Notified (cb_id cb) schedule_id);;
          match cb_raises cb schedule_id with
          | Some e => raise e
          | None => ret tt
          end)
  end.

(** The job bound to the local [job] by [_create_job]; [None] is
    Python's None, an exception is a local that was never bound or a
    request the library rejects. *)
Definition _create_job_select (schedule_id : string) (info : schedule_info)
  : M (option nat) :=
  let t := type info in
  if String.eqb t "daily" then
    key ← lib_do (EveryDayAt (time info)) (RunSchedule schedule_id);
    ret (Some key)
  else if String.eqb t "weekly" then
    (fix each (ds : list string) (last : option nat) : M (option nat) :=
       match ds with
       | [] =>
           match last with
           | Some key => ret (Some key)
           | None => raise "UnboundLocalError: job"
           end
       | day :: r =>
           key ← lib_do (EveryWeekdayAt (PyStr.lower day) (time info))
                    (RunSchedule schedule_id);
           each r (Some key)
       end) (days info) None
  else if String.eqb t "interval" then
    key ← lib_do (EveryMinutes (interval info)) (RunSchedule schedule_id);
    ret (Some key)
  else if String.eqb t "startup" then
    _run_schedule schedule_id;;
    ret None
  else if String.eqb t "idle" then
    key ← lib_do (EveryMinutes (Some 5)) (CheckIdle schedule_id);
    ret (Some key)
  else ret None.

(** [_create_job(schedule_id, schedule_info)]: the job and [next_run]
    it writes into the dict it was handed, if any. *)
Definition _create_job (schedule_id : string) (info : schedule_info)
  : M (option (nat * option Z)) :=
  j ← _create_job_select schedule_id info;
  match j with
  | Some key => nr ← lib_next_run_of key; ret (Some (key, nr))
  | None => ret None
  end.

Definition attach (i : schedule_info) (j : option (nat * option Z))
  : schedule_info :=
  match j with
  | Some (key, nr) => set_next_run (set_job i (Some key)) nr
  | None => i
  end.

(** [add_schedule(...)], with the uuid it draws as [schedule_id]. *)
Definition add_schedule (schedule_id : string) (name_ type_ : string)
    (time_str : option string) (days_ : list string)
    (interval_ : option Z) (actions_ : list action) (enabled_ : bool)
  : M string :=
  now ← gets (fun s => w_now (s_world s));
  let schedule_info :=
    mk_schedule schedule_id name_ type_ time_str days_ interval_ actions_
      enabled_ now None None None in
  stored ← (if enabled_
             then j ← _create_job schedule_id schedule_info;
                  ret (attach schedule_info j)
             else ret schedule_info);
  set_schedules (PyDict.set schedule_id stored);;
  logger (String.append "Added schedule: "
            (String.append name_
               (String.append " (ID: " (String.append schedule_id ")"))));;
  ret schedule_id.

(** [enable_schedule(schedule_id, enabled)]: here [_create_job] is
    handed the stored dict itself. *)
Definition enable_schedule (schedule_id : string) (enabled_ : bool)
  : M unit :=
  found ← gets (fun s => PyDict.get schedule_id (schedules (s_scheduler s)));
  match found with
  | None => ret tt
  | Some info =>
      update_stored schedule_id (fun i => set_enabled i enabled_);;
      if enabled_ then
        j ← _create_job schedule_id (set_enabled info true);
        update_stored schedule_id (fun i => attach i j)
      else
        match job_ref info with
        | Some key =>
            lib_cancel key;;
            update_stored schedule_id (fun i => set_job i None)
        | None => ret tt
        end
  end.

(** [remove_schedule(schedule_id)] *)
Definition remove_schedule (schedule_id : string) : M unit :=
  found ← gets (fun s => PyDict.get schedule_id (schedules (s_scheduler s)));
  match found with
  | None => ret tt
  | Some info =>
      match job_ref info with
      | Some key => lib_cancel key
      | None => ret tt
      end;;
      set_schedules (PyDict.del schedule_id);;
      logger (String.append "Removed schedule: " (name info))
  end.

(** One keyword argument of [update_schedule]. *)
Inductive kwarg :=
| K_id (v : string)
| K_name (v : string)
| K_type (v : string)
| K_time (v : option string)
| K_days (v : list string)
| K_interval (v : option Z)
| K_actions (v : list action)
| K_enabled (v : bool)
| K_created (v : Z)
| K_last_run (v : option Z)
| K_next_run (v : option Z)
| K_job (v : option nat)
| K_other (key : string).       (* not a key of the dict: skipped *)

(** [if key in schedule_info: schedule_info[key] = value] *)
Definition assign (i : schedule_info) (k : kwarg) : schedule_info :=
  match k with
  | K_id v => mk_schedule v (name i) (type i) (time i) (days i) (interval i)
                (actions i) (enabled i) (created i) (last_run i) (next_run i)
                (job_ref i)
  | K_name v => mk_schedule (id i) v (type i) (time i) (days i) (interval i)
                  (actions i) (enabled i) (created i) (last_run i) (next_run i)
                  (job_ref i)
  | K_type v => mk_schedule (id i) (name i) v (time i) (days i) (interval i)
                  (actions i) (enabled i) (created i) (last_run i) (next_run i)
                  (job_ref i)
  | K_time v => mk_schedule (id i) (name i) (type i) v (days i) (interval i)
                  (actions i) (enabled i) (created i) (last_run i) (next_run i)
                  (job_ref i)
  | K_days v => mk_schedule (id i) (name i) (type i) (time i) v (interval i)
                  (actions i) (enabled i) (created i) (last_run i) (next_run i)
                  (job_ref i)
  | K_interval v => mk_schedule (id i) (name i) (type i) (time i) (days i) v
                      (actions i) (enabled i) (created i) (last_run i)
                      (next_run i) (job_ref i)
  | K_actions v => mk_schedule (id i) (name i) (type i) (time i) (days i)
                     (interval i) v (enabled i) (created i) (last_run i)
                     (next_run i) (job_ref i)
  | K_enabled v => set_enabled i v
  | K_created v => mk_schedule (id i) (name i) (type i) (time i) (days i)
                     (interval i) (actions i) (enabled i) v (last_run i)
                     (next_run i) (job_ref i)
  | K_last_run v => mk_schedule (id i) (name i) (type i) (time i) (days i)
                      (interval i) (actions i) (enabled i) (created i) v
                      (next_run i) (job_ref i)
  | K_next_run v => set_next_run i v
  | K_job v => set_job i v
  | K_other _ => i
  end.

(** [update_schedule(schedule_id, **kwargs)]: as in [enable_schedule],
    [_create_job] is handed the stored dict itself. *)
Definition update_schedule (schedule_id : string) (kwargs : list kwarg)
  : M unit :=
  found ← gets (fun s => PyDict.get schedule_id (schedules (s_scheduler s)));
  match found with
  | None => ret tt
  | Some info =>
      match job_ref info with
      | Some key => lib_cancel key
      | None => ret tt
      end;;
      let updated := fold_left assign kwargs info in
      update_stored schedule_id (fun _ => updated);;
      if enabled updated then
        j ← _create_job schedule_id updated;
        update_stored schedule_id (fun i => attach i j)
      else ret tt
  end.

(** [self.monitor.get_processes()[0]['cpu_percent'] if
    self.monitor.get_processes() else 0] *)
Definition busiest_cpu (w : world) : Q :=
  match Monitor.get_processes w with
  | p :: _ => Monitor.cpu_percent p
  | [] => 0
  end.

(** [_check_idle_and_run(schedule_id)] *)
Definition _check_idle_and_run (schedule_id : string) : M unit :=
  cpu_percent ← gets (fun s => busiest_cpu (s_world s));
  if q_ltb cpu_percent 10 then _run_schedule schedule_id else ret tt.

(** An entry of the list of [get_next_runs]. *)
Record upcoming := mk_upcoming {
  u_id : string;
  u_name : string;
  u_next_run : Z;
  u_type : string
}.

Definition upcoming_of (kv : string * schedule_info) : option upcoming :=
  if enabled (snd kv) then
    match next_run (snd kv) with
    | Some t => Some (mk_upcoming (fst kv) (name (snd kv)) t (type (snd kv)))
    | None => None
    end
  else None.

Definition sooner (x y : upcoming) : bool := u_next_run x <? u_next_run y.

(** [get_next_runs()] *)
Definition get_next_runs (sc : scheduler) : list upcoming :=
  PyList.sorted_asc sooner (omap upcoming_of (schedules sc)).

(** How often an action list was run: the number of [Executed]
    events of the trace. *)
Definition executions (tr : list event) : nat :=
  List.length (List.filter (fun e => match e with Executed _ => true | _ => false end) tr).

End WithLibrary.
End Scheduler.


(* ===================================================================== *)
(* src/ui/main_window.py: the automatic game mode                        *)
(* ===================================================================== *)
Module MainWindow.
Import OS GameDetector.

(** The calls made on the widgets. *)
Inductive ui_event :=
| UpdateGameModeUi (active : bool)
| ShowGameNotification (enabled : bool).

(** What [_check_for_games] reads and writes of the application. *)
Record app := mk_app {
  game_mode_auto : bool;
  detected_games : list game_info
}.

(** [_check_for_games()]: the system, the optimizer, the detector and
    the application afterwards, the widget calls made, and the
    exception that leaves the call, if any. *)
Definition _check_for_games (w : world) (o : Optimizer.optimizer)
    (d : detector) (a : app)
  : world * Optimizer.optimizer * detector * app * list ui_event
    * option string :=
  if negb (game_mode_auto a) then (w, o, d, a, [], None)
  else
    let processes := Monitor.get_processes w in
    let '(d1, found) := detect_games d w processes in
    let a1 := mk_app (game_mode_auto a) found in
    match found with
    | _ :: _ =>
        if negb (game_mode_active d1) then
          match enable_game_mode w o d1 found with
          | (w2, o2, d2, Some e) => (w2, o2, d2, a1, [], Some e)
          | (w2, o2, d2, None) =>
              (w2, o2, d2, a1,
               [UpdateGameModeUi true; ShowGameNotification true], None)
          end
        else (w, o, d1, a1, [], None)
    | [] =>
        if game_mode_active d1 then
          let '(w2, o2, d2) := disable_game_mode w o d1 in
          (w2, o2, d2, a1,
           [UpdateGameModeUi false; ShowGameNotification false], None)
        else (w, o, d1, a1, [], None)
    end.

End MainWindow.

(* ===================================================================== *)
(* Concrete systems used by the examples below                           *)
(* ===================================================================== *)
Module Scenario.
Import OS.

(** A running process with the given name, CPU and memory share; every
    guarded OS call on it goes through. *)
Definition proc (n : string) (cpu mem : Q) : process :=
  mk_process n 0 [0%nat] cpu mem (120 # 1) 8 "running" 0 None
    false false false true true false false.

(** A Linux host with eight cores and the given process table. *)
Definition host (now : Z) (procs : PyDict.dict Z process) : world :=
  mk_world Linux procs 8 now false "381b4222-f694-41f0-9685-ff5bb260df2e"
    true None.

Definition browser : world := host 1000 [(100, proc "chromehelper.exe" (40 # 1) (3 # 1))].

(** The same system a minute later. *)
Definition later (w : world) : world :=
  mk_world (w_platform w) (w_procs w) (w_cpu_count w) (w_now w + 60)
    (w_powershell_ok w) (w_power_scheme w) (w_powercfg_ok w) (w_gpu_load w).

(** The host after every process has exited. *)
Definition empty_host : world := host 1000 [].

Definition fresh_optimizer : Optimizer.optimizer := Optimizer.init browser None.

(** The optimizer and the system after [optimize_process(100)]. *)
Definition after_first : world * Optimizer.optimizer :=
  let '(w, o, _) := Optimizer.optimize_process browser fresh_optimizer 100 None in
  (w, o).

(** A game at 5% CPU that is optimized with the profile "game", and
    the system when the game is at 4.9% CPU, the float nearest to
    49/10. *)
Definition tuned_game : world * Optimizer.optimizer :=
  let '(w, o, _) :=
    Optimizer.optimize_process (host 1000 [(7, proc "game.exe" (5 # 1) (3 # 1))])
      fresh_optimizer 7 (Some "game") in
  (w, o).

Definition cooled_game : world :=
  host 1060
    [(7, with_nice (proc "game.exe" (PyNum.binary64 (49 # 10)) (3 # 1)) (-20))].

(** The host of [after_first] with a second application. *)
Definition two_apps : world :=
  host 1000
    ((100, with_affinity (with_nice (proc "chromehelper.exe" (40 # 1) (3 # 1)) (-10))
             (range 0 8))
     :: [(200, proc "notepad.exe" (12 # 1) (3 # 1))]).

(** One snapshot of a process list, as [get_processes] builds it. *)
Definition snap (id : Z) (n : string) (cpu : Q) : Monitor.snapshot :=
  Monitor.snapshot_of (host 1000 []) id (proc n cpu (3 # 1)).

Definition valorant : list Monitor.snapshot := [snap 1 "valorant.exe" (40 # 1)].

Definition fresh_detector : GameDetector.detector := GameDetector.init None.

(** Fifty workers at 1% CPU, enumerated before one process at 99%. *)
Definition crowded : world :=
  host 1000
    (map (fun i => (Z.of_nat i, proc "worker" (1 # 1) (3 # 1))) (seq 1 50)
     ++ [(51, proc "busy" (99 # 1) (3 # 1))])%list.

(** A stand-in for the schedule library's clock arithmetic: minutes
    are sixty seconds, a day is 86400. *)
Definition lib_next_run (u : Scheduler.job_unit) (now : Z) : option Z :=
  match u with
  | Scheduler.EveryMinutes (Some n) => Some (now + 60 * n)
  | Scheduler.EveryMinutes None => None
  | Scheduler.EveryDayAt (Some _) => Some (now + 86400)
  | Scheduler.EveryWeekdayAt _ (Some _) => Some (now + 7 * 86400)
  | _ => None
  end.

Definition optimize_all : Scheduler.action :=
  Scheduler.mk_action (Some "optimize_all") [] None None.

(** A scheduler without schedules, on the host with the browser. *)
Definition idle_scheduler : Scheduler.sys :=
  Scheduler.mk_sys browser fresh_optimizer
    (Scheduler.mk_scheduler [] [Scheduler.mk_callback 0 (fun _ => None)] [] 0 [])
    [].

(** [add_schedule("boot", "startup", actions=[optimize_all])] *)
Definition add_boot : Scheduler.sys * (string + string) :=
  Scheduler.add_schedule lib_next_run "uuid-1" "boot" "startup" None [] None
    [optimize_all] true idle_scheduler.

(** Three subscribers; the second one raises on every list. *)
Definition subscribers : Monitor.monitor :=
  Monitor.mk_monitor (2 # 1)
    [ Monitor.mk_callback 0 (fun _ => None);
      Monitor.mk_callback 1 (fun _ => Some "boom");
      Monitor.mk_callback 2 (fun _ => None) ]
    [] [].

End Scenario.

(* ===================================================================== *)
(* Facts about the Python data structures                                *)
(* ===================================================================== *)
Module PyStrFacts.
Import PyStr.

Lemma lower_length s : String.length (lower s) = String.length s.
Proof. induction s as [|c t IH]; simpl; [reflexivity | now rewrite IH]. Qed.

Lemma str_in_empty s : str_in "" s = true.
Proof. destruct s; reflexivity. Qed.

Lemma str_in_refl s : str_in s s = true.
Proof.
  destruct s as [|c t]; [reflexivity|].
  cbn [str_in]. rewrite (proj2 (String.prefix_correct _ _)); [reflexivity|].
  generalize (String c t). clear. intros s.
  induction s as [|c t IH]; simpl; [reflexivity | now rewrite IH].
Qed.

Example lower_ex : lower "Valorant.EXE" = "valorant.exe".
Proof. reflexivity. Qed.

Example str_in_ex : str_in "chrome" "chromehelper.exe" = true
                    /\ str_in "unity" "my_unity_game.exe" = true
                    /\ str_in "game" "chrome.exe" = false.
Proof. repeat split. Qed.

End PyStrFacts.

Module PyDictFacts.
Import PyDict.
Section Dict.
Context {K V : Type} `{EqDecision K}.
Implicit Types (d : dict K V) (k : K) (v : V).

Lemma get_set_eq k v d : get k (set k v d) = Some v.
Proof.
  induction d as [|[k' v'] r IH]; simpl.
  - destruct (decide (k = k)); congruence.
  - destruct (decide (k = k')) as [->|Hne]; simpl.
    + destruct (decide (k' = k')); congruence.
    + destruct (decide (k = k')); [contradiction | exact IH].
Qed.

Lemma get_set_ne k k' v d : k <> k' -> get k' (set k v d) = get k' d.
Proof.
  intros Hne. induction d as [|[k0 v0] r IH]; simpl.
  - destruct (decide (k' = k)); congruence.
  - destruct (decide (k = k0)) as [->|Hk]; simpl.
    + destruct (decide (k' = k0)); congruence.
    + destruct (decide (k' = k0)); [reflexivity | exact IH].
Qed.

Lemma keys_set_in k v d :
  forall x, In x (keys (set k v d)) <-> x = k \/ In x (keys d).
Proof.
  intros x. induction d as [|[k0 v0] r IH]; simpl.
  - intuition congruence.
  - destruct (decide (k = k0)) as [->|Hk]; simpl; [intuition congruence|].
    rewrite IH. tauto.
Qed.

Lemma keys_del_in k d :
  forall x, In x (keys (del k d)) -> In x (keys d).
Proof.
  intros x. induction d as [|[k0 v0] r IH]; simpl; [tauto|].
  destruct (decide (k = k0)); simpl; tauto.
Qed.

Lemma get_None_keys k d : get k d = None <-> ~ In k (keys d).
Proof.
  induction d as [|[k0 v0] r IH]; simpl; [tauto|].
  destruct (decide (k = k0)) as [->|Hk].
  - split; [discriminate | tauto].
  - rewrite IH. split; [intros H [E|H']; [congruence | tauto] | tauto].
Qed.

Lemma wf_nil : wf ([] : dict K V).
Proof. constructor. Qed.

Lemma wf_set k v d : wf d -> wf (set k v d).
Proof.
  unfold wf. induction d as [|[k0 v0] r IH]; simpl; intros Hd.
  - repeat constructor. rewrite list_elem_of_In. simpl. tauto.
  - apply NoDup_cons in Hd as [Hin Hr].
    destruct (decide (k = k0)) as [->|Hk]; simpl.
    + apply NoDup_cons. split; assumption.
    + apply NoDup_cons. split; [|apply IH; exact Hr].
      rewrite list_elem_of_In in *. rewrite keys_set_in.
      intros [E|H']; [congruence | contradiction].
Qed.

Lemma wf_del k d : wf d -> wf (del k d).
Proof.
  unfold wf. induction d as [|[k0 v0] r IH]; simpl; intros Hd; [exact Hd|].
  apply NoDup_cons in Hd as [Hin Hr].
  destruct (decide (k = k0)); [exact Hr|]. simpl.
  apply NoDup_cons. split; [|apply IH; exact Hr].
  rewrite list_elem_of_In in *. intros H'. apply Hin.
  eapply keys_del_in; exact H'.
Qed.

Lemma get_del_eq k d : wf d -> get k (del k d) = None.
Proof.
  unfold wf. induction d as [|[k0 v0] r IH]; simpl; intros Hd; [reflexivity|].
  apply NoDup_cons in Hd as [Hin Hr].
  destruct (decide (k = k0)) as [->|Hk]; simpl.
  - apply get_None_keys. rewrite <- list_elem_of_In. exact Hin.
  - destruct (decide (k = k0)); [contradiction | apply IH; exact Hr].
Qed.

Lemma get_del_ne k k' d : k <> k' -> get k' (del k d) = get k' d.
Proof.
  intros Hne. induction d as [|[k0 v0] r IH]; simpl; [reflexivity|].
  destruct (decide (k = k0)) as [->|Hk]; simpl.
  - destruct (decide (k' = k0)); congruence.
  - destruct (decide (k' = k0)); [reflexivity | exact IH].
Qed.

Lemma del_absent k d : get k d = None -> del k d = d.
Proof.
  induction d as [|[k0 v0] r IH]; simpl; [reflexivity|].
  destruct (decide (k = k0)); [discriminate|].
  intros H. now rewrite IH.
Qed.

(** Number of entries held under a key. *)
Lemma count_key_notin k d : ~ In k (keys d) -> count_key k d = 0%nat.
Proof.
  induction d as [|[k0 v0] r IH]; simpl; [reflexivity|].
  intros Hn. destruct (decide (k = k0)) as [->|Hk].
  - exfalso. apply Hn. now left.
  - simpl. apply IH. tauto.
Qed.

Lemma count_key_wf k d : wf d -> (count_key k d <= 1)%nat.
Proof.
  unfold wf. induction d as [|[k0 v0] r IH]; simpl; intros Hd; [lia|].
  apply NoDup_cons in Hd as [Hin Hr].
  destruct (decide (k = k0)) as [->|Hk].
  - rewrite list_elem_of_In in Hin.
    rewrite (count_key_notin k0 r Hin). lia.
  - simpl. apply IH. exact Hr.
Qed.


End Dict.
End PyDictFacts.

Module PyNumFacts.
Import PyNum.

Lemma q_ltb_lt a b : q_ltb a b = true <-> (a < b)%Q.
Proof. unfold q_ltb, Qlt. apply Z.ltb_lt. Qed.

Lemma q_ltb_ge a b : q_ltb a b = false <-> (b <= a)%Q.
Proof. unfold q_ltb, Qle. rewrite Z.ltb_ge. reflexivity. Qed.

Lemma q_max_ge_l a b : (a <= q_max a b)%Q.
Proof.
  unfold q_max. destruct (q_ltb a b) eqn:E.
  - apply q_ltb_lt in E. now apply Qlt_le_weak.
  - apply Qle_refl.
Qed.

Lemma q_int_nonneg x : (0 <= x)%Q -> (0 <= q_int x)%Z.
Proof.
  unfold q_int, Qle. simpl. intros H. rewrite Z.mul_1_r in H.
  apply Z.quot_pos; lia.
Qed.

Lemma q_int_proper x y : (x == y)%Q -> q_int x = q_int y.
Proof.
  unfold Qeq, q_int. intros H.
  rewrite <- (Z.quot_mul_cancel_r (Qnum x) (Z.pos (Qden x)) (Z.pos (Qden y)))
    by lia.
  rewrite <- (Z.quot_mul_cancel_r (Qnum y) (Z.pos (Qden y)) (Z.pos (Qden x)))
    by lia.
  rewrite H. f_equal. apply Z.mul_comm.
Qed.

Lemma inject_Z_nonneg z : 0 <= z -> (0 <= inject_Z z)%Q.
Proof. intros H. unfold Qle. simpl. lia. Qed.

Lemma q_int_lower_bound n x : (inject_Z n <= x)%Q -> n <= q_int x.
Proof.
  unfold Qle, q_int. simpl. intros H.
  apply Z.quot_le_lower_bound; [reflexivity|].
  rewrite Z.mul_1_r in H. rewrite Z.mul_comm. exact H.
Qed.

Lemma q_max_0_nonneg x : (0 <= q_max 0 x)%Q.
Proof. apply q_max_ge_l. Qed.

(** Rounding keeps the sign. *)
Lemma round_half_even_nonneg x : (0 <= x)%Q -> 0 <= round_half_even x.
Proof.
  intros H. unfold round_half_even.
  assert (0 <= Qfloor x) as Hf.
  { change 0 with (Qfloor 0). now apply Qfloor_resp_le. }
  destruct (_ ?= _)%Q; [destruct (Z.even _)| |]; lia.
Qed.

Lemma pow2_pos e : (0 < 2 ^ e)%Q.
Proof. apply Qpower_0_lt. reflexivity. Qed.

Lemma binary64_nonneg x : (0 <= x)%Q -> (0 <= binary64 x)%Q.
Proof.
  intros H. unfold binary64. destruct (Qeq_bool x 0); [apply Qle_refl|].
  cbv zeta. set (e := Z.max _ _).
  apply Qmult_le_0_compat; [|apply Qlt_le_weak, pow2_pos].
  change 0%Q with (inject_Z 0). rewrite <- Zle_Qle.
  apply round_half_even_nonneg.
  apply Qle_shift_div_l; [apply pow2_pos|]. now rewrite Qmult_0_l.
Qed.

Lemma round_half_even_le x n : (x <= inject_Z n)%Q -> round_half_even x <= n.
Proof.
  intros H. unfold round_half_even.
  assert (Qfloor x <= n) as Hf.
  { rewrite <- (Qfloor_Z n). now apply Qfloor_resp_le. }
  pose proof (Qfloor_le x) as Hlow.
  destruct (Qcompare_spec (x - inject_Z (Qfloor x)) (1 # 2)) as [E|E|E];
    [destruct (Z.even (Qfloor x))| |]; try lia.
  - assert (Qfloor x < n); [|lia]. apply Z.le_neq. split; [exact Hf|].
    intros Heq. rewrite Heq in E. lra.
  - assert (Qfloor x < n); [|lia]. apply Z.le_neq. split; [exact Hf|].
    intros Heq. rewrite Heq in E. lra.
Qed.



Lemma binary64_nonpos x : (x <= 0)%Q -> (binary64 x <= 0)%Q.
Proof.
  intros H. unfold binary64. destruct (Qeq_bool x 0); [apply Qle_refl|].
  cbv zeta. set (e := Z.max _ _).
  rewrite <- (Qmult_0_l (2 ^ e)).
  apply Qmult_le_compat_r; [|apply Qlt_le_weak, pow2_pos].
  change 0%Q with (inject_Z 0). rewrite <- Zle_Qle.
  apply round_half_even_le.
  apply Qle_shift_div_r; [apply pow2_pos|]. simpl. now rewrite Qmult_0_l.
Qed.

(** A number that is not negative. *)
Definition nonneg (a : num) : Prop :=
  match a with
  | Int n => 0 <= n
  | Float x => (0 <= x)%Q
  end.

Lemma to_float_nonneg a : nonneg a -> (0 <= to_float a)%Q.
Proof.
  destruct a as [n|x]; simpl; intros H; [|exact H].
  now apply binary64_nonneg, inject_Z_nonneg.
Qed.

Lemma num_add_nonneg a b : nonneg a -> nonneg b -> nonneg (num_add a b).
Proof.
  intros Ha Hb.
  assert (0 <= float_add (to_float a) (to_float b))%Q as Hf.
  { apply binary64_nonneg.
    pose proof (Qplus_le_compat _ _ _ _ (to_float_nonneg a Ha)
                  (to_float_nonneg b Hb)) as H.
    now rewrite Qplus_0_l in H. }
  destruct a as [m|x], b as [n|y]; simpl in *; try exact Hf. lia.
Qed.

Lemma py_sum_nonneg xs : List.Forall nonneg xs -> nonneg (py_sum xs).
Proof.
  unfold py_sum. assert (nonneg (Int 0)) as H0 by (simpl; lia).
  revert H0. generalize (Int 0). induction xs as [|x xs IH]; intros acc Hacc Hall.
  - exact Hacc.
  - apply List.Forall_cons_iff in Hall as [Hx Hall]. simpl.
    apply IH; [now apply num_add_nonneg | exact Hall].
Qed.

Lemma py_int_nonneg a : nonneg a -> 0 <= py_int a.
Proof. destruct a as [n|x]; simpl; [tauto | apply q_int_nonneg]. Qed.

Lemma max0_nonneg x : nonneg (max0 x).
Proof.
  unfold max0. destruct (q_ltb 0 x) eqn:E; simpl; [|lia].
  apply q_ltb_lt in E. now apply Qlt_le_weak.
Qed.

End PyNumFacts.

Module PyListFacts.
Import PyList.
Section Sorted.
Context {A : Type}.
Variable ltb : A -> A -> bool.
Local Abbreviation insert_desc := (insert_desc ltb).
Local Abbreviation sorted_desc := (sorted_desc ltb).
Local Abbreviation ge_key := (ge_key ltb).

Lemma insert_desc_perm x s : Permutation (x :: s) (insert_desc x s).
Proof.
  induction s as [|y r IH]; simpl; [reflexivity|].
  destruct (ltb x y); [|reflexivity].
  rewrite perm_swap. now constructor.
Qed.

Lemma sorted_desc_perm l : Permutation l (sorted_desc l).
Proof.
  induction l as [|x r IH]; simpl; [reflexivity|].
  rewrite <- insert_desc_perm. now constructor.
Qed.

Lemma sorted_desc_length l : List.length (sorted_desc l) = List.length l.
Proof. symmetry. apply Permutation_length, sorted_desc_perm. Qed.

Lemma sorted_desc_In l x : In x (sorted_desc l) <-> In x l.
Proof.
  split; apply Permutation_in; [symmetry|]; apply sorted_desc_perm.
Qed.

(** Sortedness, for a key order that is transitive. *)
Hypothesis ltb_trans_ge :
  forall x y z, ltb x y = false -> ltb y z = false -> ltb x z = false.
Hypothesis ltb_asym : forall x y, ltb x y = true -> ltb y x = false.


Lemma insert_desc_sorted x s :
  StronglySorted ge_key s -> StronglySorted ge_key (insert_desc x s).
Proof.
  induction 1 as [|y r Hr IH Hall]; simpl.
  - repeat constructor.
  - destruct (ltb x y) eqn:E.
    + constructor; [exact IH|].
      rewrite List.Forall_forall in *. intros z Hz.
      apply (Permutation_in _ (Permutation_sym (insert_desc_perm x r))) in Hz.
      destruct Hz as [<-|Hz]; [now apply ltb_asym | now apply Hall].
    + constructor; [constructor; assumption|].
      constructor; [exact E|].
      rewrite List.Forall_forall in *. intros z Hz.
      eapply ltb_trans_ge; [exact E | now apply Hall].
Qed.

Lemma sorted_desc_sorted l : StronglySorted ge_key (sorted_desc l).
Proof.
  induction l as [|x r IH]; simpl; [constructor | now apply insert_desc_sorted].
Qed.

End Sorted.

Lemma take_sorted {A} (R : A -> A -> Prop) n (l : list A) :
  StronglySorted R l -> StronglySorted R (firstn n l).
Proof.
  intros H. revert n. induction H as [|x r Hr IH Hall]; intros [|n]; simpl;
    try constructor; [apply IH|].
  rewrite List.Forall_forall in *. intros z Hz. apply Hall.
  rewrite <- (firstn_skipn n r). apply in_or_app. now left.
Qed.

Lemma take_In {A} n (l : list A) x : In x (firstn n l) -> In x l.
Proof.
  intros H. rewrite <- (firstn_skipn n l). apply in_or_app. now left.
Qed.

End PyListFacts.

(* ===================================================================== *)
(* The optimizer: records, boost, removal, statistics                    *)
(* ===================================================================== *)
Module OptimizerSpec.
Import OS PyNum Optimizer.
Import PyDictFacts PyNumFacts.

Lemma Process_put w pid p : Process (put_process w pid p) pid = Some p.
Proof. unfold Process, put_process. simpl. apply get_set_eq. Qed.

Lemma Process_put_ne w pid pid' p :
  pid <> pid' -> Process (put_process w pid p) pid' = Process w pid'.
Proof. intros H. unfold Process, put_process. simpl. now apply get_set_ne. Qed.

Lemma mem_true_iff {V} (k : Z) (d : PyDict.dict Z V) :
  PyDict.mem k d = true <-> PyDict.get k d <> None.
Proof. unfold PyDict.mem. destruct (PyDict.get k d); split; congruence. Qed.

(** The priority that [remove_optimization] resets a process to. *)
Definition normal_priority (o : optimizer) : Z :=
  if decide (platform_name o = Windows) then NORMAL_PRIORITY_CLASS else 0.

(** The table of records has one entry per pid in every state the
    optimizer can reach: it starts empty and each operation keeps its
    keys distinct. *)
Lemma init_wf w custom : PyDict.wf (optimized_processes (init w custom)).
Proof. apply NoDup_nil_2. Qed.

Lemma optimize_process_wf w o pid profile_name :
  PyDict.wf (optimized_processes o) ->
  PyDict.wf (optimized_processes (snd (fst (optimize_process w o pid profile_name)))).
Proof.
  intros H. unfold optimize_process. destruct (Process w pid) as [p|]; [|exact H].
  destruct (p_name_denied p); [exact H|].
  destruct (apply_actions _ _ _ _) as [[p' [e|]] applied]; [exact H|].
  simpl. now apply wf_set.
Qed.

Lemma calculate_boost_wf w o pid :
  PyDict.wf (optimized_processes o) ->
  PyDict.wf (optimized_processes (fst (calculate_boost w o pid))).
Proof.
  intros H. unfold calculate_boost.
  destruct (PyDict.get pid (optimized_processes o)); [|exact H].
  destruct (Process w pid) as [p|]; [|exact H].
  destruct (p_nice_read_denied p); [exact H|]. simpl. now apply wf_set.
Qed.

Lemma remove_optimization_wf w o pid :
  PyDict.wf (optimized_processes o) ->
  PyDict.wf (optimized_processes (snd (fst (remove_optimization w o pid)))).
Proof.
  intros H. unfold remove_optimization. destruct (Process w pid) as [p|]; [|exact H].
  destruct (set_nice p _) as [p1|]; [|exact H].
  destruct (set_affinity p1 _); [|exact H]. simpl.
  destruct (PyDict.mem pid (optimized_processes o)); [now apply wf_del | exact H].
Qed.

(** C10: without records [get_optimization_stats] does not divide by
    zero (in no state does it raise) and reports 0 processes, total
    boost 0, average boost 0 and no top processes. *)
Theorem stats_without_records :
  (forall o, get_optimization_stats o <> None) /\
  (forall plat profiles,
     get_optimization_stats (mk_optimizer plat [] profiles)
     = Some (mk_stats 0 (0 # 1) 0 [])).
Proof.
  split.
  - intros o. unfold get_optimization_stats.
    destruct (0 <? Z.of_nat (List.length (optimized_processes o))) eqn:Hn;
      [|discriminate].
    apply Z.ltb_lt in Hn. unfold truediv.
    destruct (_ =? 0) eqn:Hq; [|discriminate].
    apply Z.eqb_eq in Hq. lia.
  - intros plat profiles. reflexivity.
Qed.

(** C8 (as the code has it): on a process that exists and whose
    priority and affinity may be set, [remove_optimization] resets both
    to the defaults, deletes the record of the pid, keeps the other
    records and returns true; when the process is gone, or its priority
    may not be set, it returns false and changes nothing, the record
    included. *)
Theorem remove_optimization_outcomes w o pid :
  (forall p, Process w pid = Some p ->
     p_nice_denied p = false -> p_affinity_denied p = false ->
     PyDict.wf (optimized_processes o) ->
     exists w' o' p',
       remove_optimization w o pid = (w', o', true) /\
       Process w' pid = Some p' /\
       p_nice p' = normal_priority o /\
       p_affinity p' = range 0 (w_cpu_count w) /\
       PyDict.get pid (optimized_processes o') = None /\
       (forall q, q <> pid ->
          PyDict.get q (optimized_processes o')
          = PyDict.get q (optimized_processes o))) /\
  (Process w pid = None -> remove_optimization w o pid = (w, o, false)) /\
  (forall p, Process w pid = Some p -> p_nice_denied p = true ->
     remove_optimization w o pid = (w, o, false)).
Proof.
  split; [|split].
  - intros p Hp Hn Ha Hwf. unfold remove_optimization. rewrite Hp.
    unfold set_nice, set_affinity. rewrite Hn. simpl. rewrite Ha.
    eexists _, _, _. split; [reflexivity|].
    split; [apply Process_put|]. repeat split.
    + simpl. destruct (PyDict.mem pid (optimized_processes o)) eqn:Hm.
      * now apply get_del_eq.
      * unfold PyDict.mem in Hm.
        destruct (PyDict.get pid (optimized_processes o)); congruence.
    + intros q Hq. simpl.
      destruct (PyDict.mem pid (optimized_processes o));
        [apply get_del_ne; congruence | reflexivity].
  - intros Hp. unfold remove_optimization. now rewrite Hp.
  - intros p Hp Hn. unfold remove_optimization, set_nice. now rewrite Hp, Hn.
Qed.

(** C8, an instance: removing the optimization of process 100 after it
    was optimized. *)
Lemma remove_optimization_outcomes_witness :
  exists w' o' p',
    remove_optimization (fst Scenario.after_first) (snd Scenario.after_first) 100
    = (w', o', true) /\
    Process w' 100 = Some p' /\
    p_nice p' = 0 /\
    p_affinity p' = range 0 8 /\
    PyDict.get 100 (optimized_processes o') = None.
Proof.
  destruct (remove_optimization_outcomes
              (fst Scenario.after_first) (snd Scenario.after_first) 100)
    as [Hlive _].
  destruct (Hlive (with_affinity (with_nice (Scenario.proc "chromehelper.exe" (40 # 1) (3 # 1)) (-10)) (range 0 8)))
    as (w' & o' & p' & Hr & Hp & Hn & Ha & Hg & _).
  - reflexivity.
  - reflexivity.
  - reflexivity.
  - unfold PyDict.wf. simpl. apply NoDup_singleton.
  - exists w', o', p'. repeat split; assumption.
Defined.

(** C8 fails as stated: process 100 has exited and its record is still
    in the table; [remove_optimization(100)] returns false and the
    record stays. *)
Lemma remove_after_exit_keeps_record :
  let o := snd Scenario.after_first in
  let r := remove_optimization Scenario.empty_host o 100 in
  Process Scenario.empty_host 100 = None /\
  snd r = false /\
  PyDict.mem 100 (optimized_processes o) = true /\
  PyDict.mem 100 (optimized_processes (snd (fst r))) = true.
Proof. repeat split. Qed.

(** The tuning block of [optimize_process] runs to its end exactly
    when the profile has the two keys that are subscripted. *)
Lemma apply_actions_error w o p pr :
  snd (fst (apply_actions w o p pr)) = None
  <-> PyDict.mem "priority" pr = true /\ PyDict.mem "cpu_affinity" pr = true.
Proof.
  unfold apply_actions, PyDict.mem.
  destruct (PyDict.get "priority" pr) as [prio|]; simpl;
    [|split; [discriminate | intros [? _]; discriminate]].
  destruct (match prio with PStr s => _ | PBool _ => _ end) as [p1 ok1].
  destruct (PyDict.get "cpu_affinity" pr) as [aff|]; simpl;
    [|split; [discriminate | intros [_ ?]; discriminate]].
  destruct (match aff with PStr s => _ | PBool _ => _ end) as [p2 ok2].
  simpl. tauto.
Qed.




(** The CPU term as the specification words it, in exact arithmetic:
    [max(0, (before - now) / before * 100)] when [before > 0], nothing
    otherwise. *)
Definition cpu_term (before now : Q) : Q :=
  if q_ltb 0 before
  then q_max 0 (((before - now) / before) * (100 # 1))
  else 0.

Lemma cpu_term_nonneg before now : (0 <= cpu_term before now)%Q.
Proof.
  unfold cpu_term. destruct (q_ltb 0 before);
    [apply q_max_0_nonneg | apply Qle_refl].
Qed.

(** The CPU term as the code computes it, each operation rounded to
    binary64: the difference, the quotient, the product with 100. *)
Definition cpu_term_rounded (before now : Q) : num :=
  max0 (binary64 (binary64 (binary64 (before - now) / before) * (100 # 1))).

(** Without a drop of the CPU share the CPU term is the int 0. *)
Lemma cpu_term_rounded_zero before now :
  (0 < before)%Q -> (before <= now)%Q -> cpu_term_rounded before now = Int 0.
Proof.
  intros Hb Hle. unfold cpu_term_rounded, max0.
  assert (binary64 (before - now) <= 0)%Q as Hd by (apply binary64_nonpos; lra).
  assert (binary64 (binary64 (before - now) / before) <= 0)%Q as Hq.
  { apply binary64_nonpos. apply Qle_shift_div_r; [exact Hb|].
    now rewrite Qmult_0_l. }
  assert (binary64 (binary64 (binary64 (before - now) / before) * (100 # 1))
          <= 0)%Q as Ht.
  { apply binary64_nonpos.
    rewrite <- (Qmult_0_l (100 # 1)). apply Qmult_le_compat_r; [exact Hq|].
    discriminate. }
  apply q_ltb_ge in Ht. now rewrite Ht.
Qed.

Lemma boost_factors_nonneg i p : List.Forall nonneg (boost_factors i p).
Proof.
  unfold boost_factors, cpu_factor, base_factor, priority_factor.
  apply Forall_app. split; [|apply Forall_app; split].
  - destruct (q_ltb 0 (before_cpu i)); repeat constructor. apply max0_nonneg.
  - repeat constructor. simpl. lia.
  - destruct (p_nice p <? 32); repeat constructor. simpl. lia.
Qed.

Lemma boost_total_range i p :
  0 <= Z.min (py_int (py_sum (boost_factors i p))) 999 <= 999.
Proof.
  split; [|apply Z.le_min_r].
  apply Z.min_glb; [|lia].
  apply py_int_nonneg, py_sum_nonneg, boost_factors_nonneg.
Qed.

(** C5 (as the code has it): for a pid with a record whose process
    still exists and whose priority can be read, [calculate_boost] sums
    the CPU term (present when the CPU share before was above 0), 25
    per applied action and a priority term that is absent or 30, in
    this order and in float arithmetic as soon as the CPU term is a
    float; the sum is truncated to an integer and capped at 999, a
    value of [0, 999], and it is stored as the record's
    boost_percentage.  Without a CPU term, and when the CPU share has
    not dropped, the sum is exact: 25 per action plus the priority
    term.  When the
    process is gone or its priority cannot be read, the stored
    boost_percentage is returned and nothing is stored.  (The CPU
    reading of psutil is not negative.) *)
Theorem calculate_boost_value w o pid i :
  PyDict.get pid (optimized_processes o) = Some i ->
  (forall p, Process w pid = Some p -> p_nice_read_denied p = false ->
     (0 <= p_cpu_percent p)%Q ->
     let before := before_cpu i in
     let now := current_cpu (_get_process_metrics p) in
     let count := Z.of_nat (List.length (optimizations i)) in
     exists prio : Z,
       (prio = 0 \/ prio = 30) /\
       let factors :=
         ((if q_ltb 0 before then [cpu_term_rounded before now] else [])
          ++ [Int (count * 25)]
          ++ (if prio =? 0 then [] else [Int prio]))%list in
       let total := Z.min (py_int (py_sum factors)) 999 in
       0 <= total <= 999 /\
       (q_ltb 0 before = false \/ (before <= now)%Q ->
        total = Z.min (count * 25 + prio) 999) /\
       snd (calculate_boost w o pid) = total /\
       PyDict.get pid (optimized_processes (fst (calculate_boost w o pid)))
       = Some (with_boost i total)) /\
  (forall p, Process w pid = Some p -> p_nice_read_denied p = true ->
     calculate_boost w o pid = (o, boost_percentage i)) /\
  (Process w pid = None -> calculate_boost w o pid = (o, boost_percentage i)).
Proof.
  intros Hi. split; [|split].
  - intros p Hp Hread _. cbv zeta.
    exists (if p_nice p <? 32 then 30 else 0).
    split; [destruct (p_nice p <? 32); tauto|].
    assert (((if q_ltb 0 (before_cpu i)
              then [cpu_term_rounded (before_cpu i)
                      (current_cpu (_get_process_metrics p))]
              else [])
             ++ [Int (Z.of_nat (List.length (optimizations i)) * 25)]
             ++ (if (if p_nice p <? 32 then 30 else 0) =? 0 then []
                 else [Int (if p_nice p <? 32 then 30 else 0)]))%list
            = boost_factors i p) as ->.
    { unfold boost_factors, cpu_factor, base_factor, priority_factor.
      destruct (p_nice p <? 32); reflexivity. }
    unfold calculate_boost. rewrite Hi, Hp, Hread. simpl.
    split; [apply boost_total_range|]. split; [|split].
    + intros Hb. unfold boost_factors, cpu_factor, base_factor, priority_factor.
      destruct (q_ltb 0 (before_cpu i)) eqn:Hpos.
      * destruct Hb as [Hb|Hb]; [discriminate|]. apply q_ltb_lt in Hpos.
        change (max0 _) with
          (cpu_term_rounded (before_cpu i) (current_cpu (_get_process_metrics p))).
        rewrite (cpu_term_rounded_zero _ _ Hpos Hb).
        destruct (p_nice p <? 32); simpl; f_equal; lia.
      * destruct (p_nice p <? 32); simpl; f_equal; lia.
    + reflexivity.
    + apply get_set_eq.
  - intros p Hp Hread. unfold calculate_boost. now rewrite Hi, Hp, Hread.
  - intros Hp. unfold calculate_boost. now rewrite Hi, Hp.
Qed.

(** C5, an instance: a game optimized at 5% CPU with three actions,
    read again at 4.9% CPU on Linux.  The float sum is just below 107
    and the boost is 106; after the game has exited the stored value is
    returned. *)
Lemma calculate_boost_value_witness :
  let o := snd Scenario.tuned_game in
  (List.length <$> (optimizations <$> PyDict.get 7 (optimized_processes o)))
  = Some 3%nat /\
  snd (calculate_boost Scenario.cooled_game o 7) = 106 /\
  calculate_boost Scenario.empty_host o 7 = (o, 0).
Proof.
  cbv zeta. split; [reflexivity|].
  destruct (calculate_boost_value Scenario.cooled_game
              (snd Scenario.tuned_game) 7 _ eq_refl) as (Hlive & _ & _).
  destruct (calculate_boost_value Scenario.empty_host
              (snd Scenario.tuned_game) 7 _ eq_refl) as (_ & _ & Hgone).
  destruct (Hlive _ eq_refl eq_refl) as (prio & Hprio & Hrest).
  { vm_compute. discriminate. }
  cbv zeta in Hrest. destruct Hrest as (_ & _ & Hv & _).
  split; [|exact (Hgone eq_refl)].
  destruct Hprio as [-> | ->].
  - vm_compute in Hv. discriminate.
  - rewrite Hv. vm_compute. reflexivity.
Defined.

(** C5 fails as stated: process 100 has exited; its record lists four
    applied actions, which alone are worth 100, and a boost_percentage
    of 0.  [calculate_boost(100)] returns 0 and leaves the record as it
    was. *)
Lemma boost_of_exited_process_is_stale :
  let o := snd Scenario.after_first in
  let r := calculate_boost Scenario.empty_host o 100 in
  exists i,
    PyDict.get 100 (optimized_processes o) = Some i /\
    List.length (optimizations i) = 4%nat /\
    snd r = 0 /\ fst r = o /\
    (forall now prio, 0 <= prio -> 
       snd r <> Z.min (q_int (cpu_term (before_cpu i) now
                       + inject_Z (25 * Z.of_nat (List.length (optimizations i)))
                       + inject_Z prio)%Q) 999).
Proof.
  cbv zeta. eexists. split; [reflexivity|]. repeat split.
  intros now prio Hprio.
  change (snd (calculate_boost Scenario.empty_host (snd Scenario.after_first) 100))
    with 0.
  match goal with
  | |- 0 <> Z.min (q_int ?x) 999 => assert (inject_Z 100 <= x)%Q as Hx
  end.
  { pose proof (cpu_term_nonneg (40 # 1) now) as Hc.
    pose proof (inject_Z_nonneg prio Hprio) as Hq.
    pose proof (Qplus_le_compat _ _ _ _
                  (Qplus_le_compat _ _ _ _ Hc (Qle_refl (inject_Z 100))) Hq) as H.
    rewrite Qplus_0_l, Qplus_0_r in H. exact H. }
  apply q_int_lower_bound in Hx. lia.
Qed.

End OptimizerSpec.

(* ===================================================================== *)
(* The game detector: classification and the game-mode session           *)
(* ===================================================================== *)
Module GameDetectorSpec.
Import OS GameDetector.

(** The processes of a list that [detect_games] reports. *)
Definition reported (d : detector) (w : world) (ps : list Monitor.snapshot)
  : list Monitor.snapshot :=
  List.filter (fun p => match classify d w p with Some _ => true | None => false end) ps.

(** The calls that reach a detector, in the order they are made; between
    them the rest of the program and the system may change the world and
    the optimizer at will. *)
Inductive call :=
| Detect (processes : list Monitor.snapshot)
| Enable (detected_games : list game_info)
| Disable
| Elsewhere (w : world) (o : Optimizer.optimizer).

Definition state : Type := world * Optimizer.optimizer * detector.

Definition run_call (st : state) (c : call) : state :=
  let '(w, o, d) := st in
  match c with
  | Detect ps => (w, o, fst (detect_games d w ps))
  | Enable games => fst (enable_game_mode w o d games)
  | Disable => disable_game_mode w o d
  | Elsewhere w' o' => (w', o', d)
  end.

Definition run (cs : list call) (st : state) : state := fold_left run_call cs st.

Definition populated (settings : PyDict.dict string value) : Prop :=
  PyDict.keys settings = ["power_plan"; "gpu_settings"; "network_settings"].

Definition cleared (settings : PyDict.dict string value) : Prop := settings = [].

Lemma detect_loop_spec w ps : forall d acc,
  let r := detect_loop d w ps acc in
  known_games (fst r) = known_games d /\
  game_mode_active (fst r) = game_mode_active d /\
  original_settings (fst r) = original_settings d /\
  game_launchers (fst r) = game_launchers d /\
  game_indicators (fst r) = game_indicators d /\
  gaming_processes (fst r)
  = list_to_set (map Monitor.pid (reported d w ps)) ∪ gaming_processes d /\
  snd r = (acc ++ omap (classify d w) ps)%list.
Proof.
  induction ps as [|p rest IH]; intros d acc; cbv zeta.
  - simpl. repeat split; [now rewrite (left_id_L ∅ (∪)) | now rewrite app_nil_r].
  - cbn [detect_loop reported List.filter omap].
    destruct (classify d w p) as [game|] eqn:Hc.
    + specialize (IH (with_tracked d ({[Monitor.pid p]} ∪ gaming_processes d))
                    (acc ++ [game])%list).
      cbv zeta in IH. destruct IH as (H1 & H2 & H3 & H4 & H5 & H6 & H7).
      change (classify (with_tracked d ({[Monitor.pid p]} ∪ gaming_processes d)) w)
        with (classify d w) in *.
      change (reported (with_tracked d ({[Monitor.pid p]} ∪ gaming_processes d)) w rest)
        with (reported d w rest) in *.
      repeat split; try assumption.
      * rewrite H6. clear. cbn [map gaming_processes with_tracked].
        rewrite list_to_set_cons.
        change (List.filter _ rest) with (reported d w rest).
        generalize (map Monitor.pid (reported d w rest)).
        generalize (gaming_processes d). intros tracked pids.
        rewrite (assoc_L (∪)), (comm_L (∪) _ {[Monitor.pid p]}). reflexivity.
      * rewrite H7, <- app_assoc. simpl. now rewrite Hc.
    + specialize (IH d acc). cbv zeta in IH.
      destruct IH as (H1 & H2 & H3 & H4 & H5 & H6 & H7).
      repeat split; try assumption. rewrite H7. simpl. now rewrite Hc.
Qed.

(** C3 (as the code has it): [detect_games] leaves the game-mode flag,
    the saved settings and the tables of the detector as they were and
    touches neither the system nor the optimizer, but it adds the pid
    of every process it reports to the tracked gaming-process set; the
    list it returns is the list of the entries of the reported
    processes, one per process in input order, and it is the same for
    every detector with these known games and indicators, whatever its
    flag, its tracked set, its saved settings and its launchers. *)
Theorem detect_games_frame d w ps :
  let d' := fst (detect_games d w ps) in
  game_mode_active d' = game_mode_active d /\
  original_settings d' = original_settings d /\
  known_games d' = known_games d /\
  game_launchers d' = game_launchers d /\
  game_indicators d' = game_indicators d /\
  gaming_processes d'
  = list_to_set (map Monitor.pid (reported d w ps)) ∪ gaming_processes d /\
  snd (detect_games d w ps) = omap (classify d w) ps /\
  (forall tracked active settings launchers,
     snd (detect_games
            (mk_detector (known_games d) tracked active settings launchers
               (game_indicators d)) w ps)
     = snd (detect_games d w ps)).
Proof.
  cbv zeta. unfold detect_games.
  destruct (detect_loop_spec w ps d []) as (H1 & H2 & H3 & H4 & H5 & H6 & H7).
  repeat split; try assumption.
  intros tracked active settings launchers.
  destruct (detect_loop_spec w ps
              (mk_detector (known_games d) tracked active settings launchers
                 (game_indicators d)) []) as (_ & _ & _ & _ & _ & _ & H8).
  cbv zeta in H7, H8. rewrite H7, H8. reflexivity.
Qed.

(** C3 fails as stated: before the call no process is tracked; after
    [detect_games] on a list with valorant.exe (pid 1) the tracked set
    holds pid 1. *)
Lemma detect_games_tracks_pid :
  let d := Scenario.fresh_detector in
  let d' := fst (detect_games d Scenario.empty_host Scenario.valorant) in
  elements (gaming_processes d) = [] /\
  elements (gaming_processes d') = [1].
Proof. split; vm_compute; reflexivity. Qed.

Lemma classify_known d w p entry :
  PyDict.get (PyStr.lower (Monitor.name p)) (known_games d) = Some entry ->
  classify d w p
  = Some (PyDict.set "process_name" (VStr (PyStr.lower (Monitor.name p)))
            (PyDict.set "pid" (VInt (Monitor.pid p)) entry)).
Proof. intros H. unfold classify. now rewrite H. Qed.

Lemma classify_indicator d w p :
  PyDict.get (PyStr.lower (Monitor.name p)) (known_games d) = None ->
  PyStr.any_in (game_indicators d) (PyStr.lower (Monitor.name p)) = true ->
  classify d w p = Some (guessed p (PyStr.lower (Monitor.name p)) "indicator").
Proof. intros H1 H2. unfold classify. now rewrite H1, H2. Qed.

Lemma classify_gpu d w p :
  PyDict.get (PyStr.lower (Monitor.name p)) (known_games d) = None ->
  PyStr.any_in (game_indicators d) (PyStr.lower (Monitor.name p)) = false ->
  _check_gpu_usage w (Monitor.pid p) = true ->
  classify d w p = Some (guessed p (PyStr.lower (Monitor.name p)) "gpu_usage").
Proof. intros H1 H2 H3. unfold classify. now rewrite H1, H2, H3. Qed.

(** C4 at valorant.exe, a name of the known-games table: the one entry
    reported for it has the keys name, type, pid and process_name, and
    no detected_by. *)
Theorem known_game_has_no_detected_by :
  let out := snd (detect_games Scenario.fresh_detector Scenario.empty_host
                    Scenario.valorant) in
  out = [[("name", VStr "Valorant"); ("type", VStr "fps"); ("pid", VInt 1);
          ("process_name", VStr "valorant.exe")]] /\
  map (PyDict.get "detected_by") out = [None].
Proof. split; reflexivity. Qed.

(** Two systems that differ in their process tables at most. *)
Definition same_machine (w w' : world) : Prop :=
  w_platform w' = w_platform w /\ w_cpu_count w' = w_cpu_count w /\
  w_now w' = w_now w /\ w_powershell_ok w' = w_powershell_ok w /\
  w_power_scheme w' = w_power_scheme w /\
  w_powercfg_ok w' = w_powercfg_ok w /\ w_gpu_load w' = w_gpu_load w.

Lemma same_machine_refl w : same_machine w w.
Proof. repeat split. Qed.

Lemma same_machine_trans w1 w2 w3 :
  same_machine w1 w2 -> same_machine w2 w3 -> same_machine w1 w3.
Proof. unfold same_machine. intuition congruence. Qed.

Lemma optimize_same_machine w o pid n :
  same_machine w (fst (fst (Optimizer.optimize_process w o pid n))).
Proof.
  unfold Optimizer.optimize_process. destruct (Process w pid) as [p|];
    [|apply same_machine_refl].
  destruct (p_name_denied p); [apply same_machine_refl|].
  destruct (Optimizer.apply_actions _ _ _ _) as [[p' [e|]] applied];
    repeat split.
Qed.

Lemma remove_same_machine w o pid :
  same_machine w (fst (fst (Optimizer.remove_optimization w o pid))).
Proof.
  unfold Optimizer.remove_optimization. destruct (Process w pid) as [p|];
    [|apply same_machine_refl].
  destruct (set_nice p _) as [p1|]; [|apply same_machine_refl].
  destruct (set_affinity p1 _); repeat split.
Qed.

Lemma enable_loop_same_machine games : forall w o,
  same_machine w (fst (fst (enable_loop w o games))).
Proof.
  induction games as [|g rest IH]; intros w o; cbn [enable_loop];
    [apply same_machine_refl|].
  destruct (PyDict.get "pid" g) as [v|]; [|apply same_machine_refl].
  assert (same_machine w
            (fst match v with
                 | VInt n => let '(w', o', _) :=
                     Optimizer.optimize_process w o n (Some "game") in (w', o')
                 | _ => (w, o)
                 end)) as H1.
  { destruct v; try apply same_machine_refl.
    pose proof (optimize_same_machine w o n (Some "game")) as H.
    destruct (Optimizer.optimize_process w o n (Some "game")) as [[w' o'] r].
    exact H. }
  destruct (match v with
            | VInt n => let '(w', o', _) :=
                Optimizer.optimize_process w o n (Some "game") in (w', o')
            | _ => (w, o)
            end) as [w1 o1]. simpl in H1.
  destruct (_apply_game_optimizations g); [exact H1|].
  eapply same_machine_trans; [exact H1 | apply IH].
Qed.

Lemma remove_all_same_machine pids : forall w o,
  same_machine w (fst (remove_all w o pids)).
Proof.
  unfold remove_all.
  induction pids as [|a r IH]; intros w o; simpl; [apply same_machine_refl|].
  pose proof (remove_same_machine w o a) as H.
  destruct (Optimizer.remove_optimization w o a) as [[w1 o1] b]. simpl in *.
  eapply same_machine_trans; [exact H | apply IH].
Qed.

Lemma power_plan_cases w :
  _get_power_plan w = "balanced" \/ _get_power_plan w = "high_performance" \/
  _get_power_plan w = "power_saver".
Proof.
  unfold _get_power_plan.
  destruct (PyStr.str_in "381b4222" _); [tauto|].
  destruct (PyStr.str_in "8c5e7fda" _); [tauto|].
  destruct (PyStr.str_in "a1841308" _); tauto.
Qed.

(** The settings as [_store_original_settings] leaves them: the name
    of one of the three known power plans and two empty dicts. *)
Definition captured (settings : PyDict.dict string value) : Prop :=
  exists plan,
    settings = [("power_plan", VStr plan); ("gpu_settings", VDict []);
                ("network_settings", VDict [])] /\
    (plan = "balanced" \/ plan = "high_performance" \/ plan = "power_saver").

Lemma captured_populated settings : captured settings -> populated settings.
Proof. intros (plan & -> & _). reflexivity. Qed.

Definition session_ok (st : state) : Prop :=
  game_mode_active (snd st) = true -> captured (original_settings (snd st)).

Lemma store_captured d w : captured (original_settings (_store_original_settings d w)).
Proof. exists (_get_power_plan w). split; [reflexivity | apply power_plan_cases]. Qed.

Lemma run_call_ok st c : session_ok st -> session_ok (run_call st c).
Proof.
  destruct st as [[w o] d]. unfold session_ok. simpl. intros Hinv.
  destruct c as [ps|games| |w' o']; simpl.
  - unfold detect_games.
    destruct (detect_loop_spec w ps d []) as (_ & Ha & Hs & _).
    cbv zeta in Ha, Hs. rewrite Ha, Hs. exact Hinv.
  - unfold enable_game_mode. destruct (game_mode_active d) eqn:Hact;
      [simpl; rewrite Hact; exact Hinv|].
    destruct (enable_loop w o games) as [[w1 o1] [e|]]; simpl;
      intros _; apply (store_captured d w).
  - unfold disable_game_mode. destruct (game_mode_active d) eqn:Hact; simpl.
    + destruct (remove_all w o (elements (gaming_processes d))). simpl.
      discriminate.
    + rewrite Hact. discriminate.
  - exact Hinv.
Qed.

Lemma run_ok cs : forall st, session_ok st -> session_ok (run cs st).
Proof.
  induction cs as [|c cs IH]; intros st H; simpl; [exact H|].
  apply IH. now apply run_call_ok.
Qed.

(** Asking for one of the three known plans: where powercfg takes
    effect the plan is active afterwards, elsewhere the scheme stays. *)
Lemma set_known_plan w plan :
  plan = "balanced" \/ plan = "high_performance" \/ plan = "power_saver" ->
  (w_powercfg_ok w = true ->
   _get_power_plan (_set_power_plan w (VStr plan)) = plan) /\
  (w_powercfg_ok w = false ->
   w_power_scheme (_set_power_plan w (VStr plan)) = w_power_scheme w).
Proof.
  intros [-> | [-> | ->]]; simpl; split; intros ->; reflexivity.
Qed.

(** C2 (as the code has it): after any sequence of calls, starting
    from a new detector, an active session has its saved settings
    populated; [disable_game_mode] always leaves the session inactive,
    and on an active session it empties the tracked-pid set, keeps
    the saved settings as they were captured (it does not clear
    them) and asks for the saved power plan: where powercfg takes
    effect that plan is the active one afterwards, and where it does
    not the scheme stays as it is while the session is left all the
    same.  On an inactive session it changes nothing. *)
Theorem game_session_invariant w o custom cs :
  let st := run cs (w, o, init custom) in
  let d := snd st in
  let w1 := fst (fst st) in
  let off := disable_game_mode w1 (snd (fst st)) d in
  let d' := snd off in
  (game_mode_active d = true -> populated (original_settings d)) /\
  game_mode_active d' = false /\
  (game_mode_active d = true ->
     gaming_processes d' = ∅ /\
     original_settings d' = original_settings d /\
     populated (original_settings d') /\
     exists plan,
       PyDict.get "power_plan" (original_settings d) = Some (VStr plan) /\
       (w_powercfg_ok w1 = true -> _get_power_plan (fst (fst off)) = plan) /\
       (w_powercfg_ok w1 = false ->
        w_power_scheme (fst (fst off)) = w_power_scheme w1)) /\
  (game_mode_active d = false -> off = st).
Proof.
  cbv zeta.
  assert (session_ok (run cs (w, o, init custom))) as Hok.
  { apply run_ok. unfold session_ok. simpl. discriminate. }
  destruct (run cs (w, o, init custom)) as [[w1 o1] d]. unfold session_ok in Hok.
  simpl in *. split; [intros H; now apply captured_populated, Hok|].
  unfold disable_game_mode. destruct (game_mode_active d) eqn:Hact; simpl.
  - pose proof (remove_all_same_machine (elements (gaming_processes d)) w1 o1)
      as (_ & _ & _ & _ & Hscheme & Hcfg & _).
    destruct (remove_all w1 o1 (elements (gaming_processes d))) as [w2 o2].
    simpl in *. split; [reflexivity|]. split; [|discriminate].
    intros _. destruct (Hok eq_refl) as (plan & Hset & Hplan).
    split; [reflexivity|]. split; [reflexivity|].
    split; [now apply captured_populated, Hok|].
    exists plan. split; [now rewrite Hset|].
    unfold _restore_original_settings. rewrite Hset. simpl.
    destruct (set_known_plan w2 plan Hplan) as [Hyes Hno].
    rewrite <- Hcfg, <- Hscheme. split; assumption.
  - split; [exact Hact|]. split; [discriminate | reflexivity].
Qed.

(** C2 fails as stated: a session is enabled (with no game at all) and
    disabled again; it is inactive and the saved settings are still the
    ones captured when it was enabled. *)
Lemma disabled_session_keeps_settings :
  let st := run [Enable []; Disable]
              (Scenario.empty_host, Scenario.fresh_optimizer,
               Scenario.fresh_detector) in
  game_mode_active (snd st) = false /\
  original_settings (snd st)
  = [("power_plan", VStr "balanced"); ("gpu_settings", VDict []);
     ("network_settings", VDict [])] /\
  ~ cleared (original_settings (snd st)).
Proof. cbv zeta. repeat split. intros H. vm_compute in H. discriminate. Qed.

End GameDetectorSpec.

(* ===================================================================== *)
(* The process monitor: the poll and the publish cycle                   *)
(* ===================================================================== *)
Module MonitorSpec.
Import OS PyNum Monitor.
Import PyNumFacts PyListFacts.

(** Descending CPU order. *)
Definition cpu_ge (x y : snapshot) : Prop := (cpu_percent y <= cpu_percent x)%Q.

(** The subscriber called by an event. *)
Definition called_id (e : event) : nat := match e with Called id _ => id end.

Lemma cpu_ltb_trans_ge x y z :
  cpu_ltb x y = false -> cpu_ltb y z = false -> cpu_ltb x z = false.
Proof.
  unfold cpu_ltb. rewrite !q_ltb_ge. intros H1 H2. eapply Qle_trans; eassumption.
Qed.

Lemma cpu_ltb_asym x y : cpu_ltb x y = true -> cpu_ltb y x = false.
Proof.
  unfold cpu_ltb. rewrite q_ltb_lt, q_ltb_ge. apply Qlt_le_weak.
Qed.

Lemma ge_key_cpu x y : PyList.ge_key cpu_ltb x y <-> cpu_ge x y.
Proof. unfold PyList.ge_key, cpu_ltb, cpu_ge. apply q_ltb_ge. Qed.

Lemma sorted_app_cross {A} (R : A -> A -> Prop) (l1 l2 : list A) :
  StronglySorted R (l1 ++ l2) ->
  forall x y, In x l1 -> In y l2 -> R x y.
Proof.
  induction l1 as [|a l1 IH]; simpl; intros Hs x y Hx Hy; [contradiction|].
  apply StronglySorted_inv in Hs as [Hs Hall].
  destruct Hx as [<-|Hx]; [|now apply IH].
  rewrite List.Forall_forall in Hall. apply Hall, in_or_app. now right.
Qed.

(** What the loop of [get_processes] adds to its list. *)
Lemma collect_spec w iter : forall n acc,
  exists new,
    collect w iter n acc = (acc ++ new)%list /\
    (n + List.length new <= Nat.max n max_processes)%nat /\
    (forall s, In s new ->
       exists id p, In (id, p) iter /\ s = snapshot_of w id p /\
                    negligible p = false /\ p_meminfo_fails p = false).
Proof.
  assert (forall n acc, exists new : list snapshot,
            acc = (acc ++ new)%list /\
            (n + List.length new <= Nat.max n max_processes)%nat /\
            (forall s, In s new -> False)) as Hstop.
  { intros n acc. exists []. rewrite app_nil_r.
    repeat split; [cbn [List.length]; lia | intros s []]. }
  induction iter as [|[id p] rest IH]; intros n acc; cbn [collect].
  - destruct (Hstop n acc) as (new & He & Hl & Hin). exists new.
    repeat split; [exact He | exact Hl | intros s Hs; destruct (Hin s Hs)].
  - destruct (max_processes <=? n)%nat eqn:Hcap.
    { destruct (Hstop n acc) as (new & He & Hl & Hin). exists new.
      repeat split; [exact He | exact Hl | intros s Hs; destruct (Hin s Hs)]. }
    apply Nat.leb_gt in Hcap.
    destruct (negligible p) eqn:Hneg; [|destruct (p_meminfo_fails p) eqn:Hmem].
    + destruct (IH n acc) as (new & He & Hl & Hin). exists new.
      repeat split; [exact He | exact Hl |].
      intros s Hs. destruct (Hin s Hs) as (i & q & H1 & H2). exists i, q.
      split; [now right | exact H2].
    + destruct (IH n acc) as (new & He & Hl & Hin). exists new.
      repeat split; [exact He | exact Hl |].
      intros s Hs. destruct (Hin s Hs) as (i & q & H1 & H2). exists i, q.
      split; [now right | exact H2].
    + destruct (IH (S n) (acc ++ [snapshot_of w id p])%list)
        as (new & He & Hl & Hin).
      exists (snapshot_of w id p :: new). repeat split.
      * rewrite He, <- app_assoc. reflexivity.
      * cbn [List.length]. lia.
      * intros s [<-|Hs].
        -- exists id, p. repeat split; [now left | exact Hneg | exact Hmem].
        -- destruct (Hin s Hs) as (i & q & H1 & H2). exists i, q.
           split; [now right | exact H2].
Qed.

(** The processes that the loop of [get_processes] keeps: not
    negligible, memory information readable. *)
Definition kept (kp : Z * process) : bool :=
  negb (negligible (snd kp)) && negb (p_meminfo_fails (snd kp)).

(** The loop collects the first [max_processes] kept processes of the
    enumeration and nothing after them. *)
Lemma collect_firstn w iter : forall n acc,
  collect w iter n acc
  = (acc ++ map (fun kp => snapshot_of w (fst kp) (snd kp))
              (firstn (max_processes - n) (List.filter kept iter)))%list.
Proof.
  induction iter as [|[id p] rest IH]; intros n acc; cbn [collect List.filter].
  - now rewrite firstn_nil, app_nil_r.
  - destruct (max_processes <=? n)%nat eqn:Hcap.
    { apply Nat.leb_le in Hcap.
      replace (max_processes - n)%nat with 0%nat by lia.
      now rewrite app_nil_r. }
    apply Nat.leb_gt in Hcap. unfold kept at 1. cbn [snd].
    destruct (negligible p); [apply IH|].
    destruct (p_meminfo_fails p); [apply IH|]. cbn [negb andb].
    replace (max_processes - n)%nat with (S (max_processes - S n)) by lia.
    rewrite IH, <- app_assoc. reflexivity.
Qed.

(** C9 (as the code has it): a poll returns at most 30 snapshots in
    descending CPU order; they are taken from the first 50 processes
    of the enumeration that are not negligible (CPU 0 and memory share
    below 0.1) and whose memory information can be read, and among
    those they are the ones with the highest CPU: all of them when
    there are at most 30, else 30 of them, none below a collected one
    that was left out.  Processes enumerated after the 50th collected
    one do not change the result. *)
Theorem get_processes_top_of_collected w :
  let collected := collect w (w_procs w) 0 [] in
  let result := get_processes w in
  (List.length result <= 30)%nat /\
  StronglySorted cpu_ge result /\
  (List.length collected <= 50)%nat /\
  (forall s, In s result -> In s collected) /\
  (forall s, In s collected ->
     exists id p, In (id, p) (w_procs w) /\ s = snapshot_of w id p /\
                  negligible p = false /\ p_meminfo_fails p = false) /\
  (forall x y, In x result -> In y collected -> ~ In y result -> cpu_ge x y) /\
  collected = map (fun kp => snapshot_of w (fst kp) (snd kp))
                (firstn 50 (List.filter kept (w_procs w))) /\
  List.length result = Nat.min 30 (List.length collected) /\
  (exists rest,
     Permutation collected (result ++ rest) /\
     forall x y, In x result -> In y rest -> cpu_ge x y) /\
  (forall later,
     List.length collected = 50%nat ->
     get_processes (with_procs w (w_procs w ++ later)%list) = get_processes w).
Proof.
  cbv zeta. unfold get_processes.
  set (collected := collect w (w_procs w) 0 []).
  pose proof (sorted_desc_sorted cpu_ltb cpu_ltb_trans_ge cpu_ltb_asym collected)
    as Hsorted.
  assert (StronglySorted cpu_ge (PyList.sorted_desc cpu_ltb collected)) as Hs.
  { revert Hsorted. generalize (PyList.sorted_desc cpu_ltb collected).
    induction 1 as [|a l Hl IH Hall]; constructor; [exact IH|].
    revert Hall. apply List.Forall_impl. intros b. apply ge_key_cpu. }
  destruct (collect_spec w (w_procs w) 0 []) as (new & He & Hl & Hin).
  simpl in He. fold collected in He. subst new.
  assert (collected = map (fun kp => snapshot_of w (fst kp) (snd kp))
                        (firstn 50 (List.filter kept (w_procs w)))) as Hfirst.
  { unfold collected. rewrite collect_firstn. reflexivity. }
  split; [rewrite length_firstn; lia|].
  split; [now apply take_sorted|].
  split; [unfold max_processes in Hl; lia|].
  split; [|split; [exact Hin|split; [|split; [exact Hfirst|split; [|split]]]]].
  - intros s Hsin. apply take_In in Hsin. now apply sorted_desc_In in Hsin.
  - intros x y Hx Hy Hny.
    rewrite <- (firstn_skipn 30 (PyList.sorted_desc cpu_ltb collected)) in Hs.
    apply (sorted_app_cross _ _ _ Hs); [exact Hx|].
    apply (sorted_desc_In cpu_ltb) in Hy.
    rewrite <- (firstn_skipn 30 (PyList.sorted_desc cpu_ltb collected)) in Hy.
    apply in_app_or in Hy as [Hy|Hy]; [contradiction | exact Hy].
  - rewrite length_firstn, sorted_desc_length. reflexivity.
  - exists (skipn 30 (PyList.sorted_desc cpu_ltb collected)). split.
    + rewrite firstn_skipn. apply sorted_desc_perm.
    + rewrite <- (firstn_skipn 30 (PyList.sorted_desc cpu_ltb collected)) in Hs.
      apply (sorted_app_cross _ _ _ Hs).
  - intros later Hfull. f_equal. f_equal. fold collected.
    rewrite Hfirst in Hfull |- *. rewrite length_map in Hfull.
    rewrite collect_firstn. cbn [w_procs with_procs app].
    change (max_processes - 0)%nat with 50%nat.
    rewrite List.filter_app, firstn_app.
    assert (50 <= List.length (List.filter kept (w_procs w)))%nat as Hlen.
    { rewrite length_firstn in Hfull. lia. }
    replace (50 - List.length (List.filter kept (w_procs w)))%nat with 0%nat by lia.
    rewrite firstn_O, app_nil_r. reflexivity.
Qed.

(** C9 fails as stated: fifty processes at 1% CPU are enumerated before
    one at 99%; the poll returns thirty snapshots at 1% and not the
    process at 99%. *)
Lemma busy_process_beyond_cap_is_dropped :
  let w := Scenario.crowded in
  let result := get_processes w in
  (p_cpu_percent <$> Process w 51) = Some (99 # 1)%Q /\
  (negligible <$> Process w 51) = Some false /\
  List.length result = 30%nat /\
  forallb (fun s => q_eqb (cpu_percent s) (1 # 1)) result = true /\
  existsb (fun s => pid s =? 51) result = false.
Proof. cbv zeta. repeat split; vm_compute; reflexivity. Qed.

Lemma notify_all_ok cbs ps :
  Forall (fun c => cb_raises c ps = None) cbs ->
  notify cbs ps = (map (fun c => Called (cb_id c) ps) cbs, None).
Proof.
  induction 1 as [|c cbs Hc _ IH]; simpl; [reflexivity|].
  now rewrite Hc, IH.
Qed.

Lemma notify_first_failure pre cb post ps e :
  Forall (fun c => cb_raises c ps = None) pre ->
  cb_raises cb ps = Some e ->
  notify (pre ++ cb :: post) ps
  = (map (fun c => Called (cb_id c) ps) (pre ++ [cb]), Some e).
Proof.
  intros Hpre Hcb. induction Hpre as [|c pre Hc _ IH]; simpl.
  - now rewrite Hcb.
  - now rewrite Hc, IH.
Qed.

(** C6 (as the code has it): when a subscriber raises in a publish
    cycle, the subscribers registered before it have been called with
    the snapshot list, in registration order, the raising one has been
    called, and the ones registered after it are not called in this
    cycle; the error is logged, the cache and the subscriber list are
    kept, and the loop goes on with its next cycle. *)
Theorem failing_subscriber_ends_the_cycle w m pre cb post e :
  callbacks m = (pre ++ cb :: post)%list ->
  Forall (fun c => cb_raises c (get_processes w) = None) pre ->
  cb_raises cb (get_processes w) = Some e ->
  let ps := get_processes w in
  let m' := mk_monitor (refresh_interval m) (callbacks m) (cache_of ps)
              (log m ++ [String.append "Error in monitor loop: " e])%list in
  let calls := map (fun c => Called (cb_id c) ps) (pre ++ [cb])%list in
  monitor_cycle w m = (m', calls) /\
  forall rest,
    _monitor_loop ((true, w) :: rest) m
    = (fst (_monitor_loop rest m'), (calls ++ snd (_monitor_loop rest m'))%list).
Proof.
  intros Hcbs Hpre Hcb ps m' calls.
  assert (monitor_cycle w m = (m', calls)) as Hcycle.
  { unfold monitor_cycle. fold ps. rewrite Hcbs.
    rewrite (notify_first_failure pre cb post ps e Hpre Hcb).
    rewrite <- Hcbs. reflexivity. }
  split; [exact Hcycle|].
  intros rest. cbn [_monitor_loop]. rewrite Hcycle.
  destruct (_monitor_loop rest m'). reflexivity.
Qed.

(** C6, an instance: three subscribers, the second one raises. *)
Lemma failing_subscriber_ends_the_cycle_witness :
  map called_id (snd (monitor_cycle Scenario.browser Scenario.subscribers))
  = [0%nat; 1%nat] /\
  log (fst (monitor_cycle Scenario.browser Scenario.subscribers))
  = ["Error in monitor loop: boom"].
Proof.
  destruct (failing_subscriber_ends_the_cycle Scenario.browser
              Scenario.subscribers
              [mk_callback 0 (fun _ => None)]
              (mk_callback 1 (fun _ => Some "boom"))
              [mk_callback 2 (fun _ => None)] "boom")
    as [Hcycle _].
  - reflexivity.
  - constructor; [reflexivity | constructor].
  - reflexivity.
  - rewrite Hcycle. split; reflexivity.
Defined.

(** C6 fails as stated: of three registered subscribers the second one
    raises; the third one is never called in that cycle. *)
Lemma later_subscriber_is_skipped :
  let r := monitor_cycle Scenario.browser Scenario.subscribers in
  map cb_id (callbacks Scenario.subscribers) = [0%nat; 1%nat; 2%nat] /\
  map called_id (snd r) = [0%nat; 1%nat] /\
  existsb (fun e => Nat.eqb (called_id e) 2) (snd r) = false.
Proof. cbv zeta. repeat split. Qed.

End MonitorSpec.

(* ===================================================================== *)
(* The scheduler: startup schedules                                      *)
(* ===================================================================== *)
Module SchedulerSpec.
Import OS Scheduler.
Import PyDictFacts.

Section WithLibrary.
Variable lib_next_run : job_unit -> Z -> option Z.

(** [_run_schedule] on an id that is not (yet) a key of [self.schedules]
    returns at once. *)
Lemma run_unknown_schedule sid s :
  PyDict.get sid (schedules (s_scheduler s)) = None ->
  _run_schedule sid s = (s, inl tt).
Proof.
  intros H. unfold _run_schedule, mbind, M_bind, bind, gets. now rewrite H.
Qed.

(** The state that [add_schedule] leaves when it stores [info]. *)
Definition stored (s : sys) (nm : string) (info : schedule_info) : sys :=
  let sc := s_scheduler s in
  mk_sys (s_world s) (s_optimizer s)
    (mk_scheduler (PyDict.set (id info) info (schedules sc)) (callbacks sc)
       (lib_jobs sc) (lib_next_id sc)
       (log sc ++ [String.append "Added schedule: "
                     (String.append nm
                        (String.append " (ID: "
                           (String.append (id info) ")")))])%list)
    (s_trace s).

(** Adding an enabled startup schedule under a new id stores it with no
    job, no next_run and no last_run, and runs nothing: the trace, the
    system and the optimizer are as before. *)
Lemma add_startup_runs_nothing s sid nm time_str days_ interval_ actions_ :
  PyDict.get sid (schedules (s_scheduler s)) = None ->
  add_schedule lib_next_run sid nm "startup" time_str days_ interval_ actions_ true s
  = (stored s nm
       (mk_schedule sid nm "startup" time_str days_ interval_ actions_ true
          (w_now (s_world s)) None None None),
     inl sid).
Proof.
  intros H. unfold add_schedule, _create_job, _create_job_select.
  unfold mbind, M_bind, bind, gets, mret, M_ret, ret. cbn [type String.eqb Ascii.eqb Bool.eqb].
  simpl. rewrite (run_unknown_schedule sid s H). reflexivity.
Qed.

End WithLibrary.

(** C7 at a scheduler without schedules: adding the enabled startup
    schedule "boot" with one action returns its id and stores it with
    no job and no next_run, but its action is executed zero times (no
    event, no last_run, the optimizer untouched); enabling the stored
    schedule afterwards does execute the action once. *)
Theorem startup_schedule_is_not_run_when_added :
  let r := Scenario.add_boot in
  let info := PyDict.get "uuid-1" (schedules (s_scheduler (fst r))) in
  let again := enable_schedule Scenario.lib_next_run "uuid-1" true (fst r) in
  snd r = inl "uuid-1" /\
  (job_ref <$> info) = Some None /\
  (next_run <$> info) = Some None /\
  lib_jobs (s_scheduler (fst r)) = [] /\
  executions (s_trace (fst r)) = 0%nat /\
  (last_run <$> info) = Some None /\
  s_optimizer (fst r) = s_optimizer Scenario.idle_scheduler /\
  executions (s_trace (fst again)) = 1%nat.
Proof. cbv zeta. repeat split; vm_compute; reflexivity. Qed.

End SchedulerSpec.

(* ===================================================================== *)
(* More facts about the Python dicts                                     *)
(* ===================================================================== *)
Module PyDictMore.
Import PyDict PyDictFacts.
Section Dict.
Context {K V : Type} `{EqDecision K}.
Implicit Types (d : dict K V) (k : K) (v : V).

Lemma get_Some_In k v d : get k d = Some v -> In (k, v) d.
Proof.
  induction d as [|[k0 v0] r IH]; simpl; [discriminate|].
  destruct (decide (k = k0)) as [->|Hk]; intros H.
  - left. congruence.
  - right. now apply IH.
Qed.

Lemma In_get_wf k v d : wf d -> In (k, v) d -> get k d = Some v.
Proof.
  unfold wf. induction d as [|[k0 v0] r IH]; simpl; intros Hd; [intros []|].
  apply NoDup_cons in Hd as [Hin Hr]. intros [E|Hr'].
  - inversion E; subst. destruct (decide (k = k)); congruence.
  - destruct (decide (k = k0)) as [->|Hk]; [|now apply IH].
    exfalso. apply Hin. rewrite list_elem_of_In.
    change k0 with (fst (k0, v)). now apply in_map.
Qed.

Lemma del_set_absent k v d : get k d = None -> del k (set k v d) = d.
Proof.
  induction d as [|[k0 v0] r IH]; simpl.
  - destruct (decide (k = k)); congruence.
  - destruct (decide (k = k0)) as [->|Hk]; [discriminate|]. intros H. simpl.
    destruct (decide (k = k0)); [contradiction|]. now rewrite IH.
Qed.

Lemma set_set k v v' d : set k v (set k v' d) = set k v d.
Proof.
  induction d as [|[k0 v0] r IH]; simpl.
  - destruct (decide (k = k)); congruence.
  - destruct (decide (k = k0)) as [->|Hk]; simpl.
    + destruct (decide (k0 = k0)); congruence.
    + destruct (decide (k = k0)); [contradiction|]. now rewrite IH.
Qed.

Lemma Forall_set (P : K * V -> Prop) k v d :
  P (k, v) -> List.Forall P d -> List.Forall P (set k v d).
Proof.
  intros Hp. induction 1 as [|[k0 v0] r Hx Hr IH]; simpl.
  - repeat constructor. exact Hp.
  - destruct (decide (k = k0)); constructor; assumption.
Qed.

Lemma Forall_del (P : K * V -> Prop) k d :
  List.Forall P d -> List.Forall P (del k d).
Proof.
  induction 1 as [|[k0 v0] r Hx Hr IH]; simpl; [constructor|].
  destruct (decide (k = k0)); [assumption | constructor; assumption].
Qed.

Lemma length_set_absent k v d :
  get k d = None -> List.length (set k v d) = S (List.length d).
Proof.
  induction d as [|[k0 v0] r IH]; simpl; [reflexivity|].
  destruct (decide (k = k0)); [discriminate|]. intros H. simpl. now rewrite IH.
Qed.

Lemma length_set_present k v d :
  get k d <> None -> List.length (set k v d) = List.length d.
Proof.
  induction d as [|[k0 v0] r IH]; simpl; [congruence|].
  destruct (decide (k = k0)); [reflexivity|]. intros H. simpl. now rewrite IH.
Qed.

End Dict.
End PyDictMore.

(* ===================================================================== *)
(* The optimizer: further properties                                     *)
(* ===================================================================== *)
Module OptimizerMore.
Import OS PyNum Optimizer.
Import PyDictFacts PyNumFacts PyDictMore.

(** The calls that reach an optimizer, in the order they are made;
    between them the system may change at will. *)
Inductive op :=
| Optimize (pid : Z) (profile_name : option string)
| Boost (pid : Z)
| Remove (pid : Z)
| Elsewhere (w : world).

Definition state : Type := world * optimizer.

Definition step (st : state) (c : op) : state :=
  let '(w, o) := st in
  match c with
  | Optimize pid n => fst (optimize_process w o pid n)
  | Boost pid => (w, fst (calculate_boost w o pid))
  | Remove pid => fst (remove_optimization w o pid)
  | Elsewhere w' => (w', o)
  end.

Definition run (cs : list op) (st : state) : state := fold_left step cs st.

Definition boost_ok (kv : Z * opt_info) : Prop :=
  0 <= boost_percentage (snd kv) <= 999.

(** One record per pid, each boost within [0, 999]. *)
Definition table_ok (o : optimizer) : Prop :=
  PyDict.wf (optimized_processes o) /\
  List.Forall boost_ok (optimized_processes o).

Lemma step_ok st c : table_ok (snd st) -> table_ok (snd (step st c)).
Proof.
  destruct st as [w o]. unfold table_ok. simpl. intros [Hwf Hall].
  destruct c as [pid n|pid|pid|w']; simpl.
  - split; [now apply OptimizerSpec.optimize_process_wf|].
    unfold optimize_process. destruct (Process w pid) as [p|]; [|exact Hall].
    destruct (p_name_denied p); [exact Hall|].
    destruct (apply_actions _ _ _ _) as [[p' [e|]] applied]; [exact Hall|].
    simpl. apply Forall_set; [|exact Hall]. unfold boost_ok. simpl. lia.
  - split; [now apply OptimizerSpec.calculate_boost_wf|].
    unfold calculate_boost.
    destruct (PyDict.get pid (optimized_processes o)) as [i|]; [|exact Hall].
    destruct (Process w pid) as [p|]; [|exact Hall].
    destruct (p_nice_read_denied p); [exact Hall|]. simpl.
    apply Forall_set; [|exact Hall]. unfold boost_ok. simpl.
    apply OptimizerSpec.boost_total_range.
  - split; [now apply OptimizerSpec.remove_optimization_wf|].
    unfold remove_optimization. destruct (Process w pid) as [p|]; [|exact Hall].
    destruct (set_nice p _) as [p1|]; [|exact Hall].
    destruct (set_affinity p1 _); [|exact Hall]. simpl.
    destruct (PyDict.mem pid (optimized_processes o));
      [now apply Forall_del | exact Hall].
  - split; assumption.
Qed.

Lemma run_table_ok cs : forall st, table_ok (snd st) -> table_ok (snd (run cs st)).
Proof.
  induction cs as [|c cs IH]; intros st H; simpl; [exact H|].
  apply IH. now apply step_ok.
Qed.

(** Tuning a process changes its priority and affinity only: what the
    system reports of it and how it answers the guarded calls stay. *)
Definition same_answers (p p' : process) : Prop :=
  p_name p' = p_name p /\
  p_cpu_percent p' = p_cpu_percent p /\
  p_memory_percent p' = p_memory_percent p /\
  p_nice_denied p' = p_nice_denied p /\
  p_affinity_denied p' = p_affinity_denied p /\
  p_meminfo_fails p' = p_meminfo_fails p /\
  p_trim_ok p' = p_trim_ok p /\
  p_ionice_ok p' = p_ionice_ok p.

Lemma same_answers_refl p : same_answers p p.
Proof. repeat split. Qed.

Lemma same_answers_trans p q r :
  same_answers p q -> same_answers q r -> same_answers p r.
Proof. unfold same_answers. intuition congruence. Qed.

Lemma set_priority_answers plat p prio :
  same_answers p (fst (_set_process_priority plat p prio)).
Proof.
  unfold _set_process_priority, set_nice.
  destruct (PyDict.get prio _); [|apply same_answers_refl].
  destruct (p_nice_denied p); simpl; repeat split.
Qed.

Lemma set_affinity_answers w p kind :
  same_answers p (fst (_set_cpu_affinity w p kind)).
Proof.
  unfold _set_cpu_affinity, set_affinity.
  destruct (affinity_target _ _); [|apply same_answers_refl].
  destruct (p_affinity_denied p); simpl; repeat split.
Qed.

Lemma apply_actions_answers w o p pr :
  same_answers p (fst (fst (apply_actions w o p pr))).
Proof.
  unfold apply_actions.
  destruct (PyDict.get "priority" pr) as [prio|]; [|apply same_answers_refl].
  assert (same_answers p
            (fst match prio with
                 | PStr s => _set_process_priority (platform_name o) p s
                 | PBool _ => (p, false)
                 end)) as H1.
  { destruct prio; [apply set_priority_answers | apply same_answers_refl]. }
  destruct (match prio with PStr s => _ | PBool _ => _ end) as [p1 ok1].
  simpl in H1.
  destruct (PyDict.get "cpu_affinity" pr) as [aff|]; [|exact H1].
  assert (same_answers p1
            (fst match aff with
                 | PStr s => _set_cpu_affinity w p1 s
                 | PBool _ => (p1, false)
                 end)) as H2.
  { destruct aff; [apply set_affinity_answers | apply same_answers_refl]. }
  destruct (match aff with PStr s => _ | PBool _ => _ end) as [p2 ok2].
  simpl in *. eapply same_answers_trans; eassumption.
Qed.

(** X1: whatever calls were made on a new optimizer, and however the
    system changed in between, the table holds one record per pid,
    every stored boost_percentage lies in [0, 999], and
    [calculate_boost] returns a value of [0, 999] for every pid. *)
Theorem boost_always_in_range w custom cs w' pid :
  let o := snd (run cs (w, init w custom)) in
  PyDict.wf (optimized_processes o) /\
  List.Forall (fun kv => 0 <= boost_percentage (snd kv) <= 999)
    (optimized_processes o) /\
  0 <= snd (calculate_boost w' o pid) <= 999.
Proof.
  cbv zeta.
  assert (table_ok (snd (run cs (w, init w custom)))) as [Hwf Hall].
  { apply run_table_ok. split; [apply NoDup_nil_2 | constructor]. }
  split; [exact Hwf|]. split; [exact Hall|].
  unfold calculate_boost.
  destruct (PyDict.get pid _) as [i|] eqn:Hi; [|simpl; lia].
  assert (0 <= boost_percentage i <= 999) as Hstored.
  { apply get_Some_In in Hi. rewrite List.Forall_forall in Hall.
    exact (Hall _ Hi). }
  destruct (Process w' pid) as [p|]; [|exact Hstored].
  destruct (p_nice_read_denied p); [exact Hstored|]. simpl.
  apply OptimizerSpec.boost_total_range.
Qed.

(** X2: for a pid without a record whose process exists and may be
    tuned, [optimize_process] followed by [remove_optimization] leaves
    the table of records exactly as it was, and the removal succeeds;
    the optimization itself succeeds exactly when the name of the
    process can be read and the profile has its priority and
    cpu_affinity entries. *)
Theorem optimize_then_remove_restores_table w o pid profile_name p :
  Process w pid = Some p ->
  p_nice_denied p = false -> p_affinity_denied p = false ->
  PyDict.get pid (optimized_processes o) = None ->
  let pr := select_profile o profile_name (PyStr.lower (p_name p)) in
  let applied := optimize_process w o pid profile_name in
  let removed := remove_optimization (fst (fst applied)) (snd (fst applied)) pid in
  (fst (snd applied) = true <->
   p_name_denied p = false /\
   PyDict.mem "priority" pr = true /\ PyDict.mem "cpu_affinity" pr = true) /\
  snd removed = true /\
  optimized_processes (snd (fst removed)) = optimized_processes o.
Proof.
  intros Hp Hn Ha Hnone. cbv zeta.
  assert (forall w1 q, Process w1 pid = Some q ->
            p_nice_denied q = false -> p_affinity_denied q = false ->
            snd (remove_optimization w1 o pid) = true /\
            optimized_processes (snd (fst (remove_optimization w1 o pid)))
            = optimized_processes o) as Hplain.
  { intros w1 q Hq Hqn Hqa. unfold remove_optimization, set_nice, set_affinity.
    rewrite Hq, Hqn. simpl. rewrite Hqa. simpl. unfold PyDict.mem.
    rewrite Hnone. split; reflexivity. }
  unfold optimize_process. rewrite Hp.
  destruct (p_name_denied p) eqn:Hname.
  { simpl. split; [|now apply (Hplain w p)].
    split; [discriminate | intros [? _]; discriminate]. }
  pose proof (apply_actions_answers w o p
                (select_profile o profile_name (PyStr.lower (p_name p))))
    as (_ & _ & _ & H1 & H2 & _).
  pose proof (OptimizerSpec.apply_actions_error w o p
                (select_profile o profile_name (PyStr.lower (p_name p)))) as Herr.
  destruct (apply_actions w o p _) as [[p' [e|]] applied]; simpl in *.
  - split; [|apply (Hplain _ p'); [apply OptimizerSpec.Process_put | congruence..]].
    split; [discriminate|]. intros [_ Hkeys]. apply Herr in Hkeys. discriminate.
  - split; [split; [intros _; split; [reflexivity | now apply Herr] | reflexivity]|].
    unfold remove_optimization. rewrite OptimizerSpec.Process_put.
    unfold set_nice. rewrite H1, Hn. simpl. unfold set_affinity. simpl.
    rewrite H2, Ha. simpl. split; [reflexivity|].
    unfold PyDict.mem. rewrite get_set_eq. now apply del_set_absent.
Qed.

(** X2, an instance: process 100 has a record; process 200 is optimized
    and its optimization removed, and the table holds the record of
    process 100 alone, as before. *)
Lemma optimize_then_remove_restores_table_witness :
  let o := snd Scenario.after_first in
  let applied := optimize_process Scenario.two_apps o 200 None in
  let removed := remove_optimization (fst (fst applied)) (snd (fst applied)) 200 in
  PyDict.keys (optimized_processes o) = [100] /\
  PyDict.keys (optimized_processes (snd (fst applied))) = [100; 200] /\
  fst (snd applied) = true /\
  optimized_processes (snd (fst removed)) = optimized_processes o.
Proof.
  cbv zeta.
  destruct (optimize_then_remove_restores_table Scenario.two_apps
              (snd Scenario.after_first) 200 None
              (Scenario.proc "notepad.exe" (12 # 1) (3 # 1))
              eq_refl eq_refl eq_refl eq_refl) as (Hok & _ & H).
  split; [reflexivity|]. split; [reflexivity|]. split; [|exact H].
  apply Hok. repeat split.
Defined.

(** The five tuning actions, in the order [optimize_process] tries
    them. *)
Definition all_actions : list string :=
  ["priority"; "cpu_affinity"; "gpu_acceleration"; "memory_optimization";
   "io_priority"].

Ltac pick_sublist :=
  repeat first [apply sublist_nil | apply sublist_skip | apply sublist_cons].

(** Case analysis on every test that [apply_actions] makes. *)
Ltac split_tests :=
  repeat match goal with
         | |- context [if ?b then _ else _] => destruct b
         end.

Ltac after_affinity :=
  match goal with
  | |- context [match ?aff with PStr s => _set_cpu_affinity _ _ s | PBool _ => _ end] =>
      destruct (match aff with PStr s => _set_cpu_affinity _ _ s | PBool _ => _ end)
        as [? [|]]
  end;
  destruct (platform_name _); destruct (gpu_acceleration _);
  destruct (memory_optimization _);
  destruct (PyDict.get "disk_priority" _) as [[d|?]|]; simpl; split_tests.

Ltac unfold_actions :=
  unfold apply_actions, append_if, _enable_gpu_acceleration, _optimize_memory,
    _set_io_priority;
  destruct (PyDict.get "priority" _) as [prio|];
  [ destruct (match prio with PStr s => _ | PBool _ => _ end) as [? [|]];
    (destruct (PyDict.get "cpu_affinity" _) as [aff|];
     [ after_affinity | simpl ])
  | simpl ].

Lemma In_existsb (x : string) (l : list string) :
  In x l -> existsb (String.eqb x) l = true.
Proof.
  intros H. apply existsb_exists. exists x. split; [exact H | apply String.eqb_refl].
Qed.

(** X3: the actions recorded by [optimize_process] are a selection of
    the five action names in their fixed order, each at most once, so
    at most five; GPU acceleration is recorded only on Windows for a
    profile that asks for it, memory optimization only for a profile
    that asks for it and never on a platform other than Windows and
    Linux. *)
Theorem applied_actions_are_a_selection w o p pr :
  let applied := snd (apply_actions w o p pr) in
  applied `sublist_of` all_actions /\
  NoDup applied /\
  (List.length applied <= 5)%nat /\
  (In "gpu_acceleration" applied ->
     platform_name o = Windows /\ gpu_acceleration pr = true) /\
  (In "memory_optimization" applied ->
     memory_optimization pr = true /\
     (platform_name o = Windows \/ platform_name o = Linux)).
Proof.
  cbv zeta.
  assert (snd (apply_actions w o p pr) `sublist_of` all_actions) as Hsub.
  { unfold_actions; simpl; pick_sublist. }
  split; [exact Hsub|]. split; [|split; [|split]].
  - eapply sublist_NoDup; [|exact Hsub]. unfold all_actions.
    repeat (apply NoDup_cons; split;
            [rewrite list_elem_of_In; simpl; intuition discriminate|]).
    apply NoDup_nil_2.
  - apply sublist_length in Hsub. exact Hsub.
  - intros Hin. apply In_existsb in Hin. revert Hin.
    unfold_actions; simpl; intros Hin; try discriminate; split; reflexivity.
  - intros Hin. apply In_existsb in Hin. revert Hin.
    unfold_actions; simpl; intros Hin; try discriminate; split; auto.
Qed.

(** X4: on a machine with at least one core the affinity that
    [_set_cpu_affinity] asks for is a non-empty list of distinct,
    existing cores; with more than four cores the performance cores
    and the efficiency cores split the cores in two; an unknown
    affinity type leaves the process as it is and reports failure. *)
Theorem affinity_target_is_valid n :
  (forall kind cores,
     (1 <= n)%nat -> affinity_target n kind = Some cores ->
     cores <> [] /\ List.Forall (fun c => (c < n)%nat) cores /\ NoDup cores) /\
  ((4 < n)%nat ->
     exists perf eff,
       affinity_target n "performance_cores" = Some perf /\
       affinity_target n "efficiency_cores" = Some eff /\
       (perf ++ eff)%list = range 0 n /\ perf <> [] /\ eff <> []) /\
  (forall w p kind,
     affinity_target (w_cpu_count w) kind = None ->
     _set_cpu_affinity w p kind = (p, false)).
Proof.
  assert (forall a b, (a < b)%nat -> range a b <> []) as Hne.
  { intros a b Hab. unfold range. destruct (b - a)%nat eqn:E; [lia|]. discriminate. }
  assert (forall a b, (b <= n)%nat -> List.Forall (fun c => (c < n)%nat) (range a b))
    as Hlt.
  { intros a b Hb. unfold range. apply List.Forall_forall. intros c Hc.
    apply in_seq in Hc. lia. }
  assert (forall a b, NoDup (range a b)) as Hnd.
  { intros a b. unfold range. apply NoDup_ListNoDup, seq_NoDup. }
  assert ((n / 2 <= n)%nat) as Hhalf by (apply Nat.Div0.div_le_upper_bound; lia).
  assert ((4 < n)%nat -> (2 <= n / 2)%nat /\ (n / 2 < n)%nat) as Hbig.
  { intros H4. split; [apply Nat.div_le_lower_bound; lia | apply Nat.div_lt; lia]. }
  split; [|split].
  - intros kind cores Hn. unfold affinity_target.
    destruct (decide (kind = "all")).
    { intros [= <-]; try change (fst (Nat.divmod n 1 0 1)) with (n / 2)%nat. split; [apply Hne; lia|].
      split; [apply Hlt; lia | apply Hnd]. }
    destruct (decide (kind = "performance_cores")).
    { destruct (4 <? n)%nat eqn:H4; intros [= <-]; try change (fst (Nat.divmod n 1 0 1)) with (n / 2)%nat.
      - apply Nat.ltb_lt in H4. destruct (Hbig H4).
        split; [apply Hne; lia|]. split; [apply Hlt; lia | apply Hnd].
      - split; [apply Hne; lia|]. split; [apply Hlt; lia | apply Hnd]. }
    destruct (decide (kind = "efficiency_cores")); [|discriminate].
    destruct (4 <? n)%nat eqn:H4; intros [= <-]; try change (fst (Nat.divmod n 1 0 1)) with (n / 2)%nat.
    + apply Nat.ltb_lt in H4. destruct (Hbig H4).
      split; [apply Hne; lia|]. split; [apply Hlt; lia | apply Hnd].
    + split; [discriminate|]. split; [|apply NoDup_singleton].
      repeat constructor. lia.
  - intros H4. destruct (Hbig H4) as [H2 Hlt2]. unfold affinity_target. simpl.
    apply Nat.ltb_lt in H4 as H4'. rewrite H4'.
    change (fst (Nat.divmod n 1 0 1)) with (n / 2)%nat.
    eexists _, _. split; [reflexivity|]. split; [reflexivity|].
    split; [|split; apply Hne; lia].
    unfold range. rewrite !Nat.sub_0_r.
    transitivity (seq 0 (n / 2 + (n - n / 2))).
    + rewrite seq_app. reflexivity.
    + f_equal. lia.
  - intros w p kind H. unfold _set_cpu_affinity. now rewrite H.
Qed.

(** X4, an instance: eight cores. *)
Lemma affinity_target_is_valid_witness :
  affinity_target 8 "performance_cores" = Some [0; 1; 2; 3]%nat /\
  List.Forall (fun c => (c < 8)%nat) [0; 1; 2; 3]%nat /\
  exists perf eff,
    affinity_target 8 "performance_cores" = Some perf /\
    affinity_target 8 "efficiency_cores" = Some eff /\
    (perf ++ eff)%list = range 0 8.
Proof.
  destruct (affinity_target_is_valid 8) as (Hvalid & Hsplit & _).
  split; [reflexivity|]. split.
  - apply (Hvalid "performance_cores" _ ltac:(lia) eq_refl).
  - destruct (Hsplit ltac:(lia)) as (perf & eff & H1 & H2 & H3 & _).
    exists perf, eff. repeat split; assumption.
Defined.

(** [profile_name and profile_name in self.optimization_profiles] *)
Definition named_known (o : optimizer) (profile_name : option string) : bool :=
  match profile_name with
  | Some n => negb (String.eqb n "") && PyDict.mem n (optimization_profiles o)
  | None => false
  end.

Lemma find_first {A} (f : A -> bool) pre x post :
  List.Forall (fun y => f y = false) pre -> f x = true ->
  List.find f (pre ++ x :: post) = Some x.
Proof.
  induction 1 as [|y pre Hy _ IH]; simpl; intros Hx.
  - now rewrite Hx.
  - rewrite Hy. now apply IH.
Qed.

Lemma find_none {A} (f : A -> bool) l :
  List.Forall (fun y => f y = false) l -> List.find f l = None.
Proof. induction 1 as [|y l Hy _ IH]; simpl; [reflexivity | now rewrite Hy]. Qed.

(** X5: how [optimize_process] chooses the profile.  A non-empty name
    that is a key of the table selects that profile.  Otherwise (no
    name, an empty name, an unknown name) the first profile in table
    order whose key occurs in the lowercased process name is taken,
    and the built-in default profile when no key occurs in it.  A
    profile selected in either way that is an empty dict is replaced
    by the default profile. *)
Theorem select_profile_rules o profile_name process_name :
  (forall n pr,
     profile_name = Some n -> n <> "" ->
     PyDict.get n (optimization_profiles o) = Some pr ->
     select_profile o profile_name process_name
     = match pr with [] => _get_default_profile | _ :: _ => pr end) /\
  (forall pre k pr post,
     named_known o profile_name = false ->
     optimization_profiles o = (pre ++ (k, pr) :: post)%list ->
     List.Forall (fun kp => PyStr.str_in (fst kp) process_name = false) pre ->
     PyStr.str_in k process_name = true ->
     select_profile o profile_name process_name
     = match pr with [] => _get_default_profile | _ :: _ => pr end) /\
  (named_known o profile_name = false ->
     List.Forall (fun kp => PyStr.str_in (fst kp) process_name = false)
       (optimization_profiles o) ->
     select_profile o profile_name process_name = _get_default_profile).
Proof.
  assert (named_known o profile_name = false ->
          select_profile o profile_name process_name
          = match find_profile (optimization_profiles o) process_name with
            | Some (kv :: rest) => kv :: rest
            | _ => _get_default_profile
            end) as Hauto.
  { unfold named_known, select_profile. destruct profile_name as [n|];
      [|reflexivity]. intros H. now rewrite H. }
  split; [|split].
  - intros n pr -> Hn Hget. unfold select_profile, PyDict.mem. rewrite Hget.
    destruct (String.eqb n "") eqn:E; [apply String.eqb_eq in E; contradiction|].
    simpl. now destruct pr.
  - intros pre k pr post Hk Htab Hpre Hin. rewrite (Hauto Hk).
    unfold find_profile. rewrite Htab.
    rewrite (find_first (fun kp => PyStr.str_in (fst kp) process_name)
               pre (k, pr) post Hpre Hin). simpl. now destruct pr.
  - intros Hk Hall. rewrite (Hauto Hk). unfold find_profile.
    now rewrite (find_none _ _ Hall).
Qed.

(** X5, an instance: the built-in table, no profile name, the process
    chromehelper.exe; an unknown name and a process that no key
    matches; a custom table whose "chrome" profile is an empty dict. *)
Lemma select_profile_rules_witness :
  pr_name (select_profile Scenario.fresh_optimizer None "chromehelper.exe")
  = "Google Chrome" /\
  select_profile Scenario.fresh_optimizer (Some "nonesuch") "notepad.exe"
  = _get_default_profile /\
  select_profile (init Scenario.browser (Some [("chrome", [])])) (Some "chrome")
    "notepad.exe"
  = _get_default_profile.
Proof.
  destruct (select_profile_rules Scenario.fresh_optimizer None "chromehelper.exe")
    as (_ & Hfirst & _).
  destruct (select_profile_rules Scenario.fresh_optimizer (Some "nonesuch")
              "notepad.exe") as (_ & _ & Hdefault).
  destruct (select_profile_rules (init Scenario.browser (Some [("chrome", [])]))
              (Some "chrome") "notepad.exe") as (Hnamed & _ & _).
  split; [|split].
  - rewrite (Hfirst [] "chrome" _ _ eq_refl eq_refl (List.Forall_nil _) eq_refl).
    reflexivity.
  - apply Hdefault; [reflexivity|]. repeat constructor.
  - rewrite (Hnamed "chrome" [] eq_refl); [reflexivity | discriminate | reflexivity].
Defined.






(** A process whose affinity may not be set. *)
Definition pinned (p : process) : process :=
  mk_process (p_name p) (p_nice p) (p_affinity p) (p_cpu_percent p)
    (p_memory_percent p) (p_memory_mb p) (p_num_threads p) (p_status p)
    (p_create_time p) (p_exe p) false true (p_meminfo_fails p)
    (p_trim_ok p) (p_ionice_ok p) (p_name_denied p) (p_nice_read_denied p).

(** X7: when the priority of an existing process can be reset but its
    affinity cannot, [remove_optimization] returns false and keeps the
    record, yet the priority of the process has already been reset and
    stays reset; the affinity is as before. *)
Theorem refused_affinity_leaves_priority_reset w o pid p :
  Process w pid = Some p ->
  p_nice_denied p = false -> p_affinity_denied p = true ->
  let r := remove_optimization w o pid in
  snd r = false /\
  snd (fst r) = o /\
  exists p', Process (fst (fst r)) pid = Some p' /\
             p_nice p' = OptimizerSpec.normal_priority o /\
             p_affinity p' = p_affinity p.
Proof.
  intros Hp Hn Ha. cbv zeta. unfold remove_optimization, set_nice, set_affinity.
  rewrite Hp, Hn. simpl. rewrite Ha. simpl. repeat split.
  eexists. split; [apply OptimizerSpec.Process_put|]. split; reflexivity.
Qed.

(** X7, an instance: the browser process with a fixed affinity and a
    raised priority. *)
Lemma refused_affinity_leaves_priority_reset_witness :
  let p := pinned (with_nice (Scenario.proc "chromehelper.exe" (40 # 1) (3 # 1)) (-10)) in
  let w := Scenario.host 1000 [(100, p)] in
  let r := remove_optimization w (snd Scenario.after_first) 100 in
  snd r = false /\
  PyDict.mem 100 (optimized_processes (snd (fst r))) = true /\
  (p_nice <$> Process (fst (fst r)) 100) = Some 0.
Proof.
  cbv zeta.
  destruct (refused_affinity_leaves_priority_reset
              (Scenario.host 1000
                 [(100, pinned (with_nice (Scenario.proc "chromehelper.exe" (40 # 1) (3 # 1)) (-10)))])
              (snd Scenario.after_first) 100 _ eq_refl eq_refl eq_refl)
    as (H1 & H2 & p' & H3 & H4 & _).
  split; [exact H1|]. split; [now rewrite H2|].
  rewrite H3. simpl. now rewrite H4.
Defined.

(** X8: asking for the boost again while the system has not changed
    gives the same answer and leaves the optimizer as the first call
    left it. *)
Theorem calculate_boost_again w o pid :
  let r := calculate_boost w o pid in
  calculate_boost w (fst r) pid = r.
Proof.
  cbv zeta. unfold calculate_boost.
  destruct (PyDict.get pid (optimized_processes o)) as [i|] eqn:Hi;
    [|simpl; now rewrite Hi].
  destruct (Process w pid) as [p|] eqn:Hp; simpl; [|now rewrite Hi].
  destruct (p_nice_read_denied p) eqn:Hread; simpl;
    [now rewrite Hi, ?Hp, ?Hread|].
  rewrite get_set_eq, ?Hp, ?Hread. unfold with_records. simpl.
  change (boost_factors (with_boost i _) p) with (boost_factors i p).
  rewrite set_set. reflexivity.
Qed.

End OptimizerMore.

(* ===================================================================== *)
(* The game detector: further properties                                 *)
(* ===================================================================== *)
Module GameDetectorMore.
Import OS PyNum GameDetector.
Import PyDictFacts PyNumFacts PyDictMore.
Import GameDetectorSpec.

Lemma classify_pid d w p game :
  classify d w p = Some game ->
  PyDict.get "pid" game = Some (VInt (Monitor.pid p)) /\
  PyDict.get "process_name" game = Some (VStr (PyStr.lower (Monitor.name p))).
Proof.
  unfold classify.
  destruct (PyDict.get (PyStr.lower (Monitor.name p)) (known_games d)) as [entry|].
  - intros [= <-]. split; [|apply get_set_eq].
    rewrite get_set_ne by discriminate. apply get_set_eq.
  - destruct (PyStr.any_in _ _); [intros [= <-]; split; reflexivity|].
    destruct (_check_gpu_usage _ _); [intros [= <-]; split; reflexivity|].
    discriminate.
Qed.

Lemma reported_sublist d w ps :
  map Monitor.pid (reported d w ps) `sublist_of` map Monitor.pid ps.
Proof.
  unfold reported. induction ps as [|p ps IH]; simpl; [constructor|].
  destruct (classify d w p); simpl; [now apply sublist_skip | now apply sublist_cons].
Qed.

(** X9: the list returned by [detect_games] has one entry for each
    reported process and none besides, in the order of the input: the
    entries carry the pids and lowercased names of the reported
    processes, in that order; so no process is reported twice when the
    input lists no pid twice. *)
Theorem detected_entries_follow_the_input d w ps :
  let out := snd (detect_games d w ps) in
  map (PyDict.get "pid") out
  = map (fun p => Some (VInt (Monitor.pid p))) (reported d w ps) /\
  map (PyDict.get "process_name") out
  = map (fun p => Some (VStr (PyStr.lower (Monitor.name p)))) (reported d w ps) /\
  map Monitor.pid (reported d w ps) `sublist_of` map Monitor.pid ps /\
  (NoDup (map Monitor.pid ps) -> NoDup (map Monitor.pid (reported d w ps))).
Proof.
  cbv zeta. unfold detect_games.
  destruct (detect_loop_spec w ps d []) as (_ & _ & _ & _ & _ & _ & Hout).
  rewrite Hout. clear Hout. simpl.
  assert (map (PyDict.get "pid") (omap (classify d w) ps)
          = map (fun p => Some (VInt (Monitor.pid p))) (reported d w ps) /\
          map (PyDict.get "process_name") (omap (classify d w) ps)
          = map (fun p => Some (VStr (PyStr.lower (Monitor.name p))))
              (reported d w ps)) as [H1 H2].
  { unfold reported. induction ps as [|p ps IH]; simpl; [split; reflexivity|].
    destruct (classify d w p) as [game|] eqn:Hc; simpl.
    - destruct (classify_pid d w p game Hc) as [Hp Hn].
      destruct IH as [IH1 IH2]. rewrite Hp, Hn.
      split; (f_equal; [exact IH1 || exact IH2]).
    - exact IH. }
  split; [exact H1|]. split; [exact H2|]. split; [apply reported_sublist|].
  intros Hnd. eapply sublist_NoDup; [exact Hnd | apply reported_sublist].
Qed.

(** X10: the GPU check looks at the first GPU only, not at the process:
    while its load is above 0.3 every process of the list is reported
    as a game, whatever its name, and every pid of the list is
    tracked. *)
Theorem busy_gpu_reports_every_process d w ps load :
  w_gpu_load w = Some load -> (3 # 10 < load)%Q ->
  let r := detect_games d w ps in
  reported d w ps = ps /\
  List.length (snd r) = List.length ps /\
  gaming_processes (fst r)
  = list_to_set (map Monitor.pid ps) ∪ gaming_processes d.
Proof.
  intros Hload Hbusy. cbv zeta.
  assert (forall p, exists game, classify d w p = Some game) as Hall.
  { intros p. unfold classify, _check_gpu_usage. rewrite Hload.
    rewrite (proj2 (q_ltb_lt _ _) Hbusy).
    destruct (PyDict.get _ _); [eauto|]. destruct (PyStr.any_in _ _); eauto. }
  assert (reported d w ps = ps) as Hrep.
  { unfold reported. induction ps as [|p ps IH]; simpl; [reflexivity|].
    destruct (Hall p) as [game ->]. now rewrite IH. }
  unfold detect_games.
  destruct (detect_loop_spec w ps d []) as (_ & _ & _ & _ & _ & Hset & Hout).
  rewrite Hset, Hout, Hrep. simpl. repeat split.
  clear -Hall. induction ps as [|p ps IH]; simpl; [reflexivity|].
  destruct (Hall p) as [game ->]. simpl. f_equal. exact IH.
Qed.

(** X10, an instance: a GPU at half load and a process named
    notepad.exe. *)
Lemma busy_gpu_reports_every_process_witness :
  let w := mk_world Linux [] 8 1000 false "" true (Some (1 # 2)%Q) in
  List.length (snd (detect_games Scenario.fresh_detector w
                      [Scenario.snap 7 "notepad.exe" (1 # 1)])) = 1%nat.
Proof.
  cbv zeta.
  destruct (busy_gpu_reports_every_process Scenario.fresh_detector
              (mk_world Linux [] 8 1000 false "" true (Some (1 # 2)%Q))
              [Scenario.snap 7 "notepad.exe" (1 # 1)] (1 # 2)%Q eq_refl
              eq_refl) as (_ & H & _).
  exact H.
Defined.

(** X11: [enable_game_mode] turns the session on exactly when no
    exception leaves it, and once the session is on every further call,
    with whatever games, system and optimizer, changes nothing: the
    saved settings are not overwritten. *)
Theorem enable_game_mode_is_latched w o d games :
  game_mode_active d = false ->
  let on := enable_game_mode w o d games in
  let d1 := snd (fst on) in
  (game_mode_active d1 = true <-> snd on = None) /\
  (snd on = None ->
   forall w' o' games',
     enable_game_mode w' o' d1 games' = (w', o', d1, None)).
Proof.
  intros Hoff. cbv zeta.
  assert (enable_game_mode w o d games
          = match enable_loop w o games with
            | (w1, o1, Some e) => (w1, o1, _store_original_settings d w, Some e)
            | (w1, o1, None) =>
                (_apply_system_game_mode w1, o1,
                 with_active (_store_original_settings d w) true, None)
            end) as Hon
    by (unfold enable_game_mode; now rewrite Hoff).
  rewrite Hon. clear Hon.
  destruct (enable_loop w o games) as [[w1 o1] [e|]]; simpl.
  - split; [|discriminate]. rewrite Hoff. split; discriminate.
  - split; [split; reflexivity|]. intros _ w' o' games'. reflexivity.
Qed.

(** X11, an instance: a new detector and the reported valorant.exe. *)
Lemma enable_game_mode_is_latched_witness :
  let games := snd (detect_games Scenario.fresh_detector Scenario.empty_host
                      Scenario.valorant) in
  let on := enable_game_mode Scenario.empty_host Scenario.fresh_optimizer
              Scenario.fresh_detector games in
  snd on = None /\
  enable_game_mode Scenario.browser Scenario.fresh_optimizer (snd (fst on)) []
  = (Scenario.browser, Scenario.fresh_optimizer, snd (fst on), None).
Proof.
  cbv zeta.
  destruct (enable_game_mode_is_latched Scenario.empty_host
              Scenario.fresh_optimizer Scenario.fresh_detector
              (snd (detect_games Scenario.fresh_detector Scenario.empty_host
                      Scenario.valorant)) eq_refl) as [_ H].
  split; [reflexivity|]. apply H. reflexivity.
Defined.

(** [game.get('type')] is 'moba' or 'rpg'. *)
Definition needs_missing_method (game : game_info) : Prop :=
  game_type game = VStr "moba" \/ game_type game = VStr "rpg".

Lemma enable_loop_raises w o games game :
  In game games -> needs_missing_method game ->
  exists e, snd (enable_loop w o games) = Some e.
Proof.
  intros Hin Hbad. revert w o.
  induction games as [|g rest IH]; intros w o; [destruct Hin|].
  cbn [enable_loop].
  destruct (PyDict.get "pid" g) as [v|]; [|simpl; eauto].
  destruct (match v with
            | VInt n => let '(w', o', _) :=
                          Optimizer.optimize_process w o n (Some "game") in (w', o')
            | _ => (w, o)
            end) as [w1 o1].
  destruct (_apply_game_optimizations g) as [e|] eqn:Hg; [simpl; eauto|].
  destruct Hin as [->|Hin]; [|now apply IH].
  exfalso. revert Hg. unfold _apply_game_optimizations.
  destruct Hbad as [-> | ->]; simpl; discriminate.
Qed.

(** X12: the class defines no [_optimize_for_moba] and no
    [_optimize_for_rpg]: when one of the detected games has type
    'moba' or 'rpg', [enable_game_mode] on an inactive session ends
    with an exception and the session stays inactive, although the
    settings have been captured. *)
Theorem moba_or_rpg_game_aborts_enable w o d games game :
  game_mode_active d = false ->
  In game games -> needs_missing_method game ->
  let on := enable_game_mode w o d games in
  (exists e, snd on = Some e) /\
  game_mode_active (snd (fst on)) = false /\
  populated (original_settings (snd (fst on))).
Proof.
  intros Hoff Hin Hbad. cbv zeta. unfold enable_game_mode. rewrite Hoff.
  destruct (enable_loop_raises w o games game Hin Hbad) as [e He].
  destruct (enable_loop w o games) as [[w1 o1] r]. simpl in He. subst r. simpl.
  split; [eauto|]. split; [exact Hoff | reflexivity].
Qed.

(** X12, an instance: dota2.exe, a 'moba' game of the built-in table. *)
Lemma moba_or_rpg_game_aborts_enable_witness :
  let games := snd (detect_games Scenario.fresh_detector Scenario.empty_host
                      [Scenario.snap 4 "dota2.exe" (50 # 1)]) in
  let on := enable_game_mode Scenario.empty_host Scenario.fresh_optimizer
              Scenario.fresh_detector games in
  (exists e, snd on = Some e) /\ game_mode_active (snd (fst on)) = false.
Proof.
  cbv zeta.
  destruct (moba_or_rpg_game_aborts_enable Scenario.empty_host
              Scenario.fresh_optimizer Scenario.fresh_detector
              (snd (detect_games Scenario.fresh_detector Scenario.empty_host
                      [Scenario.snap 4 "dota2.exe" (50 # 1)]))
              [("name", VStr "Dota 2"); ("type", VStr "moba"); ("pid", VInt 4);
               ("process_name", VStr "dota2.exe")]
              eq_refl (or_introl eq_refl) (or_introl eq_refl)) as (H1 & H2 & _).
  split; assumption.
Defined.

(** X13: where powercfg works, a session that [enable_game_mode]
    turned on runs under the high-performance plan, and
    [disable_game_mode] brings back the plan that was read when the
    session was enabled (the balanced plan if the active scheme was
    none of the three known ones). *)
Theorem game_mode_round_trip_restores_power_plan w o d games :
  game_mode_active d = false ->
  w_powercfg_ok w = true ->
  let on := enable_game_mode w o d games in
  snd on = None ->
  let w1 := fst (fst (fst on)) in
  let off := disable_game_mode w1 (snd (fst (fst on))) (snd (fst on)) in
  _get_power_plan w1 = "high_performance" /\
  _get_power_plan (fst (fst off)) = _get_power_plan w /\
  game_mode_active (snd off) = false.
Proof.
  intros Hoff Hcfg. cbv zeta. unfold enable_game_mode. rewrite Hoff.
  pose proof (enable_loop_same_machine games w o) as Hsame.
  destruct (enable_loop w o games) as [[w1 o1] [e|]]; simpl; [discriminate|].
  intros _. simpl in Hsame. destruct Hsame as (_ & _ & _ & _ & _ & Hcfg1 & _).
  rewrite Hcfg in Hcfg1. unfold _apply_system_game_mode. simpl. rewrite Hcfg1.
  split; [reflexivity|].
  unfold disable_game_mode. simpl.
  pose proof (remove_all_same_machine
                (elements (gaming_processes d))
                (with_power_scheme w1 "8c5e7fda-e8bf-4a96-9a85-a6e23a8c635c") o1)
    as Hsame2.
  destruct (remove_all _ _ _) as [w2 o2]. simpl in *.
  destruct Hsame2 as (_ & _ & _ & _ & _ & Hcfg2 & _). simpl in Hcfg2.
  rewrite Hcfg1 in Hcfg2.
  split; [|reflexivity].
  unfold _restore_original_settings. simpl.
  destruct (power_plan_cases w) as [-> | [-> | ->]]; simpl; rewrite Hcfg2;
    reflexivity.
Qed.

(** X13, an instance: a host on the balanced plan and no game. *)
Lemma game_mode_round_trip_restores_power_plan_witness :
  let on := enable_game_mode Scenario.empty_host Scenario.fresh_optimizer
              Scenario.fresh_detector [] in
  let off := disable_game_mode (fst (fst (fst on))) (snd (fst (fst on)))
               (snd (fst on)) in
  _get_power_plan (fst (fst (fst on))) = "high_performance" /\
  _get_power_plan (fst (fst off)) = "balanced".
Proof.
  cbv zeta.
  destruct (game_mode_round_trip_restores_power_plan Scenario.empty_host
              Scenario.fresh_optimizer Scenario.fresh_detector [] eq_refl
              eq_refl eq_refl) as (H1 & H2 & _).
  split; [exact H1 | exact H2].
Defined.

(** The process of a pid exists and lets its priority and affinity be
    set. *)
Definition tunable (w : world) (pid : Z) : Prop :=
  exists p, Process w pid = Some p /\
            p_nice_denied p = false /\ p_affinity_denied p = false.

Lemma get_del_None {V} (k q : Z) (t : PyDict.dict Z V) :
  PyDict.get q t = None -> PyDict.get q (PyDict.del k t) = None.
Proof.
  induction t as [|[k0 v0] r IH]; simpl; [reflexivity|].
  destruct (decide (q = k0)); [discriminate|]. intros H.
  destruct (decide (k = k0)); [exact H|]. simpl.
  destruct (decide (q = k0)); [contradiction | now apply IH].
Qed.

(** What one [remove_optimization] does to the table and to the
    processes that can be tuned. *)
Lemma remove_step w o pid :
  PyDict.wf (Optimizer.optimized_processes o) ->
  let r := Optimizer.remove_optimization w o pid in
  PyDict.wf (Optimizer.optimized_processes (snd (fst r))) /\
  (tunable w pid ->
   PyDict.get pid (Optimizer.optimized_processes (snd (fst r))) = None) /\
  (forall q, q <> pid ->
     PyDict.get q (Optimizer.optimized_processes (snd (fst r)))
     = PyDict.get q (Optimizer.optimized_processes o)) /\
  (forall q, PyDict.get q (Optimizer.optimized_processes o) = None ->
     PyDict.get q (Optimizer.optimized_processes (snd (fst r))) = None) /\
  (forall q, tunable w q -> tunable (fst (fst r)) q).
Proof.
  intros Hwf. cbv zeta.
  split; [now apply OptimizerSpec.remove_optimization_wf|].
  unfold Optimizer.remove_optimization, tunable.
  destruct (Process w pid) as [p|] eqn:Hp.
  2:{ simpl. split; [intros (p & H & _); discriminate|]. auto. }
  unfold set_nice. destruct (p_nice_denied p) eqn:Hn.
  { simpl. split; [intros (p0 & H & H1 & _); congruence|]. auto. }
  unfold set_affinity. simpl. destruct (p_affinity_denied p) eqn:Ha; simpl.
  { split; [intros (p0 & H & _ & H2); congruence|]. split; [auto|].
    split; [auto|]. intros q (p0 & Hq & Hqn & Hqa).
    destruct (decide (q = pid)) as [->|Hne]; [congruence|].
    exists p0. rewrite OptimizerSpec.Process_put_ne by congruence. auto. }
  split; [|split; [|split]].
  - intros _. destruct (PyDict.mem pid _) eqn:Hm; [now apply get_del_eq|].
    unfold PyDict.mem in Hm. destruct (PyDict.get pid _); congruence.
  - intros q Hq. destruct (PyDict.mem pid _);
      [apply get_del_ne; congruence | reflexivity].
  - intros q Hq. destruct (PyDict.mem pid _); [now apply get_del_None | exact Hq].
  - intros q (p0 & Hq & Hqn & Hqa).
    destruct (decide (q = pid)) as [->|Hne].
    + eexists. rewrite OptimizerSpec.Process_put. split; [reflexivity|].
      simpl. split; assumption.
    + exists p0. rewrite OptimizerSpec.Process_put_ne by congruence. auto.
Qed.

Lemma remove_all_spec pids : forall w o,
  PyDict.wf (Optimizer.optimized_processes o) ->
  let r := remove_all w o pids in
  PyDict.wf (Optimizer.optimized_processes (snd r)) /\
  (forall pid, In pid pids -> tunable w pid ->
     PyDict.get pid (Optimizer.optimized_processes (snd r)) = None) /\
  (forall q, ~ In q pids ->
     PyDict.get q (Optimizer.optimized_processes (snd r))
     = PyDict.get q (Optimizer.optimized_processes o)) /\
  (forall q, PyDict.get q (Optimizer.optimized_processes o) = None ->
     PyDict.get q (Optimizer.optimized_processes (snd r)) = None).
Proof.
  unfold remove_all.
  induction pids as [|a rest IH]; intros w o Hwf; cbv zeta; simpl.
  - repeat split; [exact Hwf | intros pid [] | auto].
  - destruct (remove_step w o a Hwf) as (Hwf1 & Hgone & Hother & Hnone & Htun).
    cbv zeta in *.
    destruct (Optimizer.remove_optimization w o a) as [[w1 o1] b]. simpl in *.
    destruct (IH w1 o1 Hwf1) as (Hwf2 & Hgone2 & Hother2 & Hnone2).
    cbv zeta in *. split; [exact Hwf2|]. split; [|split].
    + intros pid [<-|Hin] Ht.
      * apply Hnone2, Hgone, Ht.
      * apply Hgone2; [exact Hin | apply Htun, Ht].
    + intros q Hq. rewrite Hother2 by tauto. apply Hother. intros ->. tauto.
    + intros q Hq. apply Hnone2, Hnone, Hq.
Qed.

(** X14: [disable_game_mode] on an active session removes the record
    of every tracked pid whose process exists and can be reset,
    whatever happens with the other tracked pids, and leaves the
    records of all untracked pids as they were. *)
Theorem disable_removes_tracked_records w o d :
  game_mode_active d = true ->
  PyDict.wf (Optimizer.optimized_processes o) ->
  let o' := snd (fst (disable_game_mode w o d)) in
  (forall pid, pid ∈ gaming_processes d -> tunable w pid ->
     PyDict.get pid (Optimizer.optimized_processes o') = None) /\
  (forall q, q ∉ gaming_processes d ->
     PyDict.get q (Optimizer.optimized_processes o')
     = PyDict.get q (Optimizer.optimized_processes o)).
Proof.
  intros Hon Hwf. cbv zeta. unfold disable_game_mode. rewrite Hon. simpl.
  destruct (remove_all_spec (elements (gaming_processes d)) w o Hwf)
    as (_ & Hgone & Hother & _). cbv zeta in *.
  destruct (remove_all w o (elements (gaming_processes d))) as [w1 o1].
  simpl in *. split.
  - intros pid Hin Ht. apply Hgone; [|exact Ht].
    apply list_elem_of_In, elem_of_elements, Hin.
  - intros q Hq. apply Hother. intros Hin. apply Hq.
    apply elem_of_elements, list_elem_of_In, Hin.
Qed.

(** X14, an instance: an active session that tracks the optimized
    process 100. *)
Lemma disable_removes_tracked_records_witness :
  let d := mk_detector [] {[100]} true [] [] [] in
  PyDict.get 100
    (Optimizer.optimized_processes
       (snd (fst (disable_game_mode (fst Scenario.after_first)
                    (snd Scenario.after_first) d)))) = None.
Proof.
  cbv zeta.
  destruct (disable_removes_tracked_records (fst Scenario.after_first)
              (snd Scenario.after_first)
              (mk_detector [] {[100]} true [] [] []) eq_refl) as [H _].
  - unfold PyDict.wf. simpl. apply NoDup_singleton.
  - apply H; [set_solver|]. eexists. split; [reflexivity|]. split; reflexivity.
Defined.

End GameDetectorMore.

(* ===================================================================== *)
(* The process monitor: further properties                               *)
(* ===================================================================== *)
Module MonitorMore.
Import OS PyNum Monitor.
Import PyDictFacts PyNumFacts PyListFacts PyDictMore.

Lemma collect_pids w iter : forall n acc,
  exists new,
    collect w iter n acc = (acc ++ new)%list /\
    map pid new `sublist_of` map fst iter.
Proof.
  induction iter as [|[id p] rest IH]; intros n acc; cbn [collect].
  - exists []. rewrite app_nil_r. split; [reflexivity | constructor].
  - destruct (max_processes <=? n)%nat.
    { exists []. rewrite app_nil_r. split; [reflexivity | apply sublist_nil_l]. }
    destruct (negligible p); [|destruct (p_meminfo_fails p)].
    + destruct (IH n acc) as (new & He & Hs). exists new.
      split; [exact He | now apply sublist_cons].
    + destruct (IH n acc) as (new & He & Hs). exists new.
      split; [exact He | now apply sublist_cons].
    + destruct (IH (S n) (acc ++ [snapshot_of w id p])%list) as (new & He & Hs).
      exists (snapshot_of w id p :: new).
      split; [rewrite He, <- app_assoc; reflexivity | now apply sublist_skip].
Qed.

Lemma firstn_sublist {A} n (l : list A) : firstn n l `sublist_of` l.
Proof.
  revert n. induction l as [|x l IH]; intros [|n]; simpl;
    [constructor | constructor | apply sublist_nil_l | apply sublist_skip, IH].
Qed.

Lemma map_sublist {A B} (f : A -> B) (l k : list A) :
  l `sublist_of` k -> map f l `sublist_of` map f k.
Proof. induction 1; simpl; constructor; assumption. Qed.

(** The pids of a poll are distinct when the pids of the process table
    are. *)
Lemma get_processes_pids_distinct w :
  PyDict.wf (w_procs w) -> NoDup (map pid (get_processes w)).
Proof.
  intros Hwf. unfold get_processes.
  destruct (collect_pids w (w_procs w) 0 []) as (new & He & Hs).
  simpl in He. rewrite He.
  assert (NoDup (map pid new)) as Hnew by (eapply sublist_NoDup; eassumption).
  assert (NoDup (map pid (PyList.sorted_desc cpu_ltb new))) as Hsorted.
  { rewrite <- (Permutation_map pid (sorted_desc_perm cpu_ltb new)).
    exact Hnew. }
  eapply sublist_NoDup; [exact Hsorted|].
  apply map_sublist, firstn_sublist.
Qed.

Lemma set_fresh {V} (k : Z) (v : V) (t : PyDict.dict Z V) :
  ~ In k (PyDict.keys t) -> PyDict.set k v t = (t ++ [(k, v)])%list.
Proof.
  induction t as [|[k0 v0] r IH]; simpl; [reflexivity|]. intros Hn.
  destruct (decide (k = k0)) as [->|Hk]; [tauto|]. rewrite IH by tauto.
  reflexivity.
Qed.

Lemma fold_cache ps : forall t : list snapshot,
  NoDup (map pid (t ++ ps)) ->
  fold_left (fun d s => PyDict.set (pid s) s d) ps
    (map (fun s => (pid s, s)) t)
  = map (fun s => (pid s, s)) (t ++ ps).
Proof.
  induction ps as [|s ps IH]; intros t Hnd; cbn [fold_left].
  - now rewrite app_nil_r.
  - rewrite set_fresh.
    + change [(pid s, s)] with (map (fun s => (pid s, s)) [s]).
      rewrite <- map_app, IH; rewrite <- app_assoc; [reflexivity | exact Hnd].
    + unfold PyDict.keys. rewrite map_map. cbn [fst].
      rewrite map_app in Hnd. apply NoDup_app in Hnd as (_ & Hdisj & _).
      intros Hin. apply (Hdisj (pid s)); [now apply list_elem_of_In|].
      apply list_elem_of_In. now left.
Qed.

Lemma cache_of_distinct ps :
  NoDup (map pid ps) -> cache_of ps = map (fun s => (pid s, s)) ps.
Proof. intros Hnd. exact (fold_cache ps [] Hnd). Qed.

(** X15: after a publish cycle over a process table without repeated
    pids, the process cache holds exactly the snapshots of this poll,
    in poll order, each under its own pid; the pids of a poll are
    distinct. *)
Theorem cache_matches_the_poll w m :
  PyDict.wf (w_procs w) ->
  let ps := get_processes w in
  let cache := process_cache (fst (monitor_cycle w m)) in
  NoDup (map pid ps) /\
  PyDict.keys cache = map pid ps /\
  PyDict.values cache = ps /\
  (forall s, In s ps -> PyDict.get (pid s) cache = Some s).
Proof.
  intros Hwf. cbv zeta.
  pose proof (get_processes_pids_distinct w Hwf) as Hnd.
  assert (process_cache (fst (monitor_cycle w m)) = cache_of (get_processes w))
    as ->.
  { unfold monitor_cycle. destruct (notify _ _) as [evs [e|]]; reflexivity. }
  rewrite (cache_of_distinct _ Hnd). split; [exact Hnd|].
  unfold PyDict.keys, PyDict.values. rewrite !map_map. simpl.
  split; [reflexivity|]. split; [apply map_id|].
  intros s Hs. apply In_get_wf.
  - unfold PyDict.wf, PyDict.keys. rewrite map_map. exact Hnd.
  - apply in_map_iff. exists s. auto.
Qed.

(** X15, an instance: the host with the browser process. *)
Lemma cache_matches_the_poll_witness :
  PyDict.keys (process_cache (fst (monitor_cycle Scenario.browser
                                     Scenario.subscribers))) = [100].
Proof.
  destruct (cache_matches_the_poll Scenario.browser Scenario.subscribers)
    as (_ & H & _).
  - unfold PyDict.wf. simpl. apply NoDup_singleton.
  - rewrite H. reflexivity.
Defined.

(** X16: in a cycle in which no subscriber raises, every subscriber is
    called exactly once, in registration order, with the snapshot list
    of this poll, and nothing is logged; a subscriber added with
    [add_callback] is called last. *)
Theorem quiet_cycle_calls_every_subscriber w m cb :
  Forall (fun c => cb_raises c (get_processes w) = None) (callbacks m) ->
  cb_raises cb (get_processes w) = None ->
  let ps := get_processes w in
  snd (monitor_cycle w m) = map (fun c => Called (cb_id c) ps) (callbacks m) /\
  log (fst (monitor_cycle w m)) = log m /\
  snd (monitor_cycle w (add_callback m cb))
  = (snd (monitor_cycle w m) ++ [Called (cb_id cb) ps])%list.
Proof.
  intros Hall Hcb. cbv zeta.
  assert (forall m', Forall (fun c => cb_raises c (get_processes w) = None)
                       (callbacks m') ->
            monitor_cycle w m'
            = (mk_monitor (refresh_interval m') (callbacks m')
                 (cache_of (get_processes w)) (log m'),
               map (fun c => Called (cb_id c) (get_processes w)) (callbacks m')))
    as Hquiet.
  { intros m' H. unfold monitor_cycle.
    now rewrite (MonitorSpec.notify_all_ok _ _ H). }
  rewrite (Hquiet m Hall). simpl. split; [reflexivity|]. split; [reflexivity|].
  rewrite Hquiet.
  - simpl. now rewrite map_app.
  - simpl. apply Forall_app. split; [exact Hall|]. now constructor.
Qed.

(** X16, an instance: two subscribers that never raise. *)
Lemma quiet_cycle_calls_every_subscriber_witness :
  let m := mk_monitor (2 # 1) [mk_callback 0 (fun _ => None)] [] [] in
  map MonitorSpec.called_id
    (snd (monitor_cycle Scenario.browser
            (add_callback m (mk_callback 1 (fun _ => None)))))
  = [0%nat; 1%nat].
Proof.
  cbv zeta.
  destruct (quiet_cycle_calls_every_subscriber Scenario.browser
              (mk_monitor (2 # 1) [mk_callback 0 (fun _ => None)] [] [])
              (mk_callback 1 (fun _ => None))) as (_ & _ & H).
  - repeat constructor.
  - reflexivity.
  - rewrite H. reflexivity.
Defined.

End MonitorMore.

(* ===================================================================== *)
(* The scheduler: further properties                                     *)
(* ===================================================================== *)
Module SchedulerMore.
Import OS PyNum Scheduler.
Import PyDictFacts PyNumFacts PyListFacts PyDictMore.

(** The scheduler's tables and the clock are the same in two states. *)
Definition sched_same (s s' : sys) : Prop :=
  schedules (s_scheduler s') = schedules (s_scheduler s) /\
  callbacks (s_scheduler s') = callbacks (s_scheduler s) /\
  lib_jobs (s_scheduler s') = lib_jobs (s_scheduler s) /\
  lib_next_id (s_scheduler s') = lib_next_id (s_scheduler s) /\
  w_now (s_world s') = w_now (s_world s).

(** The same, and nothing was added to the trace. *)
Definition quiet (s s' : sys) : Prop :=
  s_trace s' = s_trace s /\ sched_same s s'.

Definition is_notified (e : event) : Prop :=
  match e with Notified _ _ => True | Executed _ => False end.

Lemma sched_same_refl s : sched_same s s.
Proof. repeat split. Qed.

Lemma sched_same_trans s1 s2 s3 :
  sched_same s1 s2 -> sched_same s2 s3 -> sched_same s1 s3.
Proof. unfold sched_same. intuition congruence. Qed.

Lemma quiet_refl s : quiet s s.
Proof. split; [reflexivity | apply sched_same_refl]. Qed.

Lemma quiet_trans s1 s2 s3 : quiet s1 s2 -> quiet s2 s3 -> quiet s1 s3.
Proof.
  intros [H1 H1'] [H2 H2']. split; [congruence|].
  eapply sched_same_trans; eassumption.
Qed.

Lemma bind_eq {A B} (m : M A) (k : A -> M B) s :
  (m ≫= k) s = match m s with
               | (s', inl a) => k a s'
               | (s', inr e) => (s', inr e)
               end.
Proof. reflexivity. Qed.

Lemma optimize_quiet pid s :
  quiet s (fst (optimize pid s)) /\ snd (optimize pid s) = inl tt.
Proof.
  unfold optimize, modify. simpl.
  pose proof (GameDetectorSpec.optimize_same_machine (s_world s)
                (s_optimizer s) pid None) as (_ & _ & Hnow & _).
  destruct (Optimizer.optimize_process _ _ _ _) as [[w o] r]. simpl in *.
  repeat split. exact Hnow.
Qed.

Lemma logger_quiet line s :
  quiet s (fst (logger line s)) /\ snd (logger line s) = inl tt.
Proof. repeat split. Qed.

Lemma for_each_quiet {A} (l : list A) (body : A -> M unit) :
  (forall a s, quiet s (fst (body a s)) /\ snd (body a s) = inl tt) ->
  forall s, quiet s (fst (for_each l body s)) /\
            snd (for_each l body s) = inl tt.
Proof.
  intros Hbody. induction l as [|a l IH]; intros s; cbn [for_each].
  - split; [apply quiet_refl | reflexivity].
  - rewrite bind_eq. destruct (Hbody a s) as [Hq Hr].
    destruct (body a s) as [s1 r1]. simpl in Hq, Hr. subst r1.
    destruct (IH s1) as [Hq2 Hr2]. split; [|exact Hr2].
    eapply quiet_trans; eassumption.
Qed.

Section WithLibrary.
Variable lib_next_run : job_unit -> Z -> option Z.

(** What [_execute_action] does to the scheduler, whatever the action
    and however it ends: one [Executed] event, the tables and the
    clock untouched. *)
Lemma execute_action_spec a s :
  let r := _execute_action a s in
  s_trace (fst r) = (s_trace s ++ [Executed a])%list /\
  sched_same s (fst r).
Proof.
  cbv zeta. unfold _execute_action. rewrite bind_eq.
  set (s0 := mk_sys (s_world s) (s_optimizer s) (s_scheduler s)
               (s_trace s ++ [Executed a])%list).
  change (emit (Executed a) s) with (s0, @inl unit string tt). cbv iota beta.
  assert (forall r : sys * (unit + string), quiet s0 (fst r) ->
            s_trace (fst r) = (s_trace s ++ [Executed a])%list /\
            sched_same s (fst r)) as Hdone.
  { intros r [Ht Hs]. split; [rewrite Ht; reflexivity|].
    eapply sched_same_trans; [|exact Hs]. repeat split. }
  apply Hdone.
  destruct (a_type a) as [t|]; [|apply quiet_refl].
  destruct (String.eqb t "optimize_all").
  { rewrite bind_eq. simpl.
    apply for_each_quiet. intros p s1. destruct (high_usage p);
      [apply optimize_quiet | split; [apply quiet_refl | reflexivity]]. }
  destruct (String.eqb t "optimize_specific").
  { rewrite bind_eq. simpl.
    apply for_each_quiet. intros p s1. destruct (targets (a_apps a) p);
      [apply optimize_quiet | split; [apply quiet_refl | reflexivity]]. }
  destruct (String.eqb t "clean_memory"); [apply quiet_refl|].
  destruct (String.eqb t "apply_profile"); [|apply quiet_refl].
  destruct (Optimizer.truthy (a_profile a)); [|apply quiet_refl].
  apply logger_quiet.
Qed.

(** One guarded action of [_run_schedule]. *)
Definition guarded (a : action) : M unit :=
  try_except (_execute_action a)
    (fun e => logger (String.append "Failed to execute action: " e)).

Lemma guarded_spec a s :
  exists s1,
    guarded a s = (s1, inl tt) /\
    s_trace s1 = (s_trace s ++ [Executed a])%list /\
    sched_same s s1.
Proof.
  unfold guarded, try_except.
  destruct (execute_action_spec a s) as [Ht Hs]. cbv zeta in Ht, Hs.
  destruct (_execute_action a s) as [s1 [[]|e]]; simpl in Ht, Hs.
  - exists s1. auto.
  - eexists. split; [reflexivity|]. simpl. split; [exact Ht|].
    eapply sched_same_trans; [exact Hs|]. repeat split.
Qed.

Lemma for_each_cons_ok {A} (a : A) l (body : A -> M unit) s s1 :
  body a s = (s1, inl tt) ->
  for_each (a :: l) body s = for_each l body s1.
Proof. intros H. cbn [for_each]. rewrite bind_eq, H. reflexivity. Qed.

(** The action loop of [_run_schedule]: every action is attempted, in
    order, and no exception leaves the loop. *)
Lemma run_actions_spec l : forall s,
  exists s1,
    for_each l guarded s = (s1, inl tt) /\
    s_trace s1 = (s_trace s ++ map Executed l)%list /\
    sched_same s s1.
Proof.
  induction l as [|a l IH]; intros s.
  - exists s. split; [reflexivity|].
    split; [simpl; now rewrite app_nil_r | apply sched_same_refl].
  - destruct (guarded_spec a s) as (s1 & He & Ht & Hs).
    destruct (IH s1) as (s2 & He2 & Ht2 & Hs2). exists s2.
    split; [rewrite (for_each_cons_ok a l guarded s s1 He); exact He2|].
    split; [rewrite Ht2, Ht, <- app_assoc; reflexivity|].
    eapply sched_same_trans; eassumption.
Qed.

(** One call of a schedule callback. *)
Definition notify_one (sid : string) (cb : callback) : M unit :=
  emit (Notified (cb_id cb) sid);;
  match cb_raises cb sid with
  | Some e => raise e
  | None => ret tt
  end.

Definition noted (s : sys) (e : event) : sys :=
  mk_sys (s_world s) (s_optimizer s) (s_scheduler s) (s_trace s ++ [e])%list.

Lemma notify_one_eq sid cb s :
  notify_one sid cb s
  = (noted s (Notified (cb_id cb) sid),
     match cb_raises cb sid with Some e => inr e | None => inl tt end).
Proof.
  unfold notify_one. rewrite bind_eq. unfold emit, modify. cbv iota beta.
  destruct (cb_raises cb sid); reflexivity.
Qed.

(** The callback loop of [_run_schedule]: it adds notifications only
    and leaves the scheduler and the system alone. *)
Lemma notify_spec sid cbs : forall s,
  exists notes,
    s_trace (fst (for_each cbs (notify_one sid) s)) = (s_trace s ++ notes)%list /\
    List.Forall is_notified notes /\
    s_scheduler (fst (for_each cbs (notify_one sid) s)) = s_scheduler s /\
    s_world (fst (for_each cbs (notify_one sid) s)) = s_world s /\
    s_optimizer (fst (for_each cbs (notify_one sid) s)) = s_optimizer s.
Proof.
  induction cbs as [|cb cbs IH]; intros s.
  - exists []. simpl. rewrite app_nil_r. repeat split. constructor.
  - pose proof (notify_one_eq sid cb s) as He.
    destruct (cb_raises cb sid) as [e|].
    + exists [Notified (cb_id cb) sid]. cbn [for_each]. rewrite bind_eq, He.
      simpl. repeat split. repeat constructor.
    + rewrite (for_each_cons_ok cb cbs (notify_one sid) s _ He).
      destruct (IH (noted s (Notified (cb_id cb) sid)))
        as (notes & Ht & Hn & Hs & Hw & Ho).
      exists (Notified (cb_id cb) sid :: notes).
      split; [rewrite Ht; simpl; rewrite <- app_assoc; reflexivity|].
      split; [constructor; [exact I | exact Hn]|]. auto.
Qed.

Definition with_schedules (s : sys)
    (t : PyDict.dict string schedule_info) : sys :=
  with_scheduler s
    (mk_scheduler t (callbacks (s_scheduler s)) (lib_jobs (s_scheduler s))
       (lib_next_id (s_scheduler s)) (log (s_scheduler s))).

Lemma update_stored_eq sid f s i :
  PyDict.get sid (schedules (s_scheduler s)) = Some i ->
  update_stored sid f s
  = (with_schedules s (PyDict.set sid (f i) (schedules (s_scheduler s))),
     inl tt).
Proof.
  intros H. unfold update_stored, set_schedules, modify, with_schedules.
  now rewrite H.
Qed.

(** [_run_schedule], with its two loops named. *)
Lemma run_schedule_eq sid s info :
  PyDict.get sid (schedules (s_scheduler s)) = Some info ->
  enabled info = true ->
  _run_schedule sid s
  = (logger (String.append "Running scheduled optimization: " (name info));;
     for_each (actions info) guarded;;
     now ← gets (fun s => w_now (s_world s));
     update_stored sid (fun i => set_last_run i now);;
     match job_ref info with
     | Some key =>
         nr ← lib_next_run_of key;
         update_stored sid (fun i => set_next_run i nr)
     | None => ret tt
     end;;
     cbs ← gets (fun s => callbacks (s_scheduler s));
     for_each cbs (notify_one sid)) s.
Proof.
  intros Hget Hen. unfold _run_schedule. rewrite bind_eq. unfold gets at 1.
  cbv iota beta. rewrite Hget, Hen. reflexivity.
Qed.

(** A run of a stored, enabled schedule up to its callback loop. *)
Lemma run_schedule_result sid s info :
  PyDict.get sid (schedules (s_scheduler s)) = Some info ->
  enabled info = true ->
  exists s3 i2,
    _run_schedule sid s
    = for_each (callbacks (s_scheduler s3)) (notify_one sid) s3 /\
    s_trace s3 = (s_trace s ++ map Executed (actions info))%list /\
    PyDict.get sid (schedules (s_scheduler s3)) = Some i2 /\
    last_run i2 = Some (w_now (s_world s)).
Proof.
  intros Hget Hen.
  set (line := String.append "Running scheduled optimization: " (name info)).
  destruct (logger_quiet line s) as [[Ht0 Hs0] Hr0].
  destruct (logger line s) as [s0 r0] eqn:Hlog. simpl in Ht0, Hs0, Hr0. subst r0.
  destruct (run_actions_spec (actions info) s0) as (s1 & He1 & Ht1 & Hs1).
  assert (sched_same s s1) as Hs01 by (eapply sched_same_trans; eassumption).
  destruct Hs01 as (Hsch & _ & _ & _ & Hnow).
  assert (PyDict.get sid (schedules (s_scheduler s1)) = Some info) as Hget1
    by (now rewrite Hsch).
  set (stamped := set_last_run info (w_now (s_world s1))).
  set (s2 := with_schedules s1 (PyDict.set sid stamped (schedules (s_scheduler s1)))).
  assert (PyDict.get sid (schedules (s_scheduler s2)) = Some stamped) as Hget2
    by (apply get_set_eq).
  assert (exists i2 s3,
            (match job_ref info with
             | Some key =>
                 nr ← lib_next_run_of key;
                 update_stored sid (fun i => set_next_run i nr)
             | None => ret tt
             end) s2 = (s3, inl tt) /\
            s_trace s3 = s_trace s1 /\
            PyDict.get sid (schedules (s_scheduler s3)) = Some i2 /\
            last_run i2 = Some (w_now (s_world s1)))
    as (i2 & s3 & He3 & Ht3 & Hget3 & Hlast).
  { destruct (job_ref info) as [key|].
    - rewrite bind_eq. unfold lib_next_run_of, gets. cbv iota beta.
      rewrite (update_stored_eq sid _ s2 _ Hget2).
      eexists _, _. split; [reflexivity|]. simpl.
      split; [reflexivity|]. split; [apply get_set_eq | reflexivity].
    - exists stamped, s2. repeat split. exact Hget2. }
  exists s3, i2. split; [|split; [|split]].
  - rewrite (run_schedule_eq sid s info Hget Hen).
    rewrite bind_eq. fold line. rewrite Hlog. rewrite bind_eq, He1.
    rewrite bind_eq. unfold gets at 1. cbv iota beta.
    rewrite bind_eq, (update_stored_eq sid _ s1 info Hget1).
    fold stamped. fold s2. rewrite bind_eq, He3. rewrite bind_eq.
    reflexivity.
  - rewrite Ht3, Ht1, Ht0. reflexivity.
  - exact Hget3.
  - now rewrite Hlast, Hnow.
Qed.

(** X17: running a stored, enabled schedule attempts every action of
    its list exactly once, in list order, whatever fails on the way;
    after the actions only callbacks are notified; the schedule's
    last_run is the time of the run.  A schedule that is unknown or
    disabled runs nothing at all. *)
Theorem run_schedule_attempts_every_action sid s :
  (forall info,
     PyDict.get sid (schedules (s_scheduler s)) = Some info ->
     enabled info = true ->
     let r := _run_schedule sid s in
     exists notes,
       s_trace (fst r)
       = (s_trace s ++ map Executed (actions info) ++ notes)%list /\
       List.Forall is_notified notes /\
       (last_run <$> PyDict.get sid (schedules (s_scheduler (fst r))))
       = Some (Some (w_now (s_world s)))) /\
  (PyDict.get sid (schedules (s_scheduler s)) = None \/
   (exists info, PyDict.get sid (schedules (s_scheduler s)) = Some info /\
                 enabled info = false) ->
   _run_schedule sid s = (s, inl tt)).
Proof.
  split.
  - intros info Hget Hen. cbv zeta.
    destruct (run_schedule_result sid s info Hget Hen)
      as (s3 & i2 & -> & Ht3 & Hget3 & Hlast).
    destruct (notify_spec sid (callbacks (s_scheduler s3)) s3)
      as (notes & Htn & Hn & Hsn & _ & _).
    exists notes. split; [|split; [exact Hn|]].
    + rewrite Htn, Ht3, <- app_assoc. reflexivity.
    + rewrite Hsn, Hget3. simpl. now rewrite Hlast.
  - intros [Hnone | (info & Hget & Hoff)]; unfold _run_schedule;
      rewrite bind_eq; unfold gets; cbv iota beta.
    + now rewrite Hnone.
    + now rewrite Hget, Hoff.
Qed.

End WithLibrary.

(** X17, an instance: the schedule "boot" once it is stored, run with a
    list of two actions of which the second fails. *)
Lemma run_schedule_attempts_every_action_witness :
  let clean := mk_action (Some "clean_memory") [] None None in
  let info := mk_schedule "uuid-1" "boot" "startup" None [] None
                [clean; Scenario.optimize_all] true 1000 None None None in
  let s := mk_sys Scenario.browser Scenario.fresh_optimizer
             (mk_scheduler [("uuid-1", info)] [] [] 0 []) [] in
  executions (s_trace (fst (_run_schedule "uuid-1" s))) = 2%nat.
Proof.
  cbv zeta.
  match goal with
  | |- executions (s_trace (fst (_run_schedule ?sid ?s))) = _ =>
      destruct (run_schedule_attempts_every_action sid s) as [H _];
      edestruct H as (notes & Ht & Hn & _); [reflexivity | reflexivity |]
  end.
  cbv zeta in Ht. rewrite Ht. unfold executions.
  rewrite !List.filter_app, !length_app. simpl.
  assert (List.filter (fun e => match e with Executed _ => true | _ => false end)
            notes = []) as ->; [|reflexivity].
  clear Ht. induction Hn as [|e notes He _ IH]; simpl; [reflexivity|].
  destruct e; [destruct He | exact IH].
Defined.

Section Jobs.
Variable lib_next_run : job_unit -> Z -> option Z.

Definition with_jobs (s : sys) (jobs : PyDict.dict nat job) (next : nat) : sys :=
  with_scheduler s
    (mk_scheduler (schedules (s_scheduler s)) (callbacks (s_scheduler s)) jobs
       next (log (s_scheduler s))).

Lemma lib_do_eq u t s nr :
  lib_next_run u (w_now (s_world s)) = Some nr ->
  lib_do lib_next_run u t s
  = (with_jobs s (PyDict.set (lib_next_id (s_scheduler s)) (mk_job u t nr)
                    (lib_jobs (s_scheduler s)))
       (S (lib_next_id (s_scheduler s))),
     inl (lib_next_id (s_scheduler s))).
Proof. intros H. unfold lib_do. now rewrite H. Qed.

(** [_create_job] for an interval schedule that the library accepts. *)
Lemma create_interval_job sid info s nr :
  type info = "interval" ->
  lib_next_run (EveryMinutes (interval info)) (w_now (s_world s)) = Some nr ->
  _create_job lib_next_run sid info s
  = (with_jobs s
       (PyDict.set (lib_next_id (s_scheduler s))
          (mk_job (EveryMinutes (interval info)) (RunSchedule sid) nr)
          (lib_jobs (s_scheduler s)))
       (S (lib_next_id (s_scheduler s))),
     inl (Some (lib_next_id (s_scheduler s), Some nr))).
Proof.
  intros Htype Hlib. unfold _create_job, _create_job_select. rewrite Htype.
  cbn [String.eqb Ascii.eqb Bool.eqb]. simpl.
  rewrite !bind_eq. rewrite (lib_do_eq _ _ s nr Hlib). cbv iota beta.
  unfold mret, M_ret, ret. rewrite bind_eq. unfold lib_next_run_of, gets.
  cbv iota beta. simpl. now rewrite get_set_eq.
Qed.

(** X18: [enable_schedule(id, True)] does not cancel the job a schedule
    already has: for an interval schedule the old job stays registered
    with the library, a second job for the same schedule is registered
    and becomes the one the schedule refers to. *)
Theorem enable_again_registers_a_second_job sid s info key j nr :
  PyDict.get sid (schedules (s_scheduler s)) = Some info ->
  type info = "interval" ->
  job_ref info = Some key ->
  PyDict.get key (lib_jobs (s_scheduler s)) = Some j ->
  key <> lib_next_id (s_scheduler s) ->
  lib_next_run (EveryMinutes (interval info)) (w_now (s_world s)) = Some nr ->
  let r := enable_schedule lib_next_run sid true s in
  let sc' := s_scheduler (fst r) in
  let fresh := lib_next_id (s_scheduler s) in
  snd r = inl tt /\
  PyDict.get key (lib_jobs sc') = Some j /\
  PyDict.get fresh (lib_jobs sc')
  = Some (mk_job (EveryMinutes (interval info)) (RunSchedule sid) nr) /\
  (job_ref <$> PyDict.get sid (schedules sc')) = Some (Some fresh) /\
  (next_run <$> PyDict.get sid (schedules sc')) = Some (Some nr).
Proof.
  intros Hget Htype Hjob Hold Hne Hlib. cbv zeta.
  assert (enable_schedule lib_next_run sid true s
          = (update_stored sid (fun i => set_enabled i true);;
             j ← _create_job lib_next_run sid (set_enabled info true);
             update_stored sid (fun i => attach i j)) s) as ->.
  { unfold enable_schedule. rewrite bind_eq. unfold gets at 1. cbv iota beta.
    now rewrite Hget. }
  rewrite bind_eq, (update_stored_eq sid _ s info Hget).
  set (s1 := with_schedules s _).
  rewrite bind_eq.
  rewrite (create_interval_job sid (set_enabled info true) s1 nr Htype Hlib).
  set (s2 := with_jobs s1 _ _).
  assert (PyDict.get sid (schedules (s_scheduler s2)) = Some (set_enabled info true))
    as Hget2 by (apply get_set_eq).
  rewrite (update_stored_eq sid _ s2 _ Hget2). simpl.
  split; [reflexivity|]. split; [rewrite get_set_ne by congruence; exact Hold|].
  split; [apply get_set_eq|]. rewrite get_set_eq. split; reflexivity.
Qed.

(** X19: [update_schedule] cancels the job a schedule has before it
    creates the new one: for a schedule that is an enabled interval
    schedule after the update, the old job is gone from the library and
    the schedule refers to the one new job. *)
Theorem update_replaces_the_job sid s info kwargs key nr :
  PyDict.get sid (schedules (s_scheduler s)) = Some info ->
  job_ref info = Some key ->
  PyDict.wf (lib_jobs (s_scheduler s)) ->
  key <> lib_next_id (s_scheduler s) ->
  let updated := fold_left assign kwargs info in
  type updated = "interval" -> enabled updated = true ->
  lib_next_run (EveryMinutes (interval updated)) (w_now (s_world s)) = Some nr ->
  let r := update_schedule lib_next_run sid kwargs s in
  let sc' := s_scheduler (fst r) in
  let fresh := lib_next_id (s_scheduler s) in
  snd r = inl tt /\
  PyDict.get key (lib_jobs sc') = None /\
  PyDict.get fresh (lib_jobs sc')
  = Some (mk_job (EveryMinutes (interval updated)) (RunSchedule sid) nr) /\
  (job_ref <$> PyDict.get sid (schedules sc')) = Some (Some fresh).
Proof.
  intros Hget Hjob Hwf Hne updated Htype Hen Hlib. cbv zeta.
  assert (update_schedule lib_next_run sid kwargs s
          = (lib_cancel key;;
             update_stored sid (fun _ => updated);;
             j ← _create_job lib_next_run sid updated;
             update_stored sid (fun i => attach i j)) s) as ->.
  { unfold update_schedule. rewrite bind_eq. unfold gets at 1. cbv iota beta.
    rewrite Hget, Hjob. fold updated. now rewrite Hen. }
  rewrite bind_eq. unfold lib_cancel, modify. cbv iota beta.
  set (s0 := with_scheduler s _).
  assert (PyDict.get sid (schedules (s_scheduler s0)) = Some info) as Hget0
    by exact Hget.
  rewrite bind_eq, (update_stored_eq sid _ s0 info Hget0).
  set (s1 := with_schedules s0 _).
  rewrite bind_eq.
  rewrite (create_interval_job sid updated s1 nr Htype Hlib).
  set (s2 := with_jobs s1 _ _).
  assert (PyDict.get sid (schedules (s_scheduler s2)) = Some updated) as Hget2
    by (apply get_set_eq).
  rewrite (update_stored_eq sid _ s2 _ Hget2). simpl.
  split; [reflexivity|]. split.
  { rewrite get_set_ne by congruence. now apply get_del_eq. }
  split; [apply get_set_eq|]. rewrite get_set_eq. reflexivity.
Qed.

(** X20: [remove_schedule] deletes the schedule, cancels the job it
    refers to and keeps the other schedules; afterwards a call of
    [_run_schedule] for the removed id, from a job that is still
    registered, runs nothing.  Removing an unknown id changes
    nothing. *)
Theorem removed_schedule_never_runs sid s :
  (forall info,
     PyDict.get sid (schedules (s_scheduler s)) = Some info ->
     PyDict.wf (schedules (s_scheduler s)) ->
     PyDict.wf (lib_jobs (s_scheduler s)) ->
     let r := remove_schedule sid s in
     let sc' := s_scheduler (fst r) in
     snd r = inl tt /\
     PyDict.get sid (schedules sc') = None /\
     (forall other, other <> sid ->
        PyDict.get other (schedules sc')
        = PyDict.get other (schedules (s_scheduler s))) /\
     (forall key, job_ref info = Some key ->
        PyDict.get key (lib_jobs sc') = None) /\
     _run_schedule sid (fst r) = (fst r, inl tt)) /\
  (PyDict.get sid (schedules (s_scheduler s)) = None ->
   remove_schedule sid s = (s, inl tt)).
Proof.
  split.
  - intros info Hget Hwf Hwfj. cbv zeta.
    assert (exists s1,
              remove_schedule sid s = (s1, inl tt) /\
              schedules (s_scheduler s1) = PyDict.del sid (schedules (s_scheduler s)) /\
              lib_jobs (s_scheduler s1)
              = match job_ref info with
                | Some key => PyDict.del key (lib_jobs (s_scheduler s))
                | None => lib_jobs (s_scheduler s)
                end) as (s1 & -> & Hsch & Hjobs).
    { unfold remove_schedule. rewrite bind_eq. unfold gets at 1. cbv iota beta.
      rewrite Hget. destruct (job_ref info) as [key|];
        (eexists; split; [reflexivity|]; split; reflexivity). }
    simpl. split; [reflexivity|].
    assert (PyDict.get sid (schedules (s_scheduler s1)) = None) as Hgone
      by (rewrite Hsch; now apply get_del_eq).
    split; [exact Hgone|]. split; [|split].
    + intros other Hne. rewrite Hsch. apply get_del_ne. congruence.
    + intros key Hkey. rewrite Hjobs, Hkey. now apply get_del_eq.
    + unfold _run_schedule. rewrite bind_eq. unfold gets. cbv iota beta.
      now rewrite Hgone.
  - intros Hnone. unfold remove_schedule. rewrite bind_eq. unfold gets.
    cbv iota beta. now rewrite Hnone.
Qed.

(** X21: a weekly schedule with an empty list of days cannot be added
    enabled: [_create_job] never binds its local [job], the exception
    leaves [add_schedule] and nothing is stored, registered or
    logged.  Added disabled, the same schedule is stored. *)
Theorem weekly_schedule_without_days sid nm time_str interval_ actions_ s :
  add_schedule lib_next_run sid nm "weekly" time_str [] interval_ actions_ true s
  = (s, inr "UnboundLocalError: job") /\
  exists s',
    add_schedule lib_next_run sid nm "weekly" time_str [] interval_ actions_
      false s = (s', inl sid) /\
    PyDict.get sid (schedules (s_scheduler s'))
    = Some (mk_schedule sid nm "weekly" time_str [] interval_ actions_ false
              (w_now (s_world s)) None None None).
Proof.
  split.
  - unfold add_schedule, _create_job, _create_job_select. rewrite !bind_eq.
    unfold gets. cbv iota beta. simpl. reflexivity.
  - unfold add_schedule. rewrite !bind_eq. unfold gets. cbv iota beta. simpl.
    eexists. split; [reflexivity|]. simpl. apply get_set_eq.
Qed.

End Jobs.

(** A scheduler that holds the interval schedule "tick" (every ten
    minutes), added enabled. *)
Definition ticking : sys :=
  fst (add_schedule Scenario.lib_next_run "uuid-2" "tick" "interval" None []
         (Some 10) [] true Scenario.idle_scheduler).

Definition tick_info : schedule_info :=
  mk_schedule "uuid-2" "tick" "interval" None [] (Some 10) [] true 1000 None
    (Some 1600) (Some 0%nat).

Definition tick_job : job :=
  mk_job (EveryMinutes (Some 10)) (RunSchedule "uuid-2") 1600.

(** X18, an instance: "tick" is enabled a second time. *)
Lemma enable_again_registers_a_second_job_witness :
  let sc' := s_scheduler (fst (enable_schedule Scenario.lib_next_run "uuid-2"
                                 true ticking)) in
  (job_target_of <$> PyDict.get 0%nat (lib_jobs sc')) = Some (RunSchedule "uuid-2") /\
  (job_target_of <$> PyDict.get 1%nat (lib_jobs sc')) = Some (RunSchedule "uuid-2").
Proof.
  cbv zeta.
  edestruct (enable_again_registers_a_second_job Scenario.lib_next_run
               "uuid-2" ticking tick_info 0%nat tick_job 1600)
    as (_ & Hold & Hnew & _).
  - reflexivity.
  - reflexivity.
  - reflexivity.
  - reflexivity.
  - vm_compute. discriminate.
  - reflexivity.
  - cbv zeta in Hold, Hnew. rewrite Hold. split; [reflexivity|].
    change (lib_next_id (s_scheduler ticking)) with 1%nat in Hnew.
    rewrite Hnew. reflexivity.
Defined.

(** X19, an instance: the interval of "tick" is changed to five
    minutes. *)
Lemma update_replaces_the_job_witness :
  let sc' := s_scheduler (fst (update_schedule Scenario.lib_next_run "uuid-2"
                                 [K_interval (Some 5)] ticking)) in
  PyDict.get 0%nat (lib_jobs sc') = None /\
  (job_unit_of <$> PyDict.get 1%nat (lib_jobs sc')) = Some (EveryMinutes (Some 5)).
Proof.
  cbv zeta.
  edestruct (update_replaces_the_job Scenario.lib_next_run "uuid-2" ticking
               tick_info [K_interval (Some 5)] 0%nat 1300)
    as (_ & Hold & Hnew & _).
  - reflexivity.
  - reflexivity.
  - unfold PyDict.wf. simpl. apply NoDup_singleton.
  - vm_compute. discriminate.
  - reflexivity.
  - reflexivity.
  - reflexivity.
  - cbv zeta in Hold, Hnew. split; [exact Hold|].
    change (lib_next_id (s_scheduler ticking)) with 1%nat in Hnew.
    rewrite Hnew. reflexivity.
Defined.

(** X20, an instance: "tick" is removed. *)
Lemma removed_schedule_never_runs_witness :
  let r := remove_schedule "uuid-2" ticking in
  PyDict.get "uuid-2" (schedules (s_scheduler (fst r))) = None /\
  PyDict.get 0%nat (lib_jobs (s_scheduler (fst r))) = None /\
  _run_schedule "uuid-2" (fst r) = (fst r, inl tt).
Proof.
  cbv zeta.
  destruct (removed_schedule_never_runs "uuid-2" ticking) as [H _].
  destruct (H tick_info) as (_ & Hgone & _ & Hjob & Hrun).
  - reflexivity.
  - unfold PyDict.wf. simpl. apply NoDup_singleton.
  - unfold PyDict.wf. simpl. apply NoDup_singleton.
  - cbv zeta in *. split; [exact Hgone|]. split; [|exact Hrun].
    apply Hjob. reflexivity.
Defined.

Definition not_later (x y : upcoming) : Prop := u_next_run x <= u_next_run y.

Lemma In_omap {A B} (f : A -> option B) (l : list A) (y : B) :
  In y (omap f l) <-> exists x, In x l /\ f x = Some y.
Proof.
  induction l as [|a l IH]; simpl.
  - split; [intros [] | intros (x & [] & _)].
  - destruct (f a) as [b|] eqn:Hfa; simpl; rewrite IH; split.
    + intros [<-|(x & Hx & Hf)]; [exists a; auto | exists x; auto].
    + intros (x & [<-|Hx] & Hf); [left; congruence | right; eauto].
    + intros (x & Hx & Hf). exists x. auto.
    + intros (x & [<-|Hx] & Hf); [congruence | eauto].
Qed.

Lemma length_omap {A B} (f : A -> option B) (l : list A) :
  (List.length (omap f l) <= List.length l)%nat.
Proof.
  unfold omap. induction l as [|a l IH]; simpl; [lia|].
  destruct (f a); simpl; lia.
Qed.

(** X22: [get_next_runs] lists the enabled schedules that have a
    next_run, and only those, each with its id, name, type and
    next_run, the soonest first. *)
Theorem next_runs_are_sorted sc :
  let up := get_next_runs sc in
  StronglySorted not_later up /\
  (forall u, In u up <->
     exists info,
       In (u_id u, info) (schedules sc) /\ enabled info = true /\
       next_run info = Some (u_next_run u) /\
       u_name u = name info /\ u_type u = type info) /\
  (List.length up <= List.length (schedules sc))%nat.
Proof.
  cbv zeta. unfold get_next_runs, PyList.sorted_asc.
  set (later := fun x y : upcoming => sooner y x).
  set (l := omap upcoming_of (schedules sc)).
  split; [|split].
  - assert (StronglySorted (PyList.ge_key later) (PyList.sorted_desc later l)) as H.
    { apply sorted_desc_sorted; unfold later, sooner.
      - intros x y z H1 H2. apply Z.ltb_ge. apply Z.ltb_ge in H1, H2. lia.
      - intros x y H. apply Z.ltb_ge. apply Z.ltb_lt in H. lia. }
    revert H. generalize (PyList.sorted_desc later l).
    induction 1 as [|a k Hk IH Hall]; constructor; [exact IH|].
    revert Hall. apply List.Forall_impl. intros b.
    unfold PyList.ge_key, later, sooner, not_later. rewrite Z.ltb_ge. lia.
  - intros u. rewrite sorted_desc_In. unfold l. rewrite In_omap. split.
    + intros ([sid info] & Hin & Hu). unfold upcoming_of in Hu. simpl in Hu.
      destruct (enabled info) eqn:Hen; [|discriminate].
      destruct (next_run info) as [t|] eqn:Hnr; [|discriminate].
      injection Hu as <-. exists info. simpl. auto.
    + intros (info & Hin & Hen & Hnr & Hname & Htype).
      exists (u_id u, info). split; [exact Hin|].
      unfold upcoming_of. simpl. rewrite Hen, Hnr, <- Hname, <- Htype.
      destruct u; reflexivity.
  - rewrite sorted_desc_length. apply length_omap.
Qed.

Lemma get_processes_sorted w :
  StronglySorted MonitorSpec.cpu_ge (Monitor.get_processes w).
Proof.
  unfold Monitor.get_processes. apply take_sorted.
  set (l := Monitor.collect w (w_procs w) 0 []).
  pose proof (sorted_desc_sorted Monitor.cpu_ltb MonitorSpec.cpu_ltb_trans_ge
                MonitorSpec.cpu_ltb_asym l) as H.
  revert H. generalize (PyList.sorted_desc Monitor.cpu_ltb l).
  induction 1 as [|a k Hk IH Hall]; constructor; [exact IH|].
  revert Hall. apply List.Forall_impl. intros b. apply MonitorSpec.ge_key_cpu.
Qed.

(** X23: the idle check runs the schedule exactly when the first
    snapshot of the poll is below 10% CPU (or the poll is empty); as
    the poll is sorted, it then runs only while every polled process is
    below 10% CPU; otherwise it does nothing. *)
Theorem idle_check_runs_only_when_quiet sid s :
  ((busiest_cpu (s_world s) < 10)%Q ->
     _check_idle_and_run sid s = _run_schedule sid s /\
     List.Forall (fun p => (Monitor.cpu_percent p < 10)%Q)
       (Monitor.get_processes (s_world s))) /\
  ((10 <= busiest_cpu (s_world s))%Q ->
     _check_idle_and_run sid s = (s, inl tt)) /\
  (Monitor.get_processes (s_world s) = [] ->
     _check_idle_and_run sid s = _run_schedule sid s).
Proof.
  assert (forall b, q_ltb (busiest_cpu (s_world s)) 10 = b ->
            _check_idle_and_run sid s
            = if b then _run_schedule sid s else (s, inl tt)) as Hrun.
  { intros b Hb. unfold _check_idle_and_run. rewrite bind_eq. unfold gets.
    cbv iota beta. rewrite Hb. destruct b; reflexivity. }
  split; [|split].
  - intros Hlt. split; [apply (Hrun true), q_ltb_lt, Hlt|].
    pose proof (get_processes_sorted (s_world s)) as Hs.
    unfold busiest_cpu in Hlt.
    destruct (Monitor.get_processes (s_world s)) as [|p ps]; constructor.
    + exact Hlt.
    + apply StronglySorted_inv in Hs as [_ Hall]. revert Hall.
      apply List.Forall_impl. intros q Hq. unfold MonitorSpec.cpu_ge in Hq.
      eapply Qle_lt_trans; eassumption.
  - intros Hge. apply (Hrun false), q_ltb_ge, Hge.
  - intros Hnil. apply (Hrun true). unfold busiest_cpu. rewrite Hnil.
    reflexivity.
Qed.

(** X23, an instance: the host with the browser at 40% CPU, and the
    host without processes. *)
Lemma idle_check_runs_only_when_quiet_witness :
  _check_idle_and_run "uuid-2" ticking = (ticking, inl tt) /\
  _check_idle_and_run "uuid-2"
    (mk_sys Scenario.empty_host Scenario.fresh_optimizer
       (s_scheduler ticking) [])
  = _run_schedule "uuid-2"
      (mk_sys Scenario.empty_host Scenario.fresh_optimizer
         (s_scheduler ticking) []).
Proof.
  destruct (idle_check_runs_only_when_quiet "uuid-2" ticking) as (_ & Hbusy & _).
  destruct (idle_check_runs_only_when_quiet "uuid-2"
              (mk_sys Scenario.empty_host Scenario.fresh_optimizer
                 (s_scheduler ticking) [])) as (_ & _ & Hempty).
  split; [apply Hbusy | apply Hempty; reflexivity].
  vm_compute. discriminate.
Defined.

End SchedulerMore.

(* ===================================================================== *)
(* The automatic game mode of the main window                            *)
(* ===================================================================== *)
Module MainWindowSpec.
Import OS GameDetector MainWindow.

(** The parts of the result of [_check_for_games]. *)
Definition detector_after
    (r : world * Optimizer.optimizer * detector * app * list ui_event
         * option string) : detector := snd (fst (fst (fst r))).
Definition app_after
    (r : world * Optimizer.optimizer * detector * app * list ui_event
         * option string) : app := snd (fst (fst r)).
Definition ui_calls
    (r : world * Optimizer.optimizer * detector * app * list ui_event
         * option string) : list ui_event := snd (fst r).

(** X24: with automatic game mode on, a check that ends without an
    exception leaves the session active exactly when the poll showed a
    game; the widgets are told the new state when the session changed
    and are not touched otherwise.  With automatic game mode off the
    check does nothing. *)
Theorem auto_game_mode_follows_detection w o d a :
  (game_mode_auto a = true ->
   let r := _check_for_games w o d a in
   detected_games (app_after r)
   = snd (detect_games d w (Monitor.get_processes w)) /\
   (snd r = None ->
    (game_mode_active (detector_after r) = true <->
     detected_games (app_after r) <> []) /\
    ui_calls r
    = if Bool.eqb (game_mode_active d) (game_mode_active (detector_after r))
      then []
      else [UpdateGameModeUi (game_mode_active (detector_after r));
            ShowGameNotification (game_mode_active (detector_after r))])) /\
  (game_mode_auto a = false -> _check_for_games w o d a = (w, o, d, a, [], None)).
Proof.
  split.
  - intros Hauto. cbv zeta. unfold _check_for_games. rewrite Hauto. simpl.
    unfold detect_games.
    destruct (GameDetectorSpec.detect_loop_spec w (Monitor.get_processes w) d [])
      as (_ & Hact & _). cbv zeta in Hact.
    destruct (detect_loop d w (Monitor.get_processes w) []) as [d1 found].
    simpl in Hact. unfold detector_after, app_after, ui_calls.
    destruct found as [|g found].
    + destruct (game_mode_active d1) eqn:H1.
      * unfold disable_game_mode. rewrite H1. simpl.
        destruct (remove_all _ _ _) as [w2 o2]. simpl.
        split; [reflexivity|]. intros _. rewrite <- Hact. simpl.
        split; [split; [discriminate | congruence] | reflexivity].
      * simpl. split; [reflexivity|]. intros _. rewrite <- Hact, H1. simpl.
        split; [split; [discriminate | congruence] | reflexivity].
    + destruct (game_mode_active d1) eqn:H1; simpl.
      * split; [reflexivity|]. intros _. rewrite <- Hact, H1. simpl.
        split; [split; [discriminate | reflexivity] | reflexivity].
      * unfold enable_game_mode. rewrite H1.
        destruct (enable_loop w o (g :: found)) as [[w2 o2] [e|]]; simpl.
        -- split; [reflexivity | discriminate].
        -- split; [reflexivity|]. intros _. rewrite <- Hact. simpl.
           split; [split; [discriminate | reflexivity] | reflexivity].
  - intros Hauto. unfold _check_for_games. now rewrite Hauto.
Qed.

(** X24, an instance: valorant.exe starts while automatic game mode is
    on. *)
Lemma auto_game_mode_follows_detection_witness :
  let w := Scenario.host 1000 [(1, Scenario.proc "valorant.exe" (40 # 1) (3 # 1))] in
  let r := _check_for_games w Scenario.fresh_optimizer Scenario.fresh_detector
             (mk_app true []) in
  game_mode_active (detector_after r) = true /\
  ui_calls r = [UpdateGameModeUi true; ShowGameNotification true].
Proof.
  cbv zeta.
  destruct (auto_game_mode_follows_detection
              (Scenario.host 1000 [(1, Scenario.proc "valorant.exe" (40 # 1) (3 # 1))])
              Scenario.fresh_optimizer Scenario.fresh_detector (mk_app true []))
    as [H _].
  destruct (H eq_refl) as (Hfound & Hok). cbv zeta in Hok.
  destruct (Hok eq_refl) as (Hactive & Hui).
  assert (game_mode_active
            (detector_after
               (_check_for_games
                  (Scenario.host 1000 [(1, Scenario.proc "valorant.exe" (40 # 1) (3 # 1))])
                  Scenario.fresh_optimizer Scenario.fresh_detector
                  (mk_app true []))) = true) as Hon.
  { apply Hactive. rewrite Hfound. discriminate. }
  split; [exact Hon|]. rewrite Hui, Hon. reflexivity.
Defined.

End MainWindowSpec.
